(** * vanilla-to-do-list: the models and views of the to-do lists overview
    and of the single to-do list

    A shallow embedding of [src/js/components/vanilla-to-do-lists.js] and
    [src/js/components/vanilla-to-do-list.js]: the two model classes
    ([VanillaToDoListsModel], [VanillaToDoListModel]) with their local
    storage and clock effects threaded through a small state monad, and
    the [render] methods of the two view classes as pure functions from the
    rendered payload, the location hash and what the document answers to
    [querySelector] for that hash, to a description of what is shown. *)

From stdpp Require Import base list strings pretty.
From Stdlib Require Import ZArith Lia.

(** ** JavaScript values

    The records come out of [JSON.parse], so a [done] field may hold any
    JSON value or be missing ([undefined]); the code inspects it with [===],
    [!==] and [!]. Numbers are modelled as integers; [NaN] only arises from
    the unary plus applied to an id attribute and is kept in [number]. *)
Module Js.

Inductive value :=
  | undefined
  | null
  | boolean (b : bool)
  | num (z : Z)
  | str (s : string).

(** A number as the unary plus yields it: an integer or [NaN]. *)
Inductive number :=
  | NaN
  | Int (z : Z).

(** [a === b] on values. *)
Definition strict_eq (a b : value) : bool :=
  match a, b with
  | undefined, undefined => true
  | null, null => true
  | boolean x, boolean y => Bool.eqb x y
  | num x, num y => Z.eqb x y
  | str x, str y => String.eqb x y
  | _, _ => false
  end.

(** [a !== b] on values. *)
Definition strict_neq (a b : value) : bool := negb (strict_eq a b).

(** [a === b] on numbers: [NaN] equals nothing, itself included. *)
Definition number_strict_eq (a b : number) : bool :=
  match a, b with
  | Int x, Int y => Z.eqb x y
  | _, _ => false
  end.

(** [a !== b] on numbers. *)
Definition number_strict_neq (a b : number) : bool := negb (number_strict_eq a b).

(** The boolean a value coerces to. *)
Definition to_boolean (v : value) : bool :=
  match v with
  | undefined => false
  | null => false
  | boolean b => b
  | num z => negb (Z.eqb z 0)
  | str s => negb (String.eqb s "")
  end.

(** [!v], always a boolean. *)
Definition not (v : value) : value := boolean (negb (to_boolean v)).

(** [typeof v === 'boolean']. *)
Definition is_boolean (v : value) : bool :=
  match v with
  | boolean _ => true
  | _ => false
  end.

(** *** A number in a template literal

    [`${n}`] writes a number as [Number::toString] does: with the fewest
    decimal digits that still denote the same double, followed by zeros up
    to 21 digits and by an exponent from there on. An integer of the model
    stands for the double nearest to it. *)

(** The double nearest to an integer [0 <= z], a tie going to the even
    significand; every integer below [2^53] is a double. *)
Definition nearest_double (z : Z) : Z :=
  (if z <? 2 ^ 53 then z
   else
     let e := Z.log2 z - 52 in
     let m := z / 2 ^ e in
     let r := z mod 2 ^ e in
     let half := 2 ^ (e - 1) in
     (if r <? half then m
      else if half <? r then m + 1
      else if Z.even m then m else m + 1) * 2 ^ e)%Z.

(** The integer with the fewest significant digits that denotes the
    double [x]: the multiples of [10^j] next to [x] are tried, from the
    one-digit ones down to [x] itself; of two that denote [x] the nearer
    one is taken, and of two equally near the one with the even last
    digit. *)
Fixpoint shortest (j : nat) (x : Z) : Z :=
  let p := (10 ^ Z.of_nat j)%Z in
  let lo := (x / p * p)%Z in
  let hi := (lo + p)%Z in
  let lo_is_x := (nearest_double lo =? x)%Z in
  let hi_is_x := (nearest_double hi =? x)%Z in
  if lo_is_x && hi_is_x then
    if (x - lo <? hi - x)%Z then lo
    else if (hi - x <? x - lo)%Z then hi
    else if Z.even (x / p) then lo else hi
  else if lo_is_x then lo
  else if hi_is_x then hi
  else
    match j with
    | O => x
    | S j' => shortest j' x
    end.

(** A string of digits without its final zeros (the zero is character
    48). *)
Fixpoint significant (digits : string) : string :=
  match digits with
  | EmptyString => EmptyString
  | String c digits' =>
      match significant digits' with
      | EmptyString =>
          if Nat.eqb (Ascii.nat_of_ascii c) 48 then EmptyString
          else String c EmptyString
      | rest => String c rest
      end
  end.

(** [`${z}`] for [0 <= z]: an integer beyond the largest double is
    [Infinity]; [shortest] starts at the multiples of the power of ten
    that has as many digits as [x]; below [10^21] all digits are written,
    the final zeros included, and from there on the significant digits,
    a point after the first of them, and the exponent. *)
Definition positive_to_string (z : Z) : string :=
  let x := nearest_double z in
  if (2 ^ 1024 <=? x)%Z then "Infinity"
  else
    let v := shortest (String.length (pretty x) - 1) x in
    let digits := pretty v in
    if (v <? 10 ^ 21)%Z then digits
    else
      let e := pretty (String.length digits - 1) in
      match significant digits with
      | EmptyString => digits
      | String d EmptyString => String d ("e+" +:+ e)
      | String d rest => String d ("." +:+ rest +:+ "e+" +:+ e)
      end.

(** [`${z}`]: a negative number is written as its sign and its absolute
    value. *)
Definition number_to_string (z : Z) : string :=
  if (z <? 0)%Z then "-" +:+ positive_to_string (- z)
  else positive_to_string z.

End Js.

(** ** Records *)

(** What the code uses of a [Date] object. *)
Record Date := { getTime : Z; toJSON : string }.

(** A to-do list item; a timestamp that is [null] is [None]. *)
Module ToDoListItem.
Record t := {
  id : Z;
  created : string;
  lastUpdated : option string;
  text : string;
  done : Js.value
}.
Definition with_text (d : Date) (textNew : string) (i : t) : t :=
  {| id := id i; created := created i; lastUpdated := Some (toJSON d);
     text := textNew; done := done i |}.
Definition with_done (v : Js.value) (i : t) : t :=
  {| id := id i; created := created i; lastUpdated := lastUpdated i;
     text := text i; done := v |}.
End ToDoListItem.

(** A to-do list. *)
Module ToDoList.
Record t := {
  id : Z;
  created : string;
  lastRenamed : option string;
  lastUpdated : option string;
  name : string;
  done : Js.value;
  items : list ToDoListItem.t
}.
Definition with_name (d : Date) (nameNew : string) (l : t) : t :=
  {| id := id l; created := created l; lastRenamed := Some (toJSON d);
     lastUpdated := lastUpdated l; name := nameNew; done := done l;
     items := items l |}.
Definition with_done (v : Js.value) (l : t) : t :=
  {| id := id l; created := created l; lastRenamed := lastRenamed l;
     lastUpdated := lastUpdated l; name := name l; done := v;
     items := items l |}.
Definition with_items (its : list ToDoListItem.t) (l : t) : t :=
  {| id := id l; created := created l; lastRenamed := lastRenamed l;
     lastUpdated := lastUpdated l; name := name l; done := done l;
     items := its |}.
Definition with_lastUpdated (d : Date) (l : t) : t :=
  {| id := id l; created := created l; lastRenamed := lastRenamed l;
     lastUpdated := Some (toJSON d); name := name l; done := done l;
     items := items l |}.
End ToDoList.

(** The object the single-list model hands to its view: a to-do list found
    in the collection, or the bare [{items: [...]}] object when none was
    found, whose other properties are all [undefined]. *)
Inductive Payload :=
  | Found (l : ToDoList.t)
  | Bare (its : list ToDoListItem.t).

Definition payload_id (p : Payload) : option Z :=
  match p with
  | Found l => Some (ToDoList.id l)
  | Bare _ => None
  end.

Definition payload_items (p : Payload) : list ToDoListItem.t :=
  match p with
  | Found l => ToDoList.items l
  | Bare its => its
  end.

(** ** The world: local storage, the clock, the bound callbacks

    [localStorage] holds the value under the key ['toDoLists'], parsed
    ([None] when the key is absent): [JSON.stringify] and [JSON.parse]
    give the records of this model back as they were, a missing [done]
    included; [clock] gives the k-th [new Date()] of
    the session and [ticks] counts the dates taken so far; the two logs
    record the arguments the change callbacks were called with, oldest
    first. *)
Record World := {
  localStorage : option (list ToDoList.t);
  clock : nat -> Date;
  ticks : nat;
  toDoListsChanged : list (list ToDoList.t);
  toDoListChanged : list Payload
}.

(** Stateful computations over the world. *)
Definition M (A : Type) : Type := World -> A * World.

Definition ret {A} (a : A) : M A := fun w => (a, w).

Definition bind {A B} (m : M A) (k : A -> M B) : M B :=
  fun w => let (a, w') := m w in k a w'.

Notation "'let*' x := m 'in' k" := (bind m (fun x => k))
  (at level 10, x name, m at level 100, k at level 200).
Notation "m ;; k" := (bind m (fun _ => k))
  (at level 100, k at level 200, right associativity).

(** [new Date()]. *)
Definition newDate : M Date :=
  fun w => (clock w (ticks w),
            {| localStorage := localStorage w; clock := clock w;
               ticks := S (ticks w);
               toDoListsChanged := toDoListsChanged w;
               toDoListChanged := toDoListChanged w |}).

(** [JSON.parse(localStorage.getItem('toDoLists'))]. *)
Definition getItem : M (option (list ToDoList.t)) :=
  fun w => (localStorage w, w).

(** [localStorage.setItem('toDoLists', JSON.stringify(toDoLists))]. *)
Definition setItem (toDoLists : list ToDoList.t) : M unit :=
  fun w => (tt,
            {| localStorage := Some toDoLists; clock := clock w;
               ticks := ticks w;
               toDoListsChanged := toDoListsChanged w;
               toDoListChanged := toDoListChanged w |}).

(** [Array.prototype.map] with a callback that has effects: left to
    right. *)
Fixpoint mapM {A B} (f : A -> M B) (l : list A) : M (list B) :=
  match l with
  | [] => ret []
  | x :: l' => let* y := f x in let* ys := mapM f l' in ret (y :: ys)
  end.

(** The collection a model loads: [JSON.parse(...) || []]. *)
Definition load (w : World) : list ToDoList.t := default [] (localStorage w).

(** ** The model of the to-do lists overview
    ([class VanillaToDoListsModel]) *)
Module VanillaToDoListsModel.

(** The object's state: [this.toDoLists]. *)
Record t := { toDoLists : list ToDoList.t }.

Definition constructor : M t :=
  let* stored := getItem in
  ret {| toDoLists := default [] stored |}.

(** [#store(toDoLists)]. *)
Definition store (toDoLists : list ToDoList.t) : M unit := setItem toDoLists.

(** [#updateView(toDoLists)]: calls the bound callback. *)
Definition updateView (toDoLists : list ToDoList.t) : M unit :=
  fun w => (tt,
            {| localStorage := localStorage w; clock := clock w;
               ticks := ticks w;
               toDoListsChanged := toDoListsChanged w ++ [toDoLists];
               toDoListChanged := toDoListChanged w |}).

Definition createToDoList (toDoListName : string) (this : t) : M t :=
  let* toDoListDateCreated := newDate in
  let toDoList :=
    {| ToDoList.id := getTime toDoListDateCreated;
       ToDoList.created := toJSON toDoListDateCreated;
       ToDoList.lastRenamed := None;
       ToDoList.lastUpdated := None;
       ToDoList.name := toDoListName;
       ToDoList.done := Js.boolean false;
       ToDoList.items := [] |} in
  let toDoLists' := toDoLists this ++ [toDoList] in
  store toDoLists' ;;
  updateView toDoLists' ;;
  ret {| toDoLists := toDoLists' |}.

Definition updateToDoList (id : Js.number) (toDoListNameNew : string)
    (this : t) : M t :=
  let* toDoLists' :=
    mapM (fun toDoList =>
            if Js.number_strict_eq (Js.Int (ToDoList.id toDoList)) id then
              let* toDoListDateLastRenamed := newDate in
              ret (ToDoList.with_name toDoListDateLastRenamed toDoListNameNew
                     toDoList)
            else ret toDoList)
         (toDoLists this) in
  store toDoLists' ;;
  updateView toDoLists' ;;
  ret {| toDoLists := toDoLists' |}.

Definition deleteToDoList (id : Js.number) (this : t) : M t :=
  let toDoLists' :=
    List.filter
      (fun toDoList => Js.number_strict_neq (Js.Int (ToDoList.id toDoList)) id)
      (toDoLists this) in
  store toDoLists' ;;
  updateView toDoLists' ;;
  ret {| toDoLists := toDoLists' |}.

Definition toggleToDoList (id : Js.number) (this : t) : M t :=
  let toDoLists' :=
    List.map
      (fun toDoList =>
         if Js.number_strict_eq (Js.Int (ToDoList.id toDoList)) id then
           ToDoList.with_done (Js.not (ToDoList.done toDoList)) toDoList
         else toDoList)
      (toDoLists this) in
  store toDoLists' ;;
  updateView toDoLists' ;;
  ret {| toDoLists := toDoLists' |}.

Definition toggleAllToDoLists (this : t) : M t :=
  let toDoLists' :=
    List.map
      (fun toDoList =>
         ToDoList.with_done (Js.not (ToDoList.done toDoList)) toDoList)
      (toDoLists this) in
  store toDoLists' ;;
  updateView toDoLists' ;;
  ret {| toDoLists := toDoLists' |}.

Definition clearToDoLists (this : t) : M t :=
  let toDoLists' :=
    List.filter
      (fun toDoList => Js.strict_eq (ToDoList.done toDoList) (Js.boolean false))
      (toDoLists this) in
  store toDoLists' ;;
  updateView toDoLists' ;;
  ret {| toDoLists := toDoLists' |}.

End VanillaToDoListsModel.

(** ** The model of a single to-do list ([class VanillaToDoListModel]) *)
Module VanillaToDoListModel.

(** [this.toDoList] is either one of the objects of [this.toDoLists], the
    one [find] returned, or an object of its own. The first case is kept as
    the position of that object in the array ([map] keeps the objects and
    their positions), so that a write through [this.toDoList] is a write to
    the array's element. *)
Inductive Ref :=
  | Element (i : nat)
  | Own (its : list ToDoListItem.t).

(** The object's state: [this.toDoListId], [this.toDoList],
    [this.toDoLists]. *)
Record t := {
  toDoListId : Js.number;
  toDoList : Ref;
  toDoLists : list ToDoList.t
}.

(** The object [this.toDoList] refers to. *)
Definition deref (this : t) : Payload :=
  match toDoList this with
  | Element i =>
      match toDoLists this !! i with
      | Some l => Found l
      | None => Bare []
      end
  | Own its => Bare its
  end.

(** [this.toDoList.items]. *)
Definition getItems (this : t) : list ToDoListItem.t :=
  payload_items (deref this).

(** [this.toDoList.items = its]. *)
Definition setItems (its : list ToDoListItem.t) (this : t) : t :=
  match toDoList this with
  | Element i =>
      {| toDoListId := toDoListId this; toDoList := Element i;
         toDoLists := alter (ToDoList.with_items its) i (toDoLists this) |}
  | Own _ =>
      {| toDoListId := toDoListId this; toDoList := Own its;
         toDoLists := toDoLists this |}
  end.

(** The callback of [find] and of [#store]'s [map]:
    [toDoList.id === this.toDoListId]. *)
Definition addressed (toDoListId : Js.number) (toDoList : ToDoList.t) : bool :=
  Js.number_strict_eq (Js.Int (ToDoList.id toDoList)) toDoListId.

(** The constructor, given [+id]. A list's [items] is an array in this
    model, so the final [this.toDoList.items || []] changes nothing on a
    list that was found, and gives the object of its own an empty array. *)
Definition constructor (toDoListId : Js.number) : M t :=
  let* stored := getItem in
  let toDoLists := default [] stored in
  let toDoList :=
    match list_find (fun l => Is_true (addressed toDoListId l)) toDoLists with
    | Some (i, _) => Element i
    | None => Own []
    end in
  ret {| toDoListId := toDoListId; toDoList := toDoList;
         toDoLists := toDoLists |}.

(** [#store(this.toDoList)]. *)
Definition store (this : t) : M t :=
  let toDoListChanged_items := getItems this in
  let* toDoLists' :=
    mapM (fun toDoList =>
            if addressed (toDoListId this) toDoList then
              let* toDoListDateLastUpdated := newDate in
              ret (ToDoList.with_items toDoListChanged_items
                     (ToDoList.with_lastUpdated toDoListDateLastUpdated
                        toDoList))
            else ret toDoList)
         (toDoLists this) in
  setItem toDoLists' ;;
  ret {| toDoListId := toDoListId this; toDoList := toDoList this;
         toDoLists := toDoLists' |}.

(** [#updateView(this.toDoList)]: calls the bound callback. *)
Definition updateView (this : t) : M unit :=
  fun w => (tt,
            {| localStorage := localStorage w; clock := clock w;
               ticks := ticks w;
               toDoListsChanged := toDoListsChanged w;
               toDoListChanged := toDoListChanged w ++ [deref this] |}).

Definition createToDoListItem (toDoListItemText : string) (this : t) : M t :=
  let* toDoListItemDateCreated := newDate in
  let toDoListItem :=
    {| ToDoListItem.id := getTime toDoListItemDateCreated;
       ToDoListItem.created := toJSON toDoListItemDateCreated;
       ToDoListItem.lastUpdated := None;
       ToDoListItem.text := toDoListItemText;
       ToDoListItem.done := Js.boolean false |} in
  let this := setItems (getItems this ++ [toDoListItem]) this in
  let* this := store this in
  updateView this ;;
  ret this.

Definition updateToDoListItem (id : Js.number) (toDoListItemTextNew : string)
    (this : t) : M t :=
  let* items' :=
    mapM (fun toDoListItem =>
            if Js.number_strict_eq (Js.Int (ToDoListItem.id toDoListItem)) id
            then
              let* toDoListItemDateLastUpdated := newDate in
              ret (ToDoListItem.with_text toDoListItemDateLastUpdated
                     toDoListItemTextNew toDoListItem)
            else ret toDoListItem)
         (getItems this) in
  let this := setItems items' this in
  let* this := store this in
  updateView this ;;
  ret this.

Definition deleteToDoListItem (id : Js.number) (this : t) : M t :=
  let this :=
    setItems
      (List.filter
         (fun toDoListItem =>
            Js.number_strict_neq (Js.Int (ToDoListItem.id toDoListItem)) id)
         (getItems this))
      this in
  let* this := store this in
  updateView this ;;
  ret this.

Definition toggleToDoListItem (id : Js.number) (this : t) : M t :=
  let this :=
    setItems
      (List.map
         (fun toDoListItem =>
            if Js.number_strict_eq (Js.Int (ToDoListItem.id toDoListItem)) id
            then
              ToDoListItem.with_done
                (Js.not (ToDoListItem.done toDoListItem)) toDoListItem
            else toDoListItem)
         (getItems this))
      this in
  let* this := store this in
  updateView this ;;
  ret this.

Definition toggleAllToDoListItems (this : t) : M t :=
  let this :=
    setItems
      (List.map
         (fun toDoListItem =>
            ToDoListItem.with_done
              (Js.not (ToDoListItem.done toDoListItem)) toDoListItem)
         (getItems this))
      this in
  let* this := store this in
  updateView this ;;
  ret this.

Definition clearToDoList (this : t) : M t :=
  let this :=
    setItems
      (List.filter
         (fun toDoListItem =>
            Js.strict_eq (ToDoListItem.done toDoListItem) (Js.boolean false))
         (getItems this))
      this in
  let* this := store this in
  updateView this ;;
  ret this.

End VanillaToDoListModel.

(** ** The views

    [render] rebuilds the section from the rendered payload and
    [window.location.hash]; the result below describes what it leaves in
    the document: the rows appended (or the paragraph shown instead), the
    text of the count, and which controls are hidden. Its last but one
    statement asks the document for the element the hash selects,
    [this.nodeSectionContainer.querySelector(windowLocationHash)]; what
    the document answers is an argument of [render], as the hash is: the
    element found, or [None] where there is none ([null]) or the hash is
    no selector. *)

(** The two filters every [render] applies, to lists and to items alike:
    [records.filter(r => r.done !== true)] and
    [records.filter(r => r.done !== false)]. *)
Definition filterPending {A} (done : A -> Js.value) (records : list A) : list A :=
  List.filter (fun r => Js.strict_neq (done r) (Js.boolean true)) records.

Definition filterDone {A} (done : A -> Js.value) (records : list A) : list A :=
  List.filter (fun r => Js.strict_neq (done r) (Js.boolean false)) records.

(** [window.location.hash === '' ? '#all' : window.location.hash]. *)
Definition windowLocationHash (hash : string) : string :=
  if String.eqb hash "" then "#all" else hash.

(** What the section holds after a render. *)
Inductive Section (Row : Type) :=
  | Rows (rows : list Row)
  | Paragraph (textContent : string).
Arguments Rows {Row} rows.
Arguments Paragraph {Row} textContent.

(** The footer: hidden, or shown with the count's text and whether the
    clear button is shown. *)
Inductive Footer :=
  | FooterHidden
  | FooterShown (count : string) (clearShown : bool).

Module VanillaToDoListView.

Record Row := {
  row_class : string;
  row_id : Z;
  select_title : string;
  select_checked : bool;
  text_created : string;
  text_lastModified : option string;
  text_textContent : string
}.

(** [selected] is the element that is given the class [selected] once the
    filter links have lost it; [None] where [querySelector] found none, or
    rejected the hash: the statement then throws, with the section and the
    footer already written, and the input is not focused. *)
Record View (Node : Type) := {
  heading : option (string * string);
  toggleAllHidden : bool;
  inputShrunk : bool;
  section : Section Row;
  footer : Footer;
  selected : option Node
}.
Arguments heading {Node} _.
Arguments toggleAllHidden {Node} _.
Arguments inputShrunk {Node} _.
Arguments section {Node} _.
Arguments footer {Node} _.
Arguments selected {Node} _.

(** The body of the [forEach] over the displayed items. *)
Definition renderItem (toDoListItem : ToDoListItem.t) : Row :=
  let pending :=
    Js.strict_eq (ToDoListItem.done toDoListItem) (Js.boolean false) in
  {| row_class := if pending then "pending" else "done";
     row_id := ToDoListItem.id toDoListItem;
     select_title :=
       "Click to mark as " +:+ (if pending then "done" else "pending");
     select_checked := Js.to_boolean (ToDoListItem.done toDoListItem);
     text_created := ToDoListItem.created toDoListItem;
     text_lastModified := ToDoListItem.lastUpdated toDoListItem;
     text_textContent := ToDoListItem.text toDoListItem |}.

Definition render {Node} (querySelector : string -> option Node)
    (toDoList : Payload) (hash : string) : View Node :=
  let toDoListItems := payload_items toDoList in
  let windowLocationHash := windowLocationHash hash in
  let heading :=
    match toDoList with
    | Found l =>
        if Js.strict_neq (ToDoList.done l) Js.undefined then
          Some (ToDoList.name l,
                if Js.strict_eq (ToDoList.done l) (Js.boolean false)
                then "pending" else "done")
        else None
    | Bare _ => None
    end in
  if Nat.ltb 0 (length toDoListItems) then
    let toDoListItemsPending :=
      filterPending ToDoListItem.done toDoListItems in
    let toDoListItemsDone :=
      filterDone ToDoListItem.done toDoListItems in
    let countToDoListItemsAll := length toDoListItems in
    let countToDoListItemsPending := length toDoListItemsPending in
    let countToDoListItemsDone := length toDoListItemsDone in
    let toDoListItems :=
      if String.eqb windowLocationHash "#pending" then toDoListItemsPending
      else if String.eqb windowLocationHash "#done" then toDoListItemsDone
      else toDoListItems in
    {| heading := heading;
       toggleAllHidden := false;
       inputShrunk := true;
       section := Rows (List.map renderItem toDoListItems);
       footer :=
         FooterShown
           (pretty countToDoListItemsAll +:+ " (" +:+
            pretty countToDoListItemsPending +:+ "/" +:+
            pretty countToDoListItemsDone +:+ ")")
           (Nat.ltb 0 countToDoListItemsDone);
       selected := querySelector windowLocationHash |}
  else
    {| heading := heading;
       toggleAllHidden := true;
       inputShrunk := false;
       section :=
         Paragraph
           (match payload_id toDoList with
            | Some _ => "Good for you: There's nothing to do!"
            | None => "Invalid ID! Your entries won't be stored!"
            end);
       footer := FooterHidden;
       selected := querySelector windowLocationHash |}.

End VanillaToDoListView.

Module VanillaToDoListsView.

Record Row := {
  row_class : string;
  row_id : Z;
  select_title : string;
  select_checked : bool;
  name_created : string;
  name_lastRenamed : option string;
  name_lastModified : option string;
  link_href : string;
  link_textContent : string;
  count_textContent : string
}.

(** [selected] is the element that is given the class [selected] once the
    filter links have lost it; [None] where [querySelector] found none, or
    rejected the hash: the statement then throws, with the section and the
    footer already written, and the input is not focused. *)
Record View (Node : Type) := {
  toggleAllHidden : bool;
  inputShrunk : bool;
  section : Section Row;
  footer : Footer;
  selected : option Node
}.
Arguments toggleAllHidden {Node} _.
Arguments inputShrunk {Node} _.
Arguments section {Node} _.
Arguments footer {Node} _.
Arguments selected {Node} _.

(** The body of the [forEach] over the displayed lists. *)
Definition renderList (toDoList : ToDoList.t) : Row :=
  let toDoListItems := ToDoList.items toDoList in
  let toDoListItemsPending :=
    filterPending ToDoListItem.done toDoListItems in
  let toDoListItemsDone :=
    filterDone ToDoListItem.done toDoListItems in
  let countToDoListItemsAll := length toDoListItems in
  let countToDoListItemsPending := length toDoListItemsPending in
  let countToDoListItemsDone := length toDoListItemsDone in
  let pending := Js.strict_eq (ToDoList.done toDoList) (Js.boolean false) in
  {| row_class := if pending then "pending" else "done";
     row_id := ToDoList.id toDoList;
     select_title :=
       "Click to mark as " +:+ (if pending then "done" else "pending");
     select_checked := Js.to_boolean (ToDoList.done toDoList);
     name_created := ToDoList.created toDoList;
     name_lastRenamed := ToDoList.lastRenamed toDoList;
     name_lastModified := ToDoList.lastUpdated toDoList;
     link_href := "/to-do-list/" +:+ Js.number_to_string (ToDoList.id toDoList);
     link_textContent := ToDoList.name toDoList;
     count_textContent :=
       "(" +:+ pretty countToDoListItemsAll +:+ " " +:+
       (if Nat.eqb countToDoListItemsAll 1 then "item" else "items") +:+
       (if Nat.ltb 0 countToDoListItemsAll then
          ": " +:+ pretty countToDoListItemsPending +:+ " pending, " +:+
          pretty countToDoListItemsDone +:+ " done"
        else "") +:+ ")" |}.

Definition render {Node} (querySelector : string -> option Node)
    (toDoLists : list ToDoList.t) (hash : string) : View Node :=
  let windowLocationHash := windowLocationHash hash in
  if Nat.ltb 0 (length toDoLists) then
    let toDoListsPending :=
      filterPending ToDoList.done toDoLists in
    let toDoListsDone :=
      filterDone ToDoList.done toDoLists in
    let countToDoListsAll := length toDoLists in
    let countToDoListsPending := length toDoListsPending in
    let countToDoListsDone := length toDoListsDone in
    let toDoLists :=
      if String.eqb windowLocationHash "#pending" then toDoListsPending
      else if String.eqb windowLocationHash "#done" then toDoListsDone
      else toDoLists in
    {| toggleAllHidden := false;
       inputShrunk := true;
       section := Rows (List.map renderList toDoLists);
       footer :=
         FooterShown
           (pretty countToDoListsAll +:+ " (" +:+
            pretty countToDoListsPending +:+ "/" +:+
            pretty countToDoListsDone +:+ ")")
           (Nat.ltb 0 countToDoListsDone);
       selected := querySelector windowLocationHash |}
  else
    {| toggleAllHidden := true;
       inputShrunk := false;
       section := Paragraph "There are no to-do lists to show!";
       footer := FooterHidden;
       selected := querySelector windowLocationHash |}.

End VanillaToDoListsView.

(** ** The controllers

    A controller passes each intent the view raises to the model method of
    the same name. *)
Module VanillaToDoListsController.

Inductive Intent :=
  | CreateToDoList (toDoListName : string)
  | UpdateToDoList (id : Js.number) (toDoListNameNew : string)
  | DeleteToDoList (id : Js.number)
  | ToggleToDoList (id : Js.number)
  | ToggleAllToDoLists
  | ClearToDoLists.

Definition handle (e : Intent) (model : VanillaToDoListsModel.t)
    : M VanillaToDoListsModel.t :=
  match e with
  | CreateToDoList toDoListName =>
      VanillaToDoListsModel.createToDoList toDoListName model
  | UpdateToDoList id toDoListNameNew =>
      VanillaToDoListsModel.updateToDoList id toDoListNameNew model
  | DeleteToDoList id => VanillaToDoListsModel.deleteToDoList id model
  | ToggleToDoList id => VanillaToDoListsModel.toggleToDoList id model
  | ToggleAllToDoLists => VanillaToDoListsModel.toggleAllToDoLists model
  | ClearToDoLists => VanillaToDoListsModel.clearToDoLists model
  end.

End VanillaToDoListsController.

Module VanillaToDoListController.

Inductive Intent :=
  | CreateToDoListItem (toDoListItemText : string)
  | UpdateToDoListItem (id : Js.number) (toDoListItemTextNew : string)
  | DeleteToDoListItem (id : Js.number)
  | ToggleToDoListItem (id : Js.number)
  | ToggleAllToDoListItems
  | ClearToDoList.

Definition handle (e : Intent) (model : VanillaToDoListModel.t)
    : M VanillaToDoListModel.t :=
  match e with
  | CreateToDoListItem toDoListItemText =>
      VanillaToDoListModel.createToDoListItem toDoListItemText model
  | UpdateToDoListItem id toDoListItemTextNew =>
      VanillaToDoListModel.updateToDoListItem id toDoListItemTextNew model
  | DeleteToDoListItem id => VanillaToDoListModel.deleteToDoListItem id model
  | ToggleToDoListItem id => VanillaToDoListModel.toggleToDoListItem id model
  | ToggleAllToDoListItems => VanillaToDoListModel.toggleAllToDoListItems model
  | ClearToDoList => VanillaToDoListModel.clearToDoList model
  end.

(** A session: the intents handled one after the other. *)
Fixpoint handleAll (es : list Intent) (model : VanillaToDoListModel.t)
    : M VanillaToDoListModel.t :=
  match es with
  | [] => ret model
  | e :: es' => let* model' := handle e model in handleAll es' model'
  end.

End VanillaToDoListController.

(** ** Notions the statements use *)

#[global] Instance value_eq_dec : EqDecision Js.value.
Proof. solve_decision. Defined.

#[global] Instance number_eq_dec : EqDecision Js.number.
Proof. solve_decision. Defined.

(** The world after [n] more dates were taken. *)
Definition advance (n : nat) (w : World) : World :=
  {| localStorage := localStorage w; clock := clock w;
     ticks := ticks w + n;
     toDoListsChanged := toDoListsChanged w;
     toDoListChanged := toDoListChanged w |}.

(** What a [map] whose callback stamps the records satisfying [p] with a
    fresh date returns, when the dates are [c t], [c (t + 1)], ... *)
Fixpoint stamp {A} (p : A -> bool) (g : Date -> A -> A) (c : nat -> Date)
    (t : nat) (l : list A) : list A :=
  match l with
  | [] => []
  | x :: l' =>
      if p x then g (c t) x :: stamp p g c (S t) l'
      else x :: stamp p g c t l'
  end.

(** A date taken while the world went from [w] to [w']. *)
Definition taken_between (w w' : World) (s : string) : Prop :=
  exists k, ticks w <= k < ticks w' /\ s = toJSON (clock w k).

(** The state of a single-list model is coherent when [this.toDoList] is
    an addressed element of [this.toDoLists], or an object of its own while
    no element is addressed: what the constructor sets up. *)
Definition coherent (this : VanillaToDoListModel.t) : Prop :=
  match VanillaToDoListModel.toDoList this with
  | VanillaToDoListModel.Element i =>
      exists l, VanillaToDoListModel.toDoLists this !! i = Some l /\
        VanillaToDoListModel.addressed
          (VanillaToDoListModel.toDoListId this) l = true
  | VanillaToDoListModel.Own _ =>
      Forall (fun l => VanillaToDoListModel.addressed
                         (VanillaToDoListModel.toDoListId this) l = false)
             (VanillaToDoListModel.toDoLists this)
  end.

(** What the overview model's [#store] and [#updateView] leave behind when
    called on [toDoLists]. *)
Definition stored_and_shown (toDoLists : list ToDoList.t) (w : World) : World :=
  {| localStorage := Some toDoLists; clock := clock w; ticks := ticks w;
     toDoListsChanged := toDoListsChanged w ++ [toDoLists];
     toDoListChanged := toDoListChanged w |}.

(** The world after [#store] and [#updateView] of the single-list model. *)
Definition written_back (this : VanillaToDoListModel.t) (w : World) :
    VanillaToDoListModel.t * World :=
  let '(this', w') := VanillaToDoListModel.store this w in
  (this', snd (VanillaToDoListModel.updateView this' w')).

(** What [#store] does to an addressed list [l], giving [l']. *)
Definition written_to (this' : VanillaToDoListModel.t) (w w' : World)
    (l l' : ToDoList.t) : Prop :=
  ToDoList.items l' = VanillaToDoListModel.getItems this' /\
  (exists s, ToDoList.lastUpdated l' = Some s /\ taken_between w w' s) /\
  ToDoList.id l' = ToDoList.id l /\
  ToDoList.created l' = ToDoList.created l /\
  ToDoList.lastRenamed l' = ToDoList.lastRenamed l /\
  ToDoList.name l' = ToDoList.name l /\
  ToDoList.done l' = ToDoList.done l.

(** ** Sample data

    A stored collection of two lists, the first with a pending and a done
    item, and a collection in which two lists share an id and two items of
    one of them share an id. *)
Definition sample_clock (k : nat) : Date :=
  {| getTime := 1700000000000 + Z.of_nat k; toJSON := "T" +:+ pretty k |}.

Definition sample_itemA : ToDoListItem.t :=
  {| ToDoListItem.id := 11; ToDoListItem.created := "c11";
     ToDoListItem.lastUpdated := None; ToDoListItem.text := "A";
     ToDoListItem.done := Js.boolean false |}.

Definition sample_itemB : ToDoListItem.t :=
  {| ToDoListItem.id := 12; ToDoListItem.created := "c12";
     ToDoListItem.lastUpdated := None; ToDoListItem.text := "B";
     ToDoListItem.done := Js.boolean true |}.

Definition sample_list1 : ToDoList.t :=
  {| ToDoList.id := 1; ToDoList.created := "c1"; ToDoList.lastRenamed := None;
     ToDoList.lastUpdated := None; ToDoList.name := "Groceries";
     ToDoList.done := Js.boolean false;
     ToDoList.items := [sample_itemA; sample_itemB] |}.

Definition sample_list2 : ToDoList.t :=
  {| ToDoList.id := 2; ToDoList.created := "c2"; ToDoList.lastRenamed := None;
     ToDoList.lastUpdated := None; ToDoList.name := "Chores";
     ToDoList.done := Js.boolean true; ToDoList.items := [] |}.

Definition sample_world : World :=
  {| localStorage := Some [sample_list1; sample_list2];
     clock := sample_clock; ticks := 0;
     toDoListsChanged := []; toDoListChanged := [] |}.

Definition sample_twin_item (text : string) : ToDoListItem.t :=
  {| ToDoListItem.id := 7; ToDoListItem.created := "c7";
     ToDoListItem.lastUpdated := None; ToDoListItem.text := text;
     ToDoListItem.done := Js.boolean false |}.

Definition sample_twin (name : string) (done : bool) : ToDoList.t :=
  {| ToDoList.id := 5; ToDoList.created := "c5"; ToDoList.lastRenamed := None;
     ToDoList.lastUpdated := None; ToDoList.name := name;
     ToDoList.done := Js.boolean done;
     ToDoList.items := [sample_twin_item "x"; sample_twin_item "y"] |}.

Definition sample_twins_world : World :=
  {| localStorage :=
       Some [sample_twin "first" false; sample_list2; sample_twin "second" true];
     clock := sample_clock; ticks := 0;
     toDoListsChanged := []; toDoListChanged := [] |}.

(** A sample of what the document of either page answers: the id selector
    of an element of the template finds that element, and nothing else is
    found (the id of a row starts with a digit, and [#] before a digit is
    no selector). *)
Definition sample_querySelector (selector : string) : option string :=
  snd <$>
  List.find (fun node => String.eqb (fst node) selector)
    [("#first-o", "span#first-o"); ("#second-o", "span#second-o");
     ("#toggle-all", "button#toggle-all"); ("#count", "span#count");
     ("#all", "a#all"); ("#pending", "a#pending"); ("#done", "a#done");
     ("#clear", "button#clear"); ("#confirmation", "span#confirmation");
     ("#yes", "button#yes"); ("#no", "button#no")].

(** ** The preview of a list ([class VanillaToDoListPreviewModel],
    [class VanillaToDoListPreviewView])

    The preview's model has the three fields of the single-list model and
    the same constructor, and no method that changes them; its view shows
    the items without a filter, without titles and without controls. *)
Module VanillaToDoListPreviewModel.

Definition constructor (toDoListId : Js.number) : M VanillaToDoListModel.t :=
  let* stored := getItem in
  let toDoLists := default [] stored in
  let toDoList :=
    match list_find
            (fun l => Is_true (Js.number_strict_eq (Js.Int (ToDoList.id l))
                                 toDoListId))
            toDoLists with
    | Some (i, _) => VanillaToDoListModel.Element i
    | None => VanillaToDoListModel.Own []
    end in
  ret {| VanillaToDoListModel.toDoListId := toDoListId;
         VanillaToDoListModel.toDoList := toDoList;
         VanillaToDoListModel.toDoLists := toDoLists |}.

End VanillaToDoListPreviewModel.

Module VanillaToDoListPreviewView.

Record Row := {
  row_class : string;
  row_id : Z;
  select_checked : bool;
  text_created : string;
  text_lastModified : option string;
  text_textContent : string
}.

(** [footer] is the count's text, [None] where the footer is hidden. *)
Record View := {
  heading : option (string * string);
  section : Section Row;
  footer : option string
}.

(** The body of the [forEach] over the items. *)
Definition renderItem (toDoListItem : ToDoListItem.t) : Row :=
  {| row_class :=
       if Js.strict_eq (ToDoListItem.done toDoListItem) (Js.boolean false)
       then "pending" else "done";
     row_id := ToDoListItem.id toDoListItem;
     select_checked := Js.to_boolean (ToDoListItem.done toDoListItem);
     text_created := ToDoListItem.created toDoListItem;
     text_lastModified := ToDoListItem.lastUpdated toDoListItem;
     text_textContent := ToDoListItem.text toDoListItem |}.

Definition render (toDoList : Payload) : View :=
  let toDoListItems := payload_items toDoList in
  let heading :=
    match toDoList with
    | Found l =>
        if Js.strict_neq (ToDoList.done l) Js.undefined then
          Some (ToDoList.name l,
                if Js.strict_eq (ToDoList.done l) (Js.boolean false)
                then "pending" else "done")
        else None
    | Bare _ => None
    end in
  if Nat.ltb 0 (length toDoListItems) then
    let toDoListItemsPending := filterPending ToDoListItem.done toDoListItems in
    let toDoListItemsDone := filterDone ToDoListItem.done toDoListItems in
    let countToDoListItemsAll := length toDoListItems in
    let countToDoListItemsPending := length toDoListItemsPending in
    let countToDoListItemsDone := length toDoListItemsDone in
    {| heading := heading;
       section := Rows (List.map renderItem toDoListItems);
       footer :=
         Some (pretty countToDoListItemsAll +:+ " (" +:+
               pretty countToDoListItemsPending +:+ "/" +:+
               pretty countToDoListItemsDone +:+ ")") |}
  else
    {| heading := heading;
       section :=
         Paragraph
           (match payload_id toDoList with
            | Some _ => "Good for you: There's nothing to do!"
            | None => "Invalid ID!"
            end);
       footer := None |}.

End VanillaToDoListPreviewView.

(** The preview element a row of the overview holds: the row writes the
    list's id into the element's [id] attribute, and the element's
    constructor passes the attribute, through the unary plus, to the
    model and renders the model's list. An integer written out and read
    back by the unary plus is that integer. *)
Module VanillaToDoListPreview.

Definition constructor (row_id : Z) : M VanillaToDoListPreviewView.View :=
  let* model := VanillaToDoListPreviewModel.constructor (Js.Int row_id) in
  ret (VanillaToDoListPreviewView.render (VanillaToDoListModel.deref model)).

End VanillaToDoListPreview.

(** What a row of the preview keeps of a row of the list's page. *)
Definition previewRow (r : VanillaToDoListView.Row) : VanillaToDoListPreviewView.Row :=
  {| VanillaToDoListPreviewView.row_class := VanillaToDoListView.row_class r;
     VanillaToDoListPreviewView.row_id := VanillaToDoListView.row_id r;
     VanillaToDoListPreviewView.select_checked :=
       VanillaToDoListView.select_checked r;
     VanillaToDoListPreviewView.text_created :=
       VanillaToDoListView.text_created r;
     VanillaToDoListPreviewView.text_lastModified :=
       VanillaToDoListView.text_lastModified r;
     VanillaToDoListPreviewView.text_textContent :=
       VanillaToDoListView.text_textContent r |}.

(** ** The event handlers the views bind

    Strings are taken as UTF-8, as the literals of this file are. *)

(** [value.match(/^\s*$/)] is not null: [value] is made of white space and
    line terminators only (tab, line feed, vertical tab, form feed,
    carriage return, space, U+00A0, U+1680, U+2000 to U+200A, U+2028,
    U+2029, U+202F, U+205F, U+3000, U+FEFF), or is empty. *)
Fixpoint blank (value : string) : bool :=
  match value with
  | EmptyString => true
  | String c1 s1 =>
      let b1 := Ascii.nat_of_ascii c1 in
      if (b1 =? 9) || (b1 =? 10) || (b1 =? 11) || (b1 =? 12) || (b1 =? 13)
         || (b1 =? 32)
      then blank s1
      else
        match s1 with
        | EmptyString => false
        | String c2 s2 =>
            let b2 := Ascii.nat_of_ascii c2 in
            if (b1 =? 194) && (b2 =? 160) then blank s2
            else
              match s2 with
              | EmptyString => false
              | String c3 s3 =>
                  let b3 := Ascii.nat_of_ascii c3 in
                  if ((b1 =? 225) && (b2 =? 154) && (b3 =? 128))
                     || ((b1 =? 226) && (b2 =? 128)
                         && ((128 <=? b3) && (b3 <=? 138)
                             || (b3 =? 168) || (b3 =? 169) || (b3 =? 175)))
                     || ((b1 =? 226) && (b2 =? 129) && (b3 =? 159))
                     || ((b1 =? 227) && (b2 =? 128) && (b3 =? 128))
                     || ((b1 =? 239) && (b2 =? 187) && (b3 =? 191))
                  then blank s3
                  else false
              end
        end
  end.

(** What a bound handler does about the model when its event fires: the
    calls of the controller's handlers it makes, in order, each at once
    ([0]) or after a timeout of so many milliseconds. *)
Definition Reaction (Intent : Type) : Type := list (nat * Intent).

(** [this.short] and [this.long] of both views. *)
Definition short : nat := 250.
Definition long : nat := 2 * short.

(** The handlers of [VanillaToDoListsView]. A row's [id] attribute is the
    list's id written out, and the unary plus reads it back. The handlers
    of the rows are bound anew after each render; the click handler of the
    clear button, bound once, adds a click listener to the yes button each
    time it runs, and none is ever removed: the state of the bindings is
    the number of these listeners. *)
Module VanillaToDoListsViewEvents.

Inductive Event :=
  | CreateKeydown (key value : string)
  | UpdateBlur (row : VanillaToDoListsView.Row) (value : string)
  | UpdateKeydown (row : VanillaToDoListsView.Row) (key value : string)
  | DeleteClick (row : VanillaToDoListsView.Row)
  | ToggleClick (row : VanillaToDoListsView.Row)
  | ToggleAllClick
  | ClearClick
  | ClearYesClick
  | ClearNoClick.

(** The body shared by the blur handler and the Enter branch of the
    keydown handler of [bindUpdateToDoList]. *)
Definition commit (row : VanillaToDoListsView.Row) (value : string)
    : Reaction VanillaToDoListsController.Intent :=
  let toDoListName := VanillaToDoListsView.link_textContent row in
  if negb (blank value) then
    if negb (String.eqb value toDoListName) then
      [(0, VanillaToDoListsController.UpdateToDoList
             (Js.Int (VanillaToDoListsView.row_id row)) value)]
    else []
  else [].

Definition react (yesListeners : nat) (e : Event)
    : nat * Reaction VanillaToDoListsController.Intent :=
  match e with
  | CreateKeydown key value =>
      (yesListeners,
       if String.eqb key "Enter" then
         if negb (blank value) then
           [(0, VanillaToDoListsController.CreateToDoList value)]
         else []
       else [])
  | UpdateBlur row value => (yesListeners, commit row value)
  | UpdateKeydown row key value =>
      (yesListeners, if String.eqb key "Enter" then commit row value else [])
  | DeleteClick row =>
      (yesListeners,
       [(0, VanillaToDoListsController.DeleteToDoList
              (Js.Int (VanillaToDoListsView.row_id row)))])
  | ToggleClick row =>
      (yesListeners,
       [(long, VanillaToDoListsController.ToggleToDoList
                 (Js.Int (VanillaToDoListsView.row_id row)))])
  | ToggleAllClick =>
      (yesListeners, [(long, VanillaToDoListsController.ToggleAllToDoLists)])
  | ClearClick => (S yesListeners, [])
  | ClearYesClick =>
      (yesListeners,
       replicate yesListeners (0, VanillaToDoListsController.ClearToDoLists))
  | ClearNoClick => (yesListeners, [])
  end.

(** The calls of a reaction made one after the other. *)
Fixpoint run (calls : Reaction VanillaToDoListsController.Intent)
    (model : VanillaToDoListsModel.t) : M VanillaToDoListsModel.t :=
  match calls with
  | [] => ret model
  | (_, intent) :: calls' =>
      let* model' := VanillaToDoListsController.handle intent model in
      run calls' model'
  end.

End VanillaToDoListsViewEvents.

(** The handlers of [VanillaToDoListView]. *)
Module VanillaToDoListViewEvents.

Inductive Event :=
  | CreateKeydown (key value : string)
  | UpdateBlur (row : VanillaToDoListView.Row) (value : string)
  | UpdateKeydown (row : VanillaToDoListView.Row) (key value : string)
  | DeleteClick (row : VanillaToDoListView.Row)
  | ToggleClick (row : VanillaToDoListView.Row)
  | ToggleAllClick
  | ClearClick
  | ClearYesClick
  | ClearNoClick.

Definition commit (row : VanillaToDoListView.Row) (value : string)
    : Reaction VanillaToDoListController.Intent :=
  if negb (blank value) then
    if negb (String.eqb value (VanillaToDoListView.text_textContent row)) then
      [(0, VanillaToDoListController.UpdateToDoListItem
             (Js.Int (VanillaToDoListView.row_id row)) value)]
    else []
  else [].

Definition react (yesListeners : nat) (e : Event)
    : nat * Reaction VanillaToDoListController.Intent :=
  match e with
  | CreateKeydown key value =>
      (yesListeners,
       if String.eqb key "Enter" then
         if negb (blank value) then
           [(0, VanillaToDoListController.CreateToDoListItem value)]
         else []
       else [])
  | UpdateBlur row value => (yesListeners, commit row value)
  | UpdateKeydown row key value =>
      (yesListeners, if String.eqb key "Enter" then commit row value else [])
  | DeleteClick row =>
      (yesListeners,
       [(0, VanillaToDoListController.DeleteToDoListItem
              (Js.Int (VanillaToDoListView.row_id row)))])
  | ToggleClick row =>
      (yesListeners,
       [(long, VanillaToDoListController.ToggleToDoListItem
                 (Js.Int (VanillaToDoListView.row_id row)))])
  | ToggleAllClick =>
      (yesListeners, [(long, VanillaToDoListController.ToggleAllToDoListItems)])
  | ClearClick => (S yesListeners, [])
  | ClearYesClick =>
      (yesListeners,
       replicate yesListeners (0, VanillaToDoListController.ClearToDoList))
  | ClearNoClick => (yesListeners, [])
  end.

(** The calls of a reaction made one after the other. *)
Fixpoint run (calls : Reaction VanillaToDoListController.Intent)
    (model : VanillaToDoListModel.t) : M VanillaToDoListModel.t :=
  match calls with
  | [] => ret model
  | (_, intent) :: calls' =>
      let* model' := VanillaToDoListController.handle intent model in
      run calls' model'
  end.

End VanillaToDoListViewEvents.

(** The number of listeners on the overview's yes button after a history
    of events, starting from none. *)
Definition yesListenersAfter (events : list VanillaToDoListsViewEvents.Event)
    : nat :=
  fold_left (fun n e => fst (VanillaToDoListsViewEvents.react n e)) events 0.

(** An intent that brings no blank name or text. *)
Definition names_a_list (e : VanillaToDoListsController.Intent) : Prop :=
  match e with
  | VanillaToDoListsController.CreateToDoList toDoListName =>
      blank toDoListName = false
  | VanillaToDoListsController.UpdateToDoList _ toDoListNameNew =>
      blank toDoListNameNew = false
  | _ => True
  end.

Definition names_an_item (e : VanillaToDoListController.Intent) : Prop :=
  match e with
  | VanillaToDoListController.CreateToDoListItem toDoListItemText =>
      blank toDoListItemText = false
  | VanillaToDoListController.UpdateToDoListItem _ toDoListItemTextNew =>
      blank toDoListItemTextNew = false
  | _ => True
  end.

(** ** The tooltip's place ([handleWindowMouseMove])

    The [top] and [left] the handler gives every preview tooltip, in
    pixels, from the window's inner height, the pointer's place and the
    tooltip's height. *)
Definition handleWindowMouseMove (innerHeight clientX clientY offsetHeight : Z)
    : Z * Z :=
  ((if (innerHeight - clientY <? offsetHeight)%Z
    then clientY - offsetHeight else clientY)%Z,
   clientX).

(** ** The router (the single page application's [eventHandler]) *)
Module Router.

(** [s.replace(pattern, '')] for a string [pattern]: the first occurrence
    is removed. *)
Fixpoint replace (pattern s : string) : string :=
  if String.prefix pattern s then
    String.substring (String.length pattern)
      (String.length s - String.length pattern) s
  else
    match s with
    | EmptyString => EmptyString
    | String c s' => String c (replace pattern s')
    end.

(** [s.split('/')]; the slash is character 47. *)
Fixpoint split (s : string) : list string :=
  match s with
  | EmptyString => [EmptyString]
  | String c s' =>
      if Ascii.nat_of_ascii c =? 47 then EmptyString :: split s'
      else
        match split s' with
        | part :: parts => String c part :: parts
        | [] => [String c EmptyString]
        end
  end.

(** [singlePageApplicationRoutes[`/${slug}`]]; a slug that is undefined
    gives the key ['/undefined']. *)
Definition singlePageApplicationRoutes (slug : option string) : option string :=
  match slug with
  | Some slug =>
      if String.eqb slug "" then Some "vanilla-to-do-lists"
      else if String.eqb slug "to-do-list" then Some "vanilla-to-do-list"
      else None
  | None => None
  end.

(** A value in a template literal. *)
Definition shown (v : option string) : string :=
  match v with
  | Some s => s
  | None => "undefined"
  end.

Definition quote : string := String (Ascii.ascii_of_nat 34) EmptyString.

(** What the handler leaves: the markup given to the application's
    element, and whether the navigation bar is hidden. *)
Record Page := { innerHTML : string; navigationHidden : bool }.

Definition eventHandler (pathname : string) : Page :=
  let pathParts := split (replace "/vanilla-to-do-list" pathname) in
  let slug := pathParts !! 1 in
  let id := pathParts !! 2 in
  let webComponent := singlePageApplicationRoutes slug in
  {| innerHTML :=
       "<" +:+ shown webComponent +:+
       (match id with
        | Some id =>
            if String.eqb id "" then ""
            else " id=" +:+ quote +:+ id +:+ quote
        | None => ""
        end) +:+
       "></" +:+ shown webComponent +:+ ">";
     navigationHidden :=
       match slug with
       | Some slug => negb (String.eqb slug "to-do-list")
       | None => true
       end |}.

End Router.

(** A string of decimal digits. *)
Fixpoint digits (s : string) : bool :=
  match s with
  | EmptyString => true
  | String c s' =>
      (48 <=? Ascii.nat_of_ascii c) && (Ascii.nat_of_ascii c <=? 57)
      && digits s'
  end.

(** ** Notions for the further properties *)

(** [this.toDoList] is the first addressed element of [this.toDoLists]:
    the one [find] returns. *)
Definition anchored (this : VanillaToDoListModel.t) : Prop :=
  exists i l,
    VanillaToDoListModel.toDoList this = VanillaToDoListModel.Element i /\
    list_find
      (fun l => Is_true (VanillaToDoListModel.addressed
                           (VanillaToDoListModel.toDoListId this) l))
      (VanillaToDoListModel.toDoLists this) = Some (i, l).

(** From now on every date has a later time than the one before it, and a
    later time than every id in [ids]. *)
Definition clock_ahead (w : World) (ids : list Z) : Prop :=
  (forall j k, ticks w <= j < k ->
     (getTime (clock w j) < getTime (clock w k))%Z) /\
  (forall z k, z ∈ ids -> ticks w <= k -> (z < getTime (clock w k))%Z).

(** The items a method of the single-list model writes to
    [this.toDoList.items], and the number of dates it takes before
    [#store]. *)
Definition itemsWritten (e : VanillaToDoListController.Intent)
    (this : VanillaToDoListModel.t) (w : World) : list ToDoListItem.t * nat :=
  let toDoListItems := VanillaToDoListModel.getItems this in
  match e with
  | VanillaToDoListController.CreateToDoListItem toDoListItemText =>
      (toDoListItems ++
         [{| ToDoListItem.id := getTime (clock w (ticks w));
             ToDoListItem.created := toJSON (clock w (ticks w));
             ToDoListItem.lastUpdated := None;
             ToDoListItem.text := toDoListItemText;
             ToDoListItem.done := Js.boolean false |}],
       1)
  | VanillaToDoListController.UpdateToDoListItem id toDoListItemTextNew =>
      let p := fun i => Js.number_strict_eq (Js.Int (ToDoListItem.id i)) id in
      (stamp p (fun d i => ToDoListItem.with_text d toDoListItemTextNew i)
         (clock w) (ticks w) toDoListItems,
       length (List.filter p toDoListItems))
  | VanillaToDoListController.DeleteToDoListItem id =>
      (List.filter
         (fun i => Js.number_strict_neq (Js.Int (ToDoListItem.id i)) id)
         toDoListItems,
       0)
  | VanillaToDoListController.ToggleToDoListItem id =>
      (List.map
         (fun i =>
            if Js.number_strict_eq (Js.Int (ToDoListItem.id i)) id
            then ToDoListItem.with_done (Js.not (ToDoListItem.done i)) i
            else i)
         toDoListItems,
       0)
  | VanillaToDoListController.ToggleAllToDoListItems =>
      (List.map
         (fun i => ToDoListItem.with_done (Js.not (ToDoListItem.done i)) i)
         toDoListItems,
       0)
  | VanillaToDoListController.ClearToDoList =>
      (List.filter
         (fun i => Js.strict_eq (ToDoListItem.done i) (Js.boolean false))
         toDoListItems,
       0)
  end.

(** The rows of a rendered section (none where a paragraph is shown). *)
Definition rowsOf {Row} (s : Section Row) : list Row :=
  match s with
  | Rows rows => rows
  | Paragraph _ => []
  end.

(** The sample world with a clock that stands still. *)
Definition sample_stalled_world : World :=
  {| localStorage := Some [sample_list1; sample_list2];
     clock := fun _ => {| getTime := 1700000000000; toJSON := "T" |};
     ticks := 0; toDoListsChanged := []; toDoListChanged := [] |}.

(** * Properties *)

(** ** JavaScript equality *)

Lemma strict_eq_true (a b : Js.value) : Js.strict_eq a b = true <-> a = b.
Proof.
  destruct a, b; simpl; split; intros H; try discriminate; try reflexivity.
  - f_equal. by apply Bool.eqb_prop.
  - inversion H. apply Bool.eqb_reflx.
  - f_equal. by apply Z.eqb_eq.
  - inversion H. apply Z.eqb_refl.
  - f_equal. by apply String.eqb_eq.
  - inversion H. apply String.eqb_refl.
Qed.

Lemma strict_eq_false (a b : Js.value) : Js.strict_eq a b = false <-> a <> b.
Proof.
  rewrite <- strict_eq_true. destruct (Js.strict_eq a b); split; congruence.
Qed.

Lemma number_strict_eq_true (z : Z) (n : Js.number) :
  Js.number_strict_eq (Js.Int z) n = true <-> Js.Int z = n.
Proof.
  destruct n as [|y]; simpl; split; intros H; try discriminate.
  - f_equal. by apply Z.eqb_eq.
  - inversion H. apply Z.eqb_refl.
Qed.

Lemma number_strict_eq_false (z : Z) (n : Js.number) :
  Js.number_strict_eq (Js.Int z) n = false <-> Js.Int z <> n.
Proof.
  rewrite <- number_strict_eq_true.
  destruct (Js.number_strict_eq (Js.Int z) n); split; congruence.
Qed.

Lemma not_not (v : Js.value) :
  Js.not (Js.not v) = Js.boolean (Js.to_boolean v).
Proof. unfold Js.not. simpl. by rewrite Bool.negb_involutive. Qed.

Lemma to_boolean_boolean (v : Js.value) :
  Js.is_boolean v = true -> Js.boolean (Js.to_boolean v) = v.
Proof. by destruct v. Qed.

(** ** The clock and the stamping [map] *)

Lemma advance_0 (w : World) : advance 0 w = w.
Proof. destruct w. unfold advance. simpl. f_equal. lia. Qed.

Section Stamping.

Context {A : Type} (p : A -> bool).

Lemma mapM_stamp (g : Date -> A -> A) (l : list A) (w : World) :
  mapM (fun x => if p x then let* d := newDate in ret (g d x) else ret x) l w
  = (stamp p g (clock w) (ticks w) l, advance (length (List.filter p l)) w).
Proof.
  revert w. induction l as [|x l IH]; intros w.
  - simpl. unfold ret. by rewrite advance_0.
  - simpl. unfold bind at 1. destruct (p x) eqn:Hp.
    + unfold bind at 1. simpl.
      unfold bind. rewrite IH. unfold ret. simpl.
      f_equal. unfold advance. simpl. f_equal. lia.
    + unfold ret at 1. unfold bind. by rewrite IH.
Qed.

Lemma stamp_length g c t (l : list A) :
  length (stamp p g c t l) = length l.
Proof.
  revert t. induction l as [|x l IH]; intros t; [done|].
  simpl. destruct (p x); simpl; by rewrite IH.
Qed.

Lemma stamp_lookup g c t (l : list A) (i : nat) :
  stamp p g c t l !! i =
  (fun x => if p x then g (c (t + length (List.filter p (take i l)))) x else x)
    <$> l !! i.
Proof.
  revert t i. induction l as [|x l IH]; intros t i; [done|].
  destruct i as [|i].
  - simpl. destruct (p x); simpl; do 3 f_equal; lia.
  - simpl. destruct (p x) eqn:Hp; simpl; rewrite IH.
    + destruct (l !! i); simpl; [|done]. do 2 f_equal.
      destruct (p a); [|done]. do 2 f_equal. lia.
    + done.
Qed.

Lemma stamp_untouched g c t (l : list A) :
  Forall (fun x => p x = false) l -> stamp p g c t l = l.
Proof.
  induction 1 as [|x l Hx _ IH]; [done|]. simpl. by rewrite Hx, IH.
Qed.

Lemma filter_none (l : list A) :
  Forall (fun x => p x = false) l -> List.filter p l = [].
Proof. induction 1 as [|x l Hx _ IH]; [done|]. simpl. by rewrite Hx. Qed.

Lemma filter_all (l : list A) :
  Forall (fun x => p x = true) l -> List.filter p l = l.
Proof. induction 1 as [|x l Hx _ IH]; [done|]. simpl. by rewrite Hx, IH. Qed.

Lemma map_if_untouched (f : A -> A) (l : list A) :
  Forall (fun x => p x = false) l ->
  List.map (fun x => if p x then f x else x) l = l.
Proof. induction 1 as [|x l Hx _ IH]; [done|]. simpl. by rewrite Hx, IH. Qed.

Lemma filter_take_le (l : list A) (i : nat) :
  length (List.filter p (take i l)) <= length (List.filter p l).
Proof.
  rewrite <- (take_drop i l) at 2. rewrite List.filter_app, length_app. lia.
Qed.

Lemma filter_take_lt (l : list A) (i : nat) (x : A) :
  l !! i = Some x -> p x = true ->
  length (List.filter p (take i l)) < length (List.filter p l).
Proof.
  intros Hi Hp. rewrite <- (take_drop_middle l i x Hi) at 2.
  rewrite List.filter_app, length_app. simpl. rewrite Hp. simpl. lia.
Qed.

End Stamping.

(** ** The overview model *)

Lemma updateToDoList_run (id : Js.number) (toDoListNameNew : string)
    (this : VanillaToDoListsModel.t) (w : World) :
  let p := fun l => Js.number_strict_eq (Js.Int (ToDoList.id l)) id in
  let toDoLists' :=
    stamp p (fun d l => ToDoList.with_name d toDoListNameNew l)
      (clock w) (ticks w) (VanillaToDoListsModel.toDoLists this) in
  VanillaToDoListsModel.updateToDoList id toDoListNameNew this w =
  ({| VanillaToDoListsModel.toDoLists := toDoLists' |},
   stored_and_shown toDoLists'
     (advance (length (List.filter p (VanillaToDoListsModel.toDoLists this))) w)).
Proof.
  cbv zeta. unfold VanillaToDoListsModel.updateToDoList. unfold bind at 1.
  rewrite (mapM_stamp
             (fun l => Js.number_strict_eq (Js.Int (ToDoList.id l)) id)
             (fun d l => ToDoList.with_name d toDoListNameNew l)).
  reflexivity.
Qed.

(** C4. [createToDoList] appends exactly one list to the end of the
    collection, leaving the lists before it as they were: its id is the
    time of the date taken, its [created] that date's text, [lastRenamed]
    and [lastUpdated] are null, [done] is false and [items] is empty; the
    extended collection is what is stored and shown. From the empty
    collection, creating "Groceries" gives exactly that one list. *)
Theorem createToDoList_appends_fresh_list
    (this : VanillaToDoListsModel.t) (w : World) (toDoListName : string) :
  let now := clock w (ticks w) in
  let fresh (n : string) :=
    {| ToDoList.id := getTime now; ToDoList.created := toJSON now;
       ToDoList.lastRenamed := None; ToDoList.lastUpdated := None;
       ToDoList.name := n; ToDoList.done := Js.boolean false;
       ToDoList.items := [] |} in
  (let '(this', w') := VanillaToDoListsModel.createToDoList toDoListName this w in
   VanillaToDoListsModel.toDoLists this' =
     VanillaToDoListsModel.toDoLists this ++ [fresh toDoListName] /\
   length (VanillaToDoListsModel.toDoLists this') =
     S (length (VanillaToDoListsModel.toDoLists this)) /\
   localStorage w' = Some (VanillaToDoListsModel.toDoLists this') /\
   toDoListsChanged w' =
     toDoListsChanged w ++ [VanillaToDoListsModel.toDoLists this']) /\
  VanillaToDoListsModel.toDoLists
    (fst (VanillaToDoListsModel.createToDoList "Groceries"
            {| VanillaToDoListsModel.toDoLists := [] |} w))
  = [fresh "Groceries"].
Proof.
  cbv zeta. split; [|reflexivity].
  unfold VanillaToDoListsModel.createToDoList, bind. simpl.
  repeat split. rewrite length_app. simpl. lia.
Qed.

(** C5. Called with an id that no list of the collection has,
    [updateToDoList], [deleteToDoList] and [toggleToDoList] return
    normally and change nothing: the model holds the same collection, no
    date is taken, and the same collection is stored and shown again. *)
Theorem unknown_id_changes_nothing
    (this : VanillaToDoListsModel.t) (w : World) (id : Js.number)
    (toDoListNameNew : string) :
  (forall l, l ∈ VanillaToDoListsModel.toDoLists this ->
             Js.Int (ToDoList.id l) <> id) ->
  let unchanged := (this, stored_and_shown (VanillaToDoListsModel.toDoLists this) w) in
  VanillaToDoListsModel.updateToDoList id toDoListNameNew this w = unchanged /\
  VanillaToDoListsModel.deleteToDoList id this w = unchanged /\
  VanillaToDoListsModel.toggleToDoList id this w = unchanged.
Proof.
  intros Hid. destruct this as [ls]. simpl in *.
  assert (Hno : Forall (fun l => Js.number_strict_eq (Js.Int (ToDoList.id l)) id
                                 = false) ls).
  { apply Forall_forall. intros l Hl. apply number_strict_eq_false, Hid, Hl. }
  repeat split.
  - rewrite updateToDoList_run. cbv zeta.
    cbn [VanillaToDoListsModel.toDoLists].
    rewrite (stamp_untouched _ _ _ _ _ Hno), (filter_none _ _ Hno), advance_0.
    reflexivity.
  - unfold VanillaToDoListsModel.deleteToDoList.
    cbn [VanillaToDoListsModel.toDoLists].
    rewrite filter_all; [reflexivity|].
    eapply Forall_impl; [exact Hno|]. intros l Hl. cbv beta in Hl |- *.
    unfold Js.number_strict_neq. by rewrite Hl.
  - unfold VanillaToDoListsModel.toggleToDoList.
    cbn [VanillaToDoListsModel.toDoLists].
    rewrite map_if_untouched by exact Hno. reflexivity.
Qed.

(** A collection of two lists, asked about id 7, which neither has. *)
Lemma unknown_id_changes_nothing_witness :
  let l1 := {| ToDoList.id := 1; ToDoList.created := "a";
               ToDoList.lastRenamed := None; ToDoList.lastUpdated := None;
               ToDoList.name := "one"; ToDoList.done := Js.boolean false;
               ToDoList.items := [] |} in
  let l2 := {| ToDoList.id := 2; ToDoList.created := "b";
               ToDoList.lastRenamed := None; ToDoList.lastUpdated := None;
               ToDoList.name := "two"; ToDoList.done := Js.boolean true;
               ToDoList.items := [] |} in
  let this := {| VanillaToDoListsModel.toDoLists := [l1; l2] |} in
  let w := {| localStorage := Some [l1; l2];
              clock := fun k => {| getTime := Z.of_nat k; toJSON := "t" |};
              ticks := 0; toDoListsChanged := []; toDoListChanged := [] |} in
  VanillaToDoListsModel.updateToDoList (Js.Int 7) "x" this w
    = (this, stored_and_shown [l1; l2] w) /\
  VanillaToDoListsModel.deleteToDoList (Js.Int 7) this w
    = (this, stored_and_shown [l1; l2] w) /\
  VanillaToDoListsModel.toggleToDoList (Js.Int 7) this w
    = (this, stored_and_shown [l1; l2] w).
Proof.
  cbv zeta.
  apply (unknown_id_changes_nothing
           {| VanillaToDoListsModel.toDoLists := _ |} _ (Js.Int 7) "x").
  intros l Hl. simpl in Hl.
  apply elem_of_cons in Hl as [->|Hl]; [discriminate|].
  apply elem_of_cons in Hl as [->|Hl]; [discriminate|].
  by apply elem_of_nil in Hl.
Defined.

(** ** The filter partition *)

Section Partition.

Context {A : Type} (done : A -> Js.value).

Lemma partition_lengths (S : list A) :
  length (filterPending done S) + length (filterDone done S) =
  length S +
  length (List.filter (fun r => negb (Js.is_boolean (done r))) S).
Proof.
  unfold filterPending, filterDone.
  induction S as [|r S IH]; [done|]. simpl.
  destruct (done r) as [| |[|]| |]; simpl; lia.
Qed.

Lemma non_boolean_in_both (S : list A) (r : A) :
  r ∈ S -> Js.is_boolean (done r) = false ->
  r ∈ filterPending done S /\ r ∈ filterDone done S.
Proof.
  intros Hr Hb. apply list_elem_of_In in Hr.
  unfold filterPending, filterDone.
  split; apply list_elem_of_In, List.filter_In; (split; [done|]);
    by destruct (done r).
Qed.

Lemma partition_exact (S : list A) :
  length S = length (filterPending done S) + length (filterDone done S) <->
  Forall (fun r => Js.is_boolean (done r) = true) S.
Proof.
  rewrite partition_lengths. split.
  - intros Hlen.
    assert (Hnil : List.filter (fun r => negb (Js.is_boolean (done r))) S = []).
    { apply length_zero_iff_nil. lia. }
    apply Forall_forall. intros r Hr.
    destruct (Js.is_boolean (done r)) eqn:Hb; [done|].
    assert (Hin : List.In r (List.filter (fun r => negb (Js.is_boolean (done r))) S)).
    { apply List.filter_In. split; [by apply list_elem_of_In|]. by rewrite Hb. }
    rewrite Hnil in Hin. destruct Hin.
  - intros Hall. rewrite filter_none; [simpl; lia|].
    eapply Forall_impl; [exact Hall|]. intros r Hr. cbv beta. by rewrite Hr.
Qed.

End Partition.

(** C1, as the code has it. For the lists of the overview and for the
    items of a list alike: the pending and the done count add up to the
    number of records plus the number of records whose [done] is not a
    boolean; so they add up to the number of records exactly when every
    [done] is true or false; and every record whose [done] is not a
    boolean, one whose [done] is undefined in particular, is in both the
    pending and the done subset. *)
Theorem partition_counts (lists : list ToDoList.t) (its : list ToDoListItem.t) :
  (length (filterPending ToDoList.done lists) +
   length (filterDone ToDoList.done lists) =
   length lists +
   length (List.filter (fun l => negb (Js.is_boolean (ToDoList.done l))) lists)
   /\
   (length lists =
      length (filterPending ToDoList.done lists) +
      length (filterDone ToDoList.done lists) <->
    Forall (fun l => Js.is_boolean (ToDoList.done l) = true) lists)
   /\
   Forall (fun l => l ∈ filterPending ToDoList.done lists /\
                    l ∈ filterDone ToDoList.done lists)
     (filter (fun l => ToDoList.done l = Js.undefined \/
                       Js.is_boolean (ToDoList.done l) = false) lists))
  /\
  (length (filterPending ToDoListItem.done its) +
   length (filterDone ToDoListItem.done its) =
   length its +
   length (List.filter (fun i => negb (Js.is_boolean (ToDoListItem.done i))) its)
   /\
   (length its =
      length (filterPending ToDoListItem.done its) +
      length (filterDone ToDoListItem.done its) <->
    Forall (fun i => Js.is_boolean (ToDoListItem.done i) = true) its)
   /\
   Forall (fun i => i ∈ filterPending ToDoListItem.done its /\
                    i ∈ filterDone ToDoListItem.done its)
     (filter (fun i => ToDoListItem.done i = Js.undefined \/
                       Js.is_boolean (ToDoListItem.done i) = false) its)).
Proof.
  split; (split; [apply partition_lengths|]); (split; [apply partition_exact|]).
  - apply Forall_forall. intros l Hl.
    apply list_elem_of_filter in Hl as [Hd Hl].
    apply non_boolean_in_both; [done|].
    destruct Hd as [Hd|Hd]; [by rewrite Hd|done].
  - apply Forall_forall. intros i Hi.
    apply list_elem_of_filter in Hi as [Hd Hi].
    apply non_boolean_in_both; [done|].
    destruct Hd as [Hd|Hd]; [by rewrite Hd|done].
Qed.

(** C1, as the claim has it, fails: a single item whose [done] is null has
    no undefined [done], and yet counts as pending and as done. *)
Lemma partition_counts_null_counterexample :
  let i := {| ToDoListItem.id := 1; ToDoListItem.created := "c";
              ToDoListItem.lastUpdated := None; ToDoListItem.text := "A";
              ToDoListItem.done := Js.null |} in
  ~ (length [i] =
       length (filterPending ToDoListItem.done [i]) +
       length (filterDone ToDoListItem.done [i]) <->
     Forall (fun r => ToDoListItem.done r <> Js.undefined) [i]).
Proof.
  cbv zeta. simpl. intros [_ H].
  assert (Hlen : 1 = 2); [|discriminate].
  apply H. repeat constructor. discriminate.
Qed.

(** ** The single-list model: references and the write-back *)

Lemma store_run (this : VanillaToDoListModel.t) (w : World) :
  let p := VanillaToDoListModel.addressed (VanillaToDoListModel.toDoListId this) in
  let toDoLists' :=
    stamp p
      (fun d l => ToDoList.with_items (VanillaToDoListModel.getItems this)
                    (ToDoList.with_lastUpdated d l))
      (clock w) (ticks w) (VanillaToDoListModel.toDoLists this) in
  VanillaToDoListModel.store this w =
  ({| VanillaToDoListModel.toDoListId := VanillaToDoListModel.toDoListId this;
      VanillaToDoListModel.toDoList := VanillaToDoListModel.toDoList this;
      VanillaToDoListModel.toDoLists := toDoLists' |},
   snd (setItem toDoLists'
          (advance
             (length (List.filter p (VanillaToDoListModel.toDoLists this)))
             w))).
Proof.
  cbv zeta. unfold VanillaToDoListModel.store. unfold bind at 1.
  rewrite (mapM_stamp
             (VanillaToDoListModel.addressed (VanillaToDoListModel.toDoListId this))
             (fun d l => ToDoList.with_items (VanillaToDoListModel.getItems this)
                           (ToDoList.with_lastUpdated d l))).
  reflexivity.
Qed.

Lemma getItems_store (this : VanillaToDoListModel.t) (w : World) :
  VanillaToDoListModel.getItems (fst (VanillaToDoListModel.store this w)) =
  VanillaToDoListModel.getItems this.
Proof.
  rewrite store_run. cbv zeta. cbn [fst].
  unfold VanillaToDoListModel.getItems at 1 3, VanillaToDoListModel.deref.
  cbn [VanillaToDoListModel.toDoList VanillaToDoListModel.toDoLists].
  destruct (VanillaToDoListModel.toDoList this) as [i|its] eqn:Href; [|done].
  rewrite stamp_lookup.
  destruct (VanillaToDoListModel.toDoLists this !! i) as [l|] eqn:Hl; [|done].
  simpl. destruct (VanillaToDoListModel.addressed _ l); [|done].
  simpl. unfold VanillaToDoListModel.getItems, VanillaToDoListModel.deref.
  by rewrite Href, Hl.
Qed.

(** Writing [this.toDoList.items] and reading it back. *)
Lemma getItems_setItems (its : list ToDoListItem.t) (this : VanillaToDoListModel.t) :
  VanillaToDoListModel.getItems (VanillaToDoListModel.setItems its this) =
  match VanillaToDoListModel.toDoList this with
  | VanillaToDoListModel.Element i =>
      match VanillaToDoListModel.toDoLists this !! i with
      | Some _ => its
      | None => []
      end
  | VanillaToDoListModel.Own _ => its
  end.
Proof.
  unfold VanillaToDoListModel.getItems, VanillaToDoListModel.deref,
    VanillaToDoListModel.setItems.
  destruct (VanillaToDoListModel.toDoList this) as [i|old]; [|done].
  cbn [VanillaToDoListModel.toDoList VanillaToDoListModel.toDoLists].
  rewrite list_lookup_alter. destruct (decide (i = i)); [|done].
  by destruct (VanillaToDoListModel.toDoLists this !! i).
Qed.

(** A [filter] or [map] of the items, written back and read again. *)
Lemma getItems_setItems_of (f : list ToDoListItem.t -> list ToDoListItem.t)
    (this : VanillaToDoListModel.t) :
  f [] = [] ->
  VanillaToDoListModel.getItems
    (VanillaToDoListModel.setItems (f (VanillaToDoListModel.getItems this)) this)
  = f (VanillaToDoListModel.getItems this).
Proof.
  intros Hf. rewrite getItems_setItems.
  unfold VanillaToDoListModel.getItems, VanillaToDoListModel.deref.
  destruct (VanillaToDoListModel.toDoList this) as [i|old]; [|done].
  by destruct (VanillaToDoListModel.toDoLists this !! i).
Qed.

(** The items a method leaves are the items it wrote before [#store]. *)
Ltac items_after_store :=
  unfold bind;
  match goal with
  | |- context [VanillaToDoListModel.store ?m ?w] =>
      let this' := fresh "this'" in
      let w' := fresh "w'" in
      let Hs := fresh "Hs" in
      destruct (VanillaToDoListModel.store m w) as [this' w'] eqn:Hs;
      cbn [fst VanillaToDoListModel.updateView ret];
      change this' with (fst (this', w'));
      rewrite <- Hs, getItems_store
  end.

Lemma clearToDoList_items (this : VanillaToDoListModel.t) (w : World) :
  VanillaToDoListModel.getItems (fst (VanillaToDoListModel.clearToDoList this w)) =
  List.filter
    (fun i => Js.strict_eq (ToDoListItem.done i) (Js.boolean false))
    (VanillaToDoListModel.getItems this).
Proof.
  unfold VanillaToDoListModel.clearToDoList. items_after_store.
  by rewrite (getItems_setItems_of
                (List.filter (fun i => Js.strict_eq (ToDoListItem.done i)
                                         (Js.boolean false)))).
Qed.

Lemma toggleAllToDoListItems_items (this : VanillaToDoListModel.t) (w : World) :
  VanillaToDoListModel.getItems
    (fst (VanillaToDoListModel.toggleAllToDoListItems this w)) =
  List.map
    (fun i => ToDoListItem.with_done (Js.not (ToDoListItem.done i)) i)
    (VanillaToDoListModel.getItems this).
Proof.
  unfold VanillaToDoListModel.toggleAllToDoListItems. items_after_store.
  by rewrite (getItems_setItems_of
                (List.map (fun i => ToDoListItem.with_done
                                      (Js.not (ToDoListItem.done i)) i))).
Qed.

(** The boolean filter of the code against the plain property. *)
Lemma filter_decide {A} (p : A -> bool) (P : A -> Prop)
    `{!forall x, Decision (P x)} (l : list A) :
  (forall x, p x = true <-> P x) -> List.filter p l = filter P l.
Proof.
  intros Hp. induction l as [|x l IH]; [done|].
  simpl. rewrite filter_cons, IH.
  destruct (decide (P x)) as [HP|HP].
  - apply Hp in HP. by rewrite HP.
  - destruct (p x) eqn:Hx; [|done]. by apply Hp in Hx.
Qed.

(** ** Clearing *)

(** C2, as the code has it. [clearToDoLists] keeps exactly the lists whose
    [done] is strictly false, in their order, and removes all others: those
    whose [done] is true and those whose [done] is not a boolean;
    [clearToDoList] does the same to the items of the list. What is kept is
    a sublist of what was there, and the kept lists are what is stored. *)
Theorem clear_keeps_the_strictly_pending
    (this : VanillaToDoListsModel.t) (w : World)
    (that : VanillaToDoListModel.t) (v : World) :
  (let '(this', w') := VanillaToDoListsModel.clearToDoLists this w in
   VanillaToDoListsModel.toDoLists this' =
     filter (fun l => ToDoList.done l = Js.boolean false)
       (VanillaToDoListsModel.toDoLists this) /\
   VanillaToDoListsModel.toDoLists this'
     `sublist_of` VanillaToDoListsModel.toDoLists this /\
   localStorage w' = Some (VanillaToDoListsModel.toDoLists this')) /\
  (let that' := fst (VanillaToDoListModel.clearToDoList that v) in
   VanillaToDoListModel.getItems that' =
     filter (fun i => ToDoListItem.done i = Js.boolean false)
       (VanillaToDoListModel.getItems that) /\
   VanillaToDoListModel.getItems that'
     `sublist_of` VanillaToDoListModel.getItems that).
Proof.
  split.
  - unfold VanillaToDoListsModel.clearToDoLists, bind. simpl.
    rewrite (filter_decide _ (fun l => ToDoList.done l = Js.boolean false))
      by (intros l; apply strict_eq_true).
    repeat split. apply sublist_filter.
  - cbv zeta. rewrite clearToDoList_items.
    rewrite (filter_decide _ (fun i => ToDoListItem.done i = Js.boolean false))
      by (intros i; apply strict_eq_true).
    split; [done|]. apply sublist_filter.
Qed.

(** C2, as the claim has it, fails: a list whose [done] is undefined is
    not a list whose [done] is true, and clearing removes it. *)
Lemma clear_removes_undefined_counterexample :
  let l := {| ToDoList.id := 1; ToDoList.created := "c";
              ToDoList.lastRenamed := None; ToDoList.lastUpdated := None;
              ToDoList.name := "one"; ToDoList.done := Js.undefined;
              ToDoList.items := [] |} in
  let this := {| VanillaToDoListsModel.toDoLists := [l] |} in
  let w := {| localStorage := Some [l];
              clock := fun k => {| getTime := Z.of_nat k; toJSON := "t" |};
              ticks := 0; toDoListsChanged := []; toDoListChanged := [] |} in
  ToDoList.done l <> Js.boolean true /\
  VanillaToDoListsModel.toDoLists
    (fst (VanillaToDoListsModel.clearToDoLists this w)) = [] /\
  VanillaToDoListsModel.toDoLists
    (fst (VanillaToDoListsModel.clearToDoLists this w)) <>
  filter (fun l => ToDoList.done l <> Js.boolean true)
    (VanillaToDoListsModel.toDoLists this).
Proof. cbv zeta. repeat split; discriminate. Qed.

(** ** Toggling all *)

(** C3, as the code has it. [toggleAllToDoLists] replaces every list's
    [done] by its negation, whatever the other lists hold. Applied twice,
    it returns every list whose [done] is a boolean unchanged, and leaves a
    list whose [done] is not a boolean with the boolean that value coerces
    to (false for undefined); the other fields and the order are kept.
    [toggleAllToDoListItems] does the same to the items of the list. *)
Theorem toggleAll_twice
    (this : VanillaToDoListsModel.t) (w : World)
    (that : VanillaToDoListModel.t) (v : World) :
  (let '(this1, w1) := VanillaToDoListsModel.toggleAllToDoLists this w in
   let '(this2, w2) := VanillaToDoListsModel.toggleAllToDoLists this1 w1 in
   VanillaToDoListsModel.toDoLists this1 =
     List.map (fun l => ToDoList.with_done (Js.not (ToDoList.done l)) l)
       (VanillaToDoListsModel.toDoLists this) /\
   VanillaToDoListsModel.toDoLists this2 =
     List.map
       (fun l => if Js.is_boolean (ToDoList.done l) then l
                 else ToDoList.with_done
                        (Js.boolean (Js.to_boolean (ToDoList.done l))) l)
       (VanillaToDoListsModel.toDoLists this) /\
   localStorage w2 = Some (VanillaToDoListsModel.toDoLists this2)) /\
  (let '(that1, v1) := VanillaToDoListModel.toggleAllToDoListItems that v in
   let '(that2, v2) := VanillaToDoListModel.toggleAllToDoListItems that1 v1 in
   VanillaToDoListModel.getItems that1 =
     List.map (fun i => ToDoListItem.with_done (Js.not (ToDoListItem.done i)) i)
       (VanillaToDoListModel.getItems that) /\
   VanillaToDoListModel.getItems that2 =
     List.map
       (fun i => if Js.is_boolean (ToDoListItem.done i) then i
                 else ToDoListItem.with_done
                        (Js.boolean (Js.to_boolean (ToDoListItem.done i))) i)
       (VanillaToDoListModel.getItems that)).
Proof.
  split.
  - unfold VanillaToDoListsModel.toggleAllToDoLists, bind. simpl.
    split; [done|]. split; [|done].
    rewrite List.map_map. apply List.map_ext. intros l.
    unfold ToDoList.with_done. simpl. rewrite not_not.
    destruct l as [i c r u n d its]. simpl.
    destruct (Js.is_boolean d) eqn:Hd; [|done].
    by rewrite to_boolean_boolean.
  - destruct (VanillaToDoListModel.toggleAllToDoListItems that v)
      as [that1 v1] eqn:H1.
    destruct (VanillaToDoListModel.toggleAllToDoListItems that1 v1)
      as [that2 v2] eqn:H2.
    change that2 with (fst (that2, v2)). rewrite <- H2.
    rewrite toggleAllToDoListItems_items.
    change that1 with (fst (that1, v1)). rewrite <- H1.
    rewrite toggleAllToDoListItems_items.
    split; [done|].
    rewrite List.map_map. apply List.map_ext. intros i.
    unfold ToDoListItem.with_done. simpl. rewrite not_not.
    destruct i as [n c u t d]. simpl.
    destruct (Js.is_boolean d) eqn:Hd; [|done].
    by rewrite to_boolean_boolean.
Qed.

(** C3, as the claim has it, fails: a list whose [done] is undefined comes
    back from two [toggleAllToDoLists] with [done] false. *)
Lemma toggleAll_twice_undefined_counterexample :
  let l := {| ToDoList.id := 1; ToDoList.created := "c";
              ToDoList.lastRenamed := None; ToDoList.lastUpdated := None;
              ToDoList.name := "one"; ToDoList.done := Js.undefined;
              ToDoList.items := [] |} in
  let this := {| VanillaToDoListsModel.toDoLists := [l] |} in
  let w := {| localStorage := Some [l];
              clock := fun k => {| getTime := Z.of_nat k; toJSON := "t" |};
              ticks := 0; toDoListsChanged := []; toDoListChanged := [] |} in
  let '(this1, w1) := VanillaToDoListsModel.toggleAllToDoLists this w in
  let '(this2, w2) := VanillaToDoListsModel.toggleAllToDoLists this1 w1 in
  List.map ToDoList.done (VanillaToDoListsModel.toDoLists this2) =
    [Js.boolean false] /\
  List.map ToDoList.done (VanillaToDoListsModel.toDoLists this2) <>
  List.map ToDoList.done (VanillaToDoListsModel.toDoLists this).
Proof. cbv zeta. simpl. split; [reflexivity|discriminate]. Qed.

(** ** Every item mutation is a write to [this.toDoList.items], then
    [#store], then [#updateView] *)

Lemma newDate_run (w : World) : newDate w = (clock w (ticks w), advance 1 w).
Proof. unfold newDate, advance. do 2 f_equal. lia. Qed.

Lemma handle_writes_back (e : VanillaToDoListController.Intent)
    (this : VanillaToDoListModel.t) (w : World) :
  exists (its : list ToDoListItem.t) (n : nat),
    VanillaToDoListController.handle e this w =
    written_back (VanillaToDoListModel.setItems its this) (advance n w).
Proof.
  destruct e as [text|id text|id|id| |]; simpl.
  - eexists _, 1. unfold VanillaToDoListModel.createToDoListItem.
    unfold bind at 1. rewrite newDate_run. reflexivity.
  - eexists _, _. unfold VanillaToDoListModel.updateToDoListItem.
    unfold bind at 1.
    rewrite (mapM_stamp
               (fun i => Js.number_strict_eq (Js.Int (ToDoListItem.id i)) id)
               (fun d i => ToDoListItem.with_text d text i)).
    reflexivity.
  - eexists _, 0. rewrite advance_0. reflexivity.
  - eexists _, 0. rewrite advance_0. reflexivity.
  - eexists _, 0. rewrite advance_0. reflexivity.
  - eexists _, 0. rewrite advance_0. reflexivity.
Qed.

Lemma setItems_toDoListId its this :
  VanillaToDoListModel.toDoListId (VanillaToDoListModel.setItems its this) =
  VanillaToDoListModel.toDoListId this.
Proof.
  unfold VanillaToDoListModel.setItems.
  by destruct (VanillaToDoListModel.toDoList this).
Qed.

Lemma setItems_length its this :
  length (VanillaToDoListModel.toDoLists (VanillaToDoListModel.setItems its this)) =
  length (VanillaToDoListModel.toDoLists this).
Proof.
  unfold VanillaToDoListModel.setItems.
  destruct (VanillaToDoListModel.toDoList this); simpl; [|done].
  apply length_alter.
Qed.

Lemma setItems_coherent_items its this :
  coherent this ->
  VanillaToDoListModel.getItems (VanillaToDoListModel.setItems its this) = its.
Proof.
  intros Hc. rewrite getItems_setItems. unfold coherent in Hc.
  destruct (VanillaToDoListModel.toDoList this) as [i|old]; [|done].
  destruct Hc as (l & Hl & _). by rewrite Hl.
Qed.

Lemma setItems_lookup its this (j : nat) (l : ToDoList.t) :
  coherent this ->
  VanillaToDoListModel.toDoLists this !! j = Some l ->
  exists l1,
    VanillaToDoListModel.toDoLists (VanillaToDoListModel.setItems its this) !! j
      = Some l1 /\
    ToDoList.id l1 = ToDoList.id l /\
    (VanillaToDoListModel.addressed (VanillaToDoListModel.toDoListId this) l
       = false -> l1 = l) /\
    (forall X d, ToDoList.with_items X (ToDoList.with_lastUpdated d l1) =
                 ToDoList.with_items X (ToDoList.with_lastUpdated d l)).
Proof.
  intros Hc Hl. unfold coherent in Hc. unfold VanillaToDoListModel.setItems.
  destruct (VanillaToDoListModel.toDoList this) as [i|old]; simpl.
  - destruct Hc as (l0 & Hl0 & Ha). rewrite list_lookup_alter.
    destruct (decide (i = j)) as [->|Hij].
    + rewrite Hl in Hl0. injection Hl0 as <-. rewrite Hl. simpl.
      eexists. split; [done|]. split; [done|]. split; [|done].
      congruence.
    + eauto.
  - eauto.
Qed.

Lemma written_back_frame (its : list ToDoListItem.t) (n : nat)
    (this : VanillaToDoListModel.t) (w : World) :
  coherent this ->
  let '(this', w') :=
    written_back (VanillaToDoListModel.setItems its this) (advance n w) in
  coherent this' /\
  VanillaToDoListModel.toDoListId this' = VanillaToDoListModel.toDoListId this /\
  VanillaToDoListModel.getItems this' = its /\
  VanillaToDoListModel.toDoList this' =
    VanillaToDoListModel.toDoList (VanillaToDoListModel.setItems its this) /\
  localStorage w' = Some (VanillaToDoListModel.toDoLists this') /\
  Forall2
    (fun l l' =>
       if VanillaToDoListModel.addressed (VanillaToDoListModel.toDoListId this) l
       then written_to this' w w' l l'
       else l' = l)
    (VanillaToDoListModel.toDoLists this)
    (VanillaToDoListModel.toDoLists this').
Proof.
  intros Hc. unfold written_back.
  destruct (VanillaToDoListModel.store _ (advance n w)) as [this' w1] eqn:Hs.
  cbn [snd VanillaToDoListModel.updateView localStorage].
  assert (Hitems : VanillaToDoListModel.getItems this' = its).
  { change this' with (fst (this', w1)).
    by rewrite <- Hs, getItems_store, setItems_coherent_items. }
  rewrite store_run in Hs. cbv zeta in Hs. rewrite setItems_toDoListId in Hs.
  rewrite setItems_coherent_items in Hs by done.
  injection Hs as <- <-.
  cbn [VanillaToDoListModel.toDoListId VanillaToDoListModel.toDoLists
       VanillaToDoListModel.toDoList localStorage snd setItem advance ticks clock].
  set (id := VanillaToDoListModel.toDoListId this) in *.
  set (g := fun d l => ToDoList.with_items its (ToDoList.with_lastUpdated d l)).
  set (ls1 := VanillaToDoListModel.toDoLists
                (VanillaToDoListModel.setItems its this)).
  assert (Hlook : forall j l,
             VanillaToDoListModel.toDoLists this !! j = Some l ->
             exists d k,
               ticks w + n <= k /\
               k < ticks w + n + length (List.filter (VanillaToDoListModel.addressed id) ls1) + 
                   (if VanillaToDoListModel.addressed id l then 0 else 1) /\
               d = clock w k /\
               stamp (VanillaToDoListModel.addressed id) g (clock w)
                 (ticks w + n) ls1 !! j =
               Some (if VanillaToDoListModel.addressed id l then g d l else l)).
  { intros j l Hl.
    destruct (setItems_lookup its this j l Hc Hl) as (l1 & Hl1 & Hid & Hsame & Hg).
    fold ls1 in Hl1. fold id in Hsame.
    assert (Ha : VanillaToDoListModel.addressed id l1 =
                 VanillaToDoListModel.addressed id l).
    { unfold VanillaToDoListModel.addressed. by rewrite Hid. }
    eexists _, _. split; [|split; [|split; [reflexivity|]]]; cycle 2.
    - rewrite stamp_lookup, Hl1. simpl. rewrite Ha.
      destruct (VanillaToDoListModel.addressed id l) eqn:Hal.
      + unfold g. by rewrite Hg.
      + by rewrite Hsame.
    - lia.
    - destruct (VanillaToDoListModel.addressed id l) eqn:Hal.
      + pose proof (filter_take_lt _ ls1 j l1 Hl1 Ha). lia.
      + pose proof (filter_take_le (VanillaToDoListModel.addressed id) ls1 j). lia. }
  split; [|split; [done|split; [done|split; [done|split; [done|]]]]].
  - unfold coherent in *.
    cbn [VanillaToDoListModel.toDoListId VanillaToDoListModel.toDoLists
         VanillaToDoListModel.toDoList].
    unfold VanillaToDoListModel.setItems at 1.
    destruct (VanillaToDoListModel.toDoList this) as [i|old] eqn:Href.
    + cbn [VanillaToDoListModel.toDoList].
      destruct Hc as (l0 & Hl0 & Ha).
      destruct (Hlook i l0 Hl0) as (d & k & _ & _ & _ & Hst).
      fold id in Ha. rewrite Ha in Hst.
      eexists. split; [exact Hst|]. exact Ha.
    + cbn [VanillaToDoListModel.toDoList]. fold id in Hc.
      assert (ls1 = VanillaToDoListModel.toDoLists this) as ->.
      { unfold ls1, VanillaToDoListModel.setItems. by rewrite Href. }
      by rewrite stamp_untouched.
  - apply Forall2_same_length_lookup. split.
    + rewrite stamp_length. apply eq_sym, setItems_length.
    + intros j l l' Hl Hl'.
      destruct (Hlook j l Hl) as (d & k & Hk1 & Hk2 & -> & Hst).
      rewrite Hst in Hl'. injection Hl' as <-.
      destruct (VanillaToDoListModel.addressed id l) eqn:Hal; [|done].
      unfold written_to.
      split; [symmetry; exact Hitems|].
      split; [|by repeat split].
      eexists. split; [reflexivity|].
      exists k. split; [|reflexivity]. cbn. lia.
Qed.

Lemma constructor_run (id : Js.number) (w : World) :
  let '(this, w0) := VanillaToDoListModel.constructor id w in
  w0 = w /\ coherent this /\
  VanillaToDoListModel.toDoListId this = id /\
  VanillaToDoListModel.toDoLists this = load w /\
  (Forall (fun l => Js.Int (ToDoList.id l) <> id) (load w) ->
   VanillaToDoListModel.toDoList this = VanillaToDoListModel.Own []).
Proof.
  unfold VanillaToDoListModel.constructor, bind, getItem, ret. fold (load w).
  destruct (list_find _ (load w)) as [[i l]|] eqn:Hfind.
  - apply list_find_Some in Hfind as (Hl & Ha & _).
    apply Is_true_true in Ha.
    split; [done|]. split; [|split; [done|split; [done|]]].
    + unfold coherent. simpl. eauto.
    + intros Hall. rewrite Forall_forall in Hall.
      apply number_strict_eq_true in Ha.
      destruct (Hall l); [|done]. eapply list_elem_of_lookup_2, Hl.
  - apply list_find_None in Hfind.
    split; [done|]. split; [|done].
    unfold coherent. simpl. eapply Forall_impl; [exact Hfind|].
    intros l Hl. cbv beta in Hl.
    destruct (VanillaToDoListModel.addressed id l); [|done].
    by destruct Hl.
Qed.

Lemma handle_frame (e : VanillaToDoListController.Intent)
    (this : VanillaToDoListModel.t) (w : World) :
  coherent this ->
  let '(this', w') := VanillaToDoListController.handle e this w in
  coherent this' /\
  VanillaToDoListModel.toDoListId this' = VanillaToDoListModel.toDoListId this /\
  (forall old, VanillaToDoListModel.toDoList this = VanillaToDoListModel.Own old ->
     exists its, VanillaToDoListModel.toDoList this' = VanillaToDoListModel.Own its) /\
  localStorage w' = Some (VanillaToDoListModel.toDoLists this') /\
  Forall2
    (fun l l' =>
       if VanillaToDoListModel.addressed (VanillaToDoListModel.toDoListId this) l
       then written_to this' w w' l l'
       else l' = l)
    (VanillaToDoListModel.toDoLists this)
    (VanillaToDoListModel.toDoLists this').
Proof.
  intros Hc. destruct (handle_writes_back e this w) as (its & n & ->).
  pose proof (written_back_frame its n this w Hc) as H.
  destruct (written_back _ _) as [this' w'].
  destruct H as (Hc' & Hid & _ & Href & Hst & Hall).
  repeat split; try done.
  intros old Hold. rewrite Href. unfold VanillaToDoListModel.setItems.
  rewrite Hold. eauto.
Qed.

(** ** The write-back *)

(** C7, as the code has it. Whatever the item mutation, the write-back
    gives every list that has the model's id (the parent list, which is the
    first of them, and any other list sharing its id) the model's items
    and a [lastUpdated] taken during the call, keeps that list's id, [created], [lastRenamed],
    [name] and [done], and leaves every other list of the collection as it
    was, at its place; the collection so changed is what is stored. The
    state stays coherent, so this holds of every later mutation as well. *)
Theorem item_mutation_writes_back_to_its_list
    (e : VanillaToDoListController.Intent)
    (this : VanillaToDoListModel.t) (w : World) :
  coherent this ->
  let '(this', w') := VanillaToDoListController.handle e this w in
  coherent this' /\
  localStorage w' = Some (VanillaToDoListModel.toDoLists this') /\
  Forall2
    (fun l l' =>
       if VanillaToDoListModel.addressed (VanillaToDoListModel.toDoListId this) l
       then
         ToDoList.items l' = VanillaToDoListModel.getItems this' /\
         (exists s, ToDoList.lastUpdated l' = Some s /\ taken_between w w' s) /\
         ToDoList.id l' = ToDoList.id l /\
         ToDoList.created l' = ToDoList.created l /\
         ToDoList.lastRenamed l' = ToDoList.lastRenamed l /\
         ToDoList.name l' = ToDoList.name l /\
         ToDoList.done l' = ToDoList.done l
       else l' = l)
    (VanillaToDoListModel.toDoLists this)
    (VanillaToDoListModel.toDoLists this').
Proof.
  intros Hc. pose proof (handle_frame e this w Hc) as H.
  destruct (VanillaToDoListController.handle e this w) as [this' w'].
  destruct H as (Hc' & _ & _ & Hst & Hall). done.
Qed.

(** C7, as the claim has it, fails where another list shares the addressed
    id: [find] gives the first list with the id as the parent, and the
    write-back replaces the items of the second one as well, and stamps
    it. *)
Lemma write_back_reaches_the_twin_counterexample :
  let second :=
    ToDoList.with_items [sample_twin_item "z"] (sample_twin "second" true) in
  let w :=
    {| localStorage := Some [sample_twin "first" false; second];
       clock := sample_clock; ticks := 0;
       toDoListsChanged := []; toDoListChanged := [] |} in
  let '(this, w0) := VanillaToDoListModel.constructor (Js.Int 5) w in
  let '(this', w') := VanillaToDoListModel.createToDoListItem "Milk" this w0 in
  let milk :=
    {| ToDoListItem.id := 1700000000000; ToDoListItem.created := "T0";
       ToDoListItem.lastUpdated := None; ToDoListItem.text := "Milk";
       ToDoListItem.done := Js.boolean false |} in
  VanillaToDoListModel.deref this = Found (sample_twin "first" false) /\
  load w !! 1 = Some second /\
  load w' !! 1 =
    Some {| ToDoList.id := 5; ToDoList.created := "c5";
            ToDoList.lastRenamed := None; ToDoList.lastUpdated := Some "T2";
            ToDoList.name := "second"; ToDoList.done := Js.boolean true;
            ToDoList.items :=
              [sample_twin_item "x"; sample_twin_item "y"; milk] |} /\
  load w' !! 1 <> load w !! 1.
Proof. repeat split; try reflexivity; discriminate. Qed.

(** ** Clearing again *)

(** C9, as the code has it. A second [clearToDoLists] leaves the model
    and local storage with the collection the first left. A second
    [clearToDoList] leaves the list's items as the first left them, and
    is a write-back all the same: in the collection it stores, every list
    with the addressed id has a [lastUpdated] taken during the second
    call, with its items and its other fields as after the first call,
    and every other list is as after the first call. *)
Theorem clearing_again_restamps_at_most
    (this : VanillaToDoListsModel.t) (w : World)
    (that : VanillaToDoListModel.t) (v : World) :
  coherent that ->
  (let '(this1, w1) := VanillaToDoListsModel.clearToDoLists this w in
   let '(this2, w2) := VanillaToDoListsModel.clearToDoLists this1 w1 in
   this2 = this1 /\ localStorage w2 = localStorage w1) /\
  (let '(that1, v1) := VanillaToDoListModel.clearToDoList that v in
   let '(that2, v2) := VanillaToDoListModel.clearToDoList that1 v1 in
   VanillaToDoListModel.getItems that2 = VanillaToDoListModel.getItems that1 /\
   localStorage v1 = Some (VanillaToDoListModel.toDoLists that1) /\
   localStorage v2 = Some (VanillaToDoListModel.toDoLists that2) /\
   Forall2
     (fun l1 l2 =>
        if VanillaToDoListModel.addressed
             (VanillaToDoListModel.toDoListId that) l1
        then
          (exists s, ToDoList.lastUpdated l2 = Some s /\ taken_between v1 v2 s) /\
          ToDoList.items l2 = ToDoList.items l1 /\
          ToDoList.id l2 = ToDoList.id l1 /\
          ToDoList.created l2 = ToDoList.created l1 /\
          ToDoList.lastRenamed l2 = ToDoList.lastRenamed l1 /\
          ToDoList.name l2 = ToDoList.name l1 /\
          ToDoList.done l2 = ToDoList.done l1
        else l2 = l1)
     (VanillaToDoListModel.toDoLists that1)
     (VanillaToDoListModel.toDoLists that2)).
Proof.
  intros Hc. split.
  - unfold VanillaToDoListsModel.clearToDoLists, bind. simpl.
    set (p := fun l => Js.strict_eq (ToDoList.done l) (Js.boolean false)).
    assert (Hidem : List.filter p (List.filter p (VanillaToDoListsModel.toDoLists this))
                    = List.filter p (VanillaToDoListsModel.toDoLists this)).
    { apply filter_all, Forall_forall. intros l Hl.
      apply list_elem_of_In, List.filter_In in Hl. tauto. }
    by rewrite Hidem.
  - pose proof (handle_frame VanillaToDoListController.ClearToDoList that v Hc)
      as H1.
    cbn [VanillaToDoListController.handle] in H1.
    destruct (VanillaToDoListModel.clearToDoList that v) as [that1 v1] eqn:E1.
    destruct H1 as (Hc1 & Hid1 & _ & Hst1 & Hall1).
    pose proof (handle_frame VanillaToDoListController.ClearToDoList that1 v1 Hc1)
      as H2.
    cbn [VanillaToDoListController.handle] in H2.
    destruct (VanillaToDoListModel.clearToDoList that1 v1) as [that2 v2] eqn:E2.
    destruct H2 as (_ & _ & _ & Hst2 & Hall2).
    assert (Hitems : VanillaToDoListModel.getItems that2 =
                     VanillaToDoListModel.getItems that1).
    { change that2 with (fst (that2, v2)). rewrite <- E2, clearToDoList_items.
      change that1 with (fst (that1, v1)). rewrite <- E1, clearToDoList_items.
      apply filter_all, Forall_forall. intros i Hi.
      apply list_elem_of_In, List.filter_In in Hi. tauto. }
    split; [exact Hitems|]. split; [exact Hst1|]. split; [exact Hst2|].
    apply Forall2_same_length_lookup. split; [by eapply Forall2_length|].
    intros k l1 l2 Hl1 Hl2.
    pose proof (Forall2_lookup_lr _ _ _ _ _ _ Hall2 Hl1 Hl2) as H12.
    cbv beta in H12. rewrite Hid1 in H12.
    destruct (Forall2_lookup_r _ _ _ _ _ Hall1 Hl1) as (l0 & Hl0 & H01).
    cbv beta in H01.
    assert (Ha : VanillaToDoListModel.addressed
                   (VanillaToDoListModel.toDoListId that) l1 =
                 VanillaToDoListModel.addressed
                   (VanillaToDoListModel.toDoListId that) l0).
    { destruct (VanillaToDoListModel.addressed _ l0) eqn:Hl0a.
      - destruct H01 as (_ & _ & Hid01 & _).
        unfold VanillaToDoListModel.addressed in *. by rewrite Hid01.
      - by subst l1. }
    destruct (VanillaToDoListModel.addressed _ l1) eqn:Ha1; [|exact H12].
    symmetry in Ha. rewrite Ha in H01.
    destruct H01 as (Hi1 & _).
    destruct H12 as (Hi2 & Hs & Hrest).
    split; [exact Hs|]. split; [congruence|]. exact Hrest.
Qed.

(** C9, as the claim has it, fails for [clearToDoList]: the collection
    after the second call is not the collection after the first, the
    list's [lastUpdated] having moved on. *)
Lemma clearToDoList_twice_counterexample :
  let '(that, v) := VanillaToDoListModel.constructor (Js.Int 1) sample_world in
  let '(that1, v1) := VanillaToDoListModel.clearToDoList that v in
  let '(that2, v2) := VanillaToDoListModel.clearToDoList that1 v1 in
  ToDoList.lastUpdated <$> VanillaToDoListModel.toDoLists that1 =
    [Some "T0"; None] /\
  ToDoList.lastUpdated <$> VanillaToDoListModel.toDoLists that2 =
    [Some "T1"; None] /\
  VanillaToDoListModel.toDoLists that2 <> VanillaToDoListModel.toDoLists that1 /\
  localStorage v2 <> localStorage v1.
Proof. repeat split; try reflexivity; discriminate. Qed.

(** ** Invalid addressing *)

Lemma Forall2_untouched {A} (p : A -> bool) (Q : A -> A -> Prop) (l l' : list A) :
  Forall (fun x => p x = false) l ->
  Forall2 (fun x x' => if p x then Q x x' else x' = x) l l' ->
  l' = l.
Proof.
  intros Hp H2. induction H2 as [|x x' l l' Hx _ IH]; [done|].
  apply Forall_cons in Hp as [Hpx Hp]. rewrite Hpx in Hx.
  by rewrite Hx, IH.
Qed.

Lemma handleAll_own (es : list VanillaToDoListController.Intent)
    (this : VanillaToDoListModel.t) (w : World) (old : list ToDoListItem.t) :
  coherent this ->
  VanillaToDoListModel.toDoList this = VanillaToDoListModel.Own old ->
  let '(this', w') := VanillaToDoListController.handleAll es this w in
  (exists its, VanillaToDoListModel.toDoList this' = VanillaToDoListModel.Own its) /\
  VanillaToDoListModel.toDoLists this' = VanillaToDoListModel.toDoLists this /\
  localStorage w' =
    match es with
    | [] => localStorage w
    | _ :: _ => Some (VanillaToDoListModel.toDoLists this)
    end.
Proof.
  revert this w old. induction es as [|e es IH]; intros this w old Hc Hown.
  - simpl. eauto.
  - simpl. unfold bind.
    pose proof (handle_frame e this w Hc) as H.
    destruct (VanillaToDoListController.handle e this w) as [this1 w1].
    destruct H as (Hc1 & Hid & Hown1 & Hst & Hall).
    destruct (Hown1 old Hown) as [its1 Hits1].
    assert (Hsame : VanillaToDoListModel.toDoLists this1 =
                    VanillaToDoListModel.toDoLists this).
    { eapply Forall2_untouched; [|exact Hall].
      unfold coherent in Hc. by rewrite Hown in Hc. }
    pose proof (IH this1 w1 its1 Hc1 Hits1) as H.
    destruct (VanillaToDoListController.handleAll es this1 w1) as [this' w'].
    destruct H as (Hown' & Hlists & Hst').
    split; [done|]. split; [congruence|].
    rewrite Hst'. destruct es; congruence.
Qed.

(** C6. Constructed with an id that no list of the stored collection has,
    the model holds an object of its own with an empty [items] and no [id]:
    the view shows the invalid-id paragraph. However many item mutations
    follow, the object keeps having no id, the model's collection is the
    one that was loaded, and local storage holds that same collection (as
    an empty array where the key was absent): none of the mutations is
    persisted. *)
Theorem unknown_list_id_is_invalid_state
    {Node : Type} (querySelector : string -> option Node)
    (id : Js.number) (w : World) (hash : string)
    (es : list VanillaToDoListController.Intent) :
  Forall (fun l => Js.Int (ToDoList.id l) <> id) (load w) ->
  let '(this, w0) := VanillaToDoListModel.constructor id w in
  VanillaToDoListModel.deref this = Bare [] /\
  payload_id (VanillaToDoListModel.deref this) = None /\
  w0 = w /\
  VanillaToDoListView.section
    (VanillaToDoListView.render querySelector
       (VanillaToDoListModel.deref this) hash) =
    Paragraph "Invalid ID! Your entries won't be stored!" /\
  let '(this', w') := VanillaToDoListController.handleAll es this w0 in
  payload_id (VanillaToDoListModel.deref this') = None /\
  VanillaToDoListModel.toDoLists this' = load w /\
  load w' = load w /\
  localStorage w' =
    match es with
    | [] => localStorage w
    | _ :: _ => Some (load w)
    end.
Proof.
  intros Hid. pose proof (constructor_run id w) as H.
  destruct (VanillaToDoListModel.constructor id w) as [this w0].
  destruct H as (-> & Hc & _ & Hlists & Hown). specialize (Hown Hid).
  assert (Hderef : VanillaToDoListModel.deref this = Bare []).
  { unfold VanillaToDoListModel.deref. by rewrite Hown. }
  rewrite Hderef. repeat (split; [done|]).
  pose proof (handleAll_own es this w [] Hc Hown) as H.
  destruct (VanillaToDoListController.handleAll es this w) as [this' w'].
  destruct H as ([its Hits] & Hlists' & Hst).
  split; [unfold VanillaToDoListModel.deref; by rewrite Hits|].
  split; [congruence|].
  rewrite Hlists in Hst.
  split; [|done]. unfold load at 1. rewrite Hst. by destruct es.
Qed.

(** ** Records that share an id *)

Lemma lookup_map {A B} (f : A -> B) (l : list A) (i : nat) :
  List.map f l !! i = f <$> l !! i.
Proof. revert i. induction l as [|x l IH]; intros [|i]; simpl; auto. Qed.

Lemma updateToDoListItem_items (id : Js.number) (textNew : string)
    (this : VanillaToDoListModel.t) (w : World) :
  VanillaToDoListModel.getItems
    (fst (VanillaToDoListModel.updateToDoListItem id textNew this w)) =
  stamp (fun i => Js.number_strict_eq (Js.Int (ToDoListItem.id i)) id)
    (fun d i => ToDoListItem.with_text d textNew i)
    (clock w) (ticks w) (VanillaToDoListModel.getItems this).
Proof.
  unfold VanillaToDoListModel.updateToDoListItem. unfold bind at 1.
  rewrite (mapM_stamp
             (fun i => Js.number_strict_eq (Js.Int (ToDoListItem.id i)) id)
             (fun d i => ToDoListItem.with_text d textNew i)).
  items_after_store.
  by rewrite (getItems_setItems_of
                (stamp (fun i => Js.number_strict_eq (Js.Int (ToDoListItem.id i)) id)
                   (fun d i => ToDoListItem.with_text d textNew i)
                   (clock w) (ticks w))).
Qed.

Lemma deleteToDoListItem_items (id : Js.number)
    (this : VanillaToDoListModel.t) (w : World) :
  VanillaToDoListModel.getItems
    (fst (VanillaToDoListModel.deleteToDoListItem id this w)) =
  List.filter (fun i => Js.number_strict_neq (Js.Int (ToDoListItem.id i)) id)
    (VanillaToDoListModel.getItems this).
Proof.
  unfold VanillaToDoListModel.deleteToDoListItem. items_after_store.
  by rewrite (getItems_setItems_of
                (List.filter (fun i => Js.number_strict_neq
                                         (Js.Int (ToDoListItem.id i)) id))).
Qed.

Lemma toggleToDoListItem_items (id : Js.number)
    (this : VanillaToDoListModel.t) (w : World) :
  VanillaToDoListModel.getItems
    (fst (VanillaToDoListModel.toggleToDoListItem id this w)) =
  List.map
    (fun i => if Js.number_strict_eq (Js.Int (ToDoListItem.id i)) id
              then ToDoListItem.with_done (Js.not (ToDoListItem.done i)) i
              else i)
    (VanillaToDoListModel.getItems this).
Proof.
  unfold VanillaToDoListModel.toggleToDoListItem. items_after_store.
  by rewrite (getItems_setItems_of
                (List.map
                   (fun i => if Js.number_strict_eq (Js.Int (ToDoListItem.id i)) id
                             then ToDoListItem.with_done
                                    (Js.not (ToDoListItem.done i)) i
                             else i))).
Qed.

(** The callbacks of [map] and [filter] at a record that has the id, at
    whatever position it is. *)
Lemma callbacks_at_a_record_with_the_id
    (this : VanillaToDoListsModel.t) (w : World) (id : Z)
    (toDoListNameNew : string) (i : nat) (l : ToDoList.t)
    (that : VanillaToDoListModel.t) (v : World) (itemId : Z)
    (toDoListItemTextNew : string) (j : nat) (item : ToDoListItem.t) :
  VanillaToDoListsModel.toDoLists this !! i = Some l ->
  ToDoList.id l = id ->
  VanillaToDoListModel.getItems that !! j = Some item ->
  ToDoListItem.id item = itemId ->
  (let '(this', w') :=
     VanillaToDoListsModel.updateToDoList (Js.Int id) toDoListNameNew this w in
   exists k, ticks w <= k < ticks w' /\
     VanillaToDoListsModel.toDoLists this' !! i =
       Some (ToDoList.with_name (clock w k) toDoListNameNew l)) /\
  VanillaToDoListsModel.toDoLists
    (fst (VanillaToDoListsModel.toggleToDoList (Js.Int id) this w)) !! i =
    Some (ToDoList.with_done (Js.not (ToDoList.done l)) l) /\
  (let this' := fst (VanillaToDoListsModel.deleteToDoList (Js.Int id) this w) in
   VanillaToDoListsModel.toDoLists this' =
     filter (fun l' => ToDoList.id l' <> id) (VanillaToDoListsModel.toDoLists this) /\
   Forall (fun l' => ToDoList.id l' <> id) (VanillaToDoListsModel.toDoLists this') /\
   length (VanillaToDoListsModel.toDoLists this') <
     length (VanillaToDoListsModel.toDoLists this)) /\
  (let '(that', v') :=
     VanillaToDoListModel.updateToDoListItem (Js.Int itemId)
       toDoListItemTextNew that v in
   exists k, ticks v <= k < ticks v' /\
     VanillaToDoListModel.getItems that' !! j =
       Some (ToDoListItem.with_text (clock v k) toDoListItemTextNew item)).
Proof.
  intros Hl Hid Hitem Hitemid.
  assert (Hp : Js.number_strict_eq (Js.Int (ToDoList.id l)) (Js.Int id) = true).
  { apply number_strict_eq_true. by rewrite Hid. }
  assert (Hq : Js.number_strict_eq (Js.Int (ToDoListItem.id item)) (Js.Int itemId)
               = true).
  { apply number_strict_eq_true. by rewrite Hitemid. }
  split; [|split; [|split]].
  - rewrite updateToDoList_run. cbv beta iota zeta.
    eexists. split; [|cbn [VanillaToDoListsModel.toDoLists];
                      rewrite stamp_lookup, Hl;
                      cbn [fmap option_fmap option_map]; by rewrite Hp].
    cbn [ticks stored_and_shown advance].
    pose proof (filter_take_lt
                  (fun l => Js.number_strict_eq (Js.Int (ToDoList.id l)) (Js.Int id))
                  _ i l Hl Hp).
    lia.
  - unfold VanillaToDoListsModel.toggleToDoList.
    cbn [fst bind VanillaToDoListsModel.store VanillaToDoListsModel.updateView
         setItem ret VanillaToDoListsModel.toDoLists].
    rewrite lookup_map, Hl. cbn [fmap option_fmap option_map]. by rewrite Hp.
  - cbv zeta. unfold VanillaToDoListsModel.deleteToDoList.
    cbn [fst bind VanillaToDoListsModel.store VanillaToDoListsModel.updateView
         setItem ret VanillaToDoListsModel.toDoLists].
    rewrite (filter_decide _ (fun l' => ToDoList.id l' <> id)).
    + split; [done|]. split.
      * apply Forall_forall. intros l' Hl'.
        by apply list_elem_of_filter in Hl' as [? _].
      * apply (length_filter_lt _ _ l).
        -- eapply list_elem_of_lookup_2, Hl.
        -- intros Hne. by apply Hne.
    + intros l'. unfold Js.number_strict_neq. rewrite Bool.negb_true_iff.
      rewrite number_strict_eq_false. split; intros H; congruence.
  - destruct (VanillaToDoListModel.updateToDoListItem _ _ that v)
      as [that' v'] eqn:Hu.
    assert (Hitems := updateToDoListItem_items (Js.Int itemId)
                        toDoListItemTextNew that v).
    rewrite Hu in Hitems. cbn [fst] in Hitems.
    assert (Hticks : ticks v +
              length (List.filter
                        (fun i => Js.number_strict_eq (Js.Int (ToDoListItem.id i))
                                    (Js.Int itemId))
                        (VanillaToDoListModel.getItems that)) <= ticks v').
    { revert Hu. unfold VanillaToDoListModel.updateToDoListItem.
      unfold bind at 1.
      rewrite (mapM_stamp
                 (fun i => Js.number_strict_eq (Js.Int (ToDoListItem.id i))
                             (Js.Int itemId))
                 (fun d i => ToDoListItem.with_text d toDoListItemTextNew i)).
      unfold bind. rewrite store_run. cbv zeta. intros [= _ <-].
      cbn. lia. }
    eexists. split; [|rewrite Hitems, stamp_lookup, Hitem;
                      cbn [fmap option_fmap option_map]; by rewrite Hq].
    pose proof (filter_take_lt
                  (fun i => Js.number_strict_eq (Js.Int (ToDoListItem.id i))
                              (Js.Int itemId))
                  _ j item Hitem Hq).
    lia.
Qed.

Lemma handle_stored (e : VanillaToDoListController.Intent)
    (this : VanillaToDoListModel.t) (w : World) :
  let '(this', w') := VanillaToDoListController.handle e this w in
  localStorage w' = Some (VanillaToDoListModel.toDoLists this').
Proof.
  destruct (handle_writes_back e this w) as (its & n & ->).
  unfold written_back. rewrite store_run. reflexivity.
Qed.

(** C10. The id-addressed mutations act on every record that has the id,
    at whatever position it is, and store the outcome. After
    [updateToDoList] a list with the id has the new name and a
    [lastRenamed] taken during the call; after [toggleToDoList] its [done]
    is the negation of what it was (true for false, false for true);
    either way its other fields are kept. [deleteToDoList] keeps the lists
    with another id and none with the id given. The same holds of an item
    with the id given under [updateToDoListItem] (text and [lastUpdated]),
    [toggleToDoListItem] and [deleteToDoListItem]. *)
Theorem every_record_with_the_id_is_acted_on
    (this : VanillaToDoListsModel.t) (w : World) (id : Z)
    (toDoListNameNew : string) (i : nat) (l : ToDoList.t)
    (that : VanillaToDoListModel.t) (v : World) (itemId : Z)
    (toDoListItemTextNew : string) (j : nat) (item : ToDoListItem.t) :
  VanillaToDoListsModel.toDoLists this !! i = Some l ->
  ToDoList.id l = id ->
  VanillaToDoListModel.getItems that !! j = Some item ->
  ToDoListItem.id item = itemId ->
  (let '(this', w') :=
     VanillaToDoListsModel.updateToDoList (Js.Int id) toDoListNameNew this w in
   localStorage w' = Some (VanillaToDoListsModel.toDoLists this') /\
   exists l', VanillaToDoListsModel.toDoLists this' !! i = Some l' /\
     ToDoList.name l' = toDoListNameNew /\
     (exists s, ToDoList.lastRenamed l' = Some s /\ taken_between w w' s) /\
     ToDoList.id l' = ToDoList.id l /\
     ToDoList.created l' = ToDoList.created l /\
     ToDoList.lastUpdated l' = ToDoList.lastUpdated l /\
     ToDoList.done l' = ToDoList.done l /\
     ToDoList.items l' = ToDoList.items l) /\
  (let '(this', w') :=
     VanillaToDoListsModel.toggleToDoList (Js.Int id) this w in
   localStorage w' = Some (VanillaToDoListsModel.toDoLists this') /\
   exists l', VanillaToDoListsModel.toDoLists this' !! i = Some l' /\
     ToDoList.done l' = Js.boolean (negb (Js.to_boolean (ToDoList.done l))) /\
     (forall b, ToDoList.done l = Js.boolean b ->
                ToDoList.done l' = Js.boolean (negb b)) /\
     ToDoList.id l' = ToDoList.id l /\
     ToDoList.created l' = ToDoList.created l /\
     ToDoList.lastRenamed l' = ToDoList.lastRenamed l /\
     ToDoList.lastUpdated l' = ToDoList.lastUpdated l /\
     ToDoList.name l' = ToDoList.name l /\
     ToDoList.items l' = ToDoList.items l) /\
  (let '(this', w') :=
     VanillaToDoListsModel.deleteToDoList (Js.Int id) this w in
   localStorage w' = Some (VanillaToDoListsModel.toDoLists this') /\
   VanillaToDoListsModel.toDoLists this' =
     filter (fun l' => ToDoList.id l' <> id) (VanillaToDoListsModel.toDoLists this) /\
   Forall (fun l' => ToDoList.id l' <> id) (VanillaToDoListsModel.toDoLists this') /\
   length (VanillaToDoListsModel.toDoLists this') <
     length (VanillaToDoListsModel.toDoLists this)) /\
  (let '(that', v') :=
     VanillaToDoListModel.updateToDoListItem (Js.Int itemId)
       toDoListItemTextNew that v in
   localStorage v' = Some (VanillaToDoListModel.toDoLists that') /\
   exists item', VanillaToDoListModel.getItems that' !! j = Some item' /\
     ToDoListItem.text item' = toDoListItemTextNew /\
     (exists s, ToDoListItem.lastUpdated item' = Some s /\ taken_between v v' s) /\
     ToDoListItem.id item' = ToDoListItem.id item /\
     ToDoListItem.created item' = ToDoListItem.created item /\
     ToDoListItem.done item' = ToDoListItem.done item) /\
  (let '(that', v') :=
     VanillaToDoListModel.toggleToDoListItem (Js.Int itemId) that v in
   localStorage v' = Some (VanillaToDoListModel.toDoLists that') /\
   exists item', VanillaToDoListModel.getItems that' !! j = Some item' /\
     ToDoListItem.done item' =
       Js.boolean (negb (Js.to_boolean (ToDoListItem.done item))) /\
     (forall b, ToDoListItem.done item = Js.boolean b ->
                ToDoListItem.done item' = Js.boolean (negb b)) /\
     ToDoListItem.id item' = ToDoListItem.id item /\
     ToDoListItem.created item' = ToDoListItem.created item /\
     ToDoListItem.lastUpdated item' = ToDoListItem.lastUpdated item /\
     ToDoListItem.text item' = ToDoListItem.text item) /\
  (let '(that', v') :=
     VanillaToDoListModel.deleteToDoListItem (Js.Int itemId) that v in
   localStorage v' = Some (VanillaToDoListModel.toDoLists that') /\
   VanillaToDoListModel.getItems that' =
     filter (fun i' => ToDoListItem.id i' <> itemId)
       (VanillaToDoListModel.getItems that) /\
   Forall (fun i' => ToDoListItem.id i' <> itemId)
     (VanillaToDoListModel.getItems that') /\
   length (VanillaToDoListModel.getItems that') <
     length (VanillaToDoListModel.getItems that)).
Proof.
  intros Hl Hid Hitem Hitemid.
  pose proof (callbacks_at_a_record_with_the_id this w id toDoListNameNew i l
                that v itemId toDoListItemTextNew j item Hl Hid Hitem Hitemid)
    as (Hupdate & Htoggle & Hdelete & Hitemupdate).
  assert (Hq : Js.number_strict_eq (Js.Int (ToDoListItem.id item)) (Js.Int itemId)
               = true).
  { apply number_strict_eq_true. by rewrite Hitemid. }
  split; [|split; [|split; [|split; [|split]]]].
  - revert Hupdate. rewrite updateToDoList_run. cbv beta iota zeta.
    intros (k & Hk & Hlook). split; [reflexivity|].
    eexists. split; [exact Hlook|]. split; [reflexivity|].
    split; [|by repeat split].
    eexists. split; [reflexivity|]. exists k. by split.
  - destruct (VanillaToDoListsModel.toggleToDoList (Js.Int id) this w)
      as [this' w'] eqn:Ht.
    cbn [fst] in Htoggle. split.
    + revert Ht. unfold VanillaToDoListsModel.toggleToDoList.
      cbn [bind VanillaToDoListsModel.store VanillaToDoListsModel.updateView
           setItem ret]. by intros [= <- <-].
    + eexists. split; [exact Htoggle|]. split; [reflexivity|].
      split; [|by repeat split].
      intros b Hb. cbn [ToDoList.done ToDoList.with_done]. by rewrite Hb.
  - destruct (VanillaToDoListsModel.deleteToDoList (Js.Int id) this w)
      as [this' w'] eqn:Ht.
    cbn [fst] in Hdelete. split; [|exact Hdelete].
    revert Ht. unfold VanillaToDoListsModel.deleteToDoList.
    cbn [bind VanillaToDoListsModel.store VanillaToDoListsModel.updateView
         setItem ret]. by intros [= <- <-].
  - pose proof (handle_stored
                  (VanillaToDoListController.UpdateToDoListItem (Js.Int itemId)
                     toDoListItemTextNew) that v) as Hst.
    cbn [VanillaToDoListController.handle] in Hst.
    destruct (VanillaToDoListModel.updateToDoListItem _ _ that v)
      as [that' v'].
    destruct Hitemupdate as (k & Hk & Hlook). split; [exact Hst|].
    eexists. split; [exact Hlook|]. split; [reflexivity|].
    split; [|by repeat split].
    eexists. split; [reflexivity|]. exists k. by split.
  - pose proof (handle_stored
                  (VanillaToDoListController.ToggleToDoListItem (Js.Int itemId))
                  that v) as Hst.
    cbn [VanillaToDoListController.handle] in Hst.
    pose proof (toggleToDoListItem_items (Js.Int itemId) that v) as Hitems.
    destruct (VanillaToDoListModel.toggleToDoListItem _ that v) as [that' v'].
    cbn [fst] in Hitems. split; [exact Hst|].
    eexists. split.
    { rewrite Hitems, lookup_map, Hitem. cbn [fmap option_fmap option_map].
      rewrite Hq. reflexivity. }
    split; [reflexivity|]. split; [|by repeat split].
    intros b Hb. cbn [ToDoListItem.done ToDoListItem.with_done]. by rewrite Hb.
  - pose proof (handle_stored
                  (VanillaToDoListController.DeleteToDoListItem (Js.Int itemId))
                  that v) as Hst.
    cbn [VanillaToDoListController.handle] in Hst.
    pose proof (deleteToDoListItem_items (Js.Int itemId) that v) as Hitems.
    destruct (VanillaToDoListModel.deleteToDoListItem _ that v) as [that' v'].
    cbn [fst] in Hitems. split; [exact Hst|].
    rewrite Hitems.
    rewrite (filter_decide _ (fun i' => ToDoListItem.id i' <> itemId)).
    + split; [done|]. split.
      * apply Forall_forall. intros i' Hi'.
        by apply list_elem_of_filter in Hi' as [? _].
      * apply (length_filter_lt _ _ item).
        -- eapply list_elem_of_lookup_2, Hitem.
        -- intros Hne. by apply Hne.
    + intros i'. unfold Js.number_strict_neq. rewrite Bool.negb_true_iff.
      rewrite number_strict_eq_false. split; intros H; congruence.
Qed.

(** ** The summary *)

(** C8. For a list with at least one item, and for a collection with at
    least one list, the count shown is "total (pending/done)" with the
    three numbers taken from the whole sequence, whatever the hash; the
    hash only selects the rows: all of them for no hash or [#all], the
    pending ones for [#pending], the done ones for [#done]. So a list with
    a pending item and a done item, rendered under [#pending], shows the
    pending item's row alone and the count "2 (1/1)". *)
Theorem summary_counts_the_whole_sequence
    {Node : Type} (querySelector : string -> option Node)
    (toDoList : Payload) (toDoLists : list ToDoList.t) (hash : string)
    (p : Payload) (a b : ToDoListItem.t) :
  payload_items toDoList <> [] ->
  toDoLists <> [] ->
  payload_items p = [a; b] ->
  ToDoListItem.done a = Js.boolean false ->
  ToDoListItem.done b = Js.boolean true ->
  (let toDoListItems := payload_items toDoList in
   let view := VanillaToDoListView.render querySelector toDoList in
   VanillaToDoListView.footer (view hash) =
     FooterShown
       (pretty (length toDoListItems) +:+ " (" +:+
        pretty (length (filterPending ToDoListItem.done toDoListItems)) +:+ "/" +:+
        pretty (length (filterDone ToDoListItem.done toDoListItems)) +:+ ")")
       (Nat.ltb 0 (length (filterDone ToDoListItem.done toDoListItems))) /\
   VanillaToDoListView.section (view "") =
     Rows (List.map VanillaToDoListView.renderItem toDoListItems) /\
   VanillaToDoListView.section (view "#all") =
     Rows (List.map VanillaToDoListView.renderItem toDoListItems) /\
   VanillaToDoListView.section (view "#pending") =
     Rows (List.map VanillaToDoListView.renderItem
             (filterPending ToDoListItem.done toDoListItems)) /\
   VanillaToDoListView.section (view "#done") =
     Rows (List.map VanillaToDoListView.renderItem
             (filterDone ToDoListItem.done toDoListItems))) /\
  (let view := VanillaToDoListsView.render querySelector toDoLists in
   VanillaToDoListsView.footer (view hash) =
     FooterShown
       (pretty (length toDoLists) +:+ " (" +:+
        pretty (length (filterPending ToDoList.done toDoLists)) +:+ "/" +:+
        pretty (length (filterDone ToDoList.done toDoLists)) +:+ ")")
       (Nat.ltb 0 (length (filterDone ToDoList.done toDoLists))) /\
   VanillaToDoListsView.section (view "") =
     Rows (List.map VanillaToDoListsView.renderList toDoLists) /\
   VanillaToDoListsView.section (view "#all") =
     Rows (List.map VanillaToDoListsView.renderList toDoLists) /\
   VanillaToDoListsView.section (view "#pending") =
     Rows (List.map VanillaToDoListsView.renderList
             (filterPending ToDoList.done toDoLists)) /\
   VanillaToDoListsView.section (view "#done") =
     Rows (List.map VanillaToDoListsView.renderList
             (filterDone ToDoList.done toDoLists))) /\
  (VanillaToDoListView.section
     (VanillaToDoListView.render querySelector p "#pending") =
     Rows [VanillaToDoListView.renderItem a] /\
   VanillaToDoListView.footer
     (VanillaToDoListView.render querySelector p "#pending") =
     FooterShown "2 (1/1)" true).
Proof.
  intros Hitems Hlists Hp Ha Hb. split; [|split].
  - cbv zeta. unfold VanillaToDoListView.render.
    destruct (payload_items toDoList) as [|x xs]; [done|].
    change (Nat.ltb 0 (length (x :: xs))) with true. cbv iota.
    repeat split.
  - cbv zeta. unfold VanillaToDoListsView.render.
    destruct toDoLists as [|x xs]; [done|].
    change (Nat.ltb 0 (length (x :: xs))) with true. cbv iota.
    repeat split.
  - unfold VanillaToDoListView.render. rewrite Hp.
    unfold filterPending, filterDone. simpl. rewrite Ha, Hb. simpl.
    split; reflexivity.
Qed.

(** ** The theorems at the sample data *)

(** The model of list 1 of the sample collection toggles all its items. *)
Lemma item_mutation_writes_back_witness :
  let this := fst (VanillaToDoListModel.constructor (Js.Int 1) sample_world) in
  let e := VanillaToDoListController.ToggleAllToDoListItems in
  coherent this /\
  localStorage (snd (VanillaToDoListController.handle e this sample_world)) =
    Some (VanillaToDoListModel.toDoLists
            (fst (VanillaToDoListController.handle e this sample_world))).
Proof.
  cbv zeta.
  assert (Hc : coherent
                 (fst (VanillaToDoListModel.constructor (Js.Int 1) sample_world))).
  { unfold coherent. simpl. eexists. split; reflexivity. }
  split; [exact Hc|].
  pose proof (item_mutation_writes_back_to_its_list
                VanillaToDoListController.ToggleAllToDoListItems _ sample_world Hc)
    as T.
  destruct (VanillaToDoListController.handle _ _ sample_world) as [this' w'].
  exact (proj1 (proj2 T)).
Defined.

(** No list of the sample collection has id 99; an item is created and all
    items are toggled, to no effect on what is stored. *)
Lemma unknown_list_id_is_invalid_state_witness :
  let es := [VanillaToDoListController.CreateToDoListItem "Milk";
             VanillaToDoListController.ToggleAllToDoListItems] in
  let this := fst (VanillaToDoListModel.constructor (Js.Int 99) sample_world) in
  Forall (fun l => Js.Int (ToDoList.id l) <> Js.Int 99) (load sample_world) /\
  VanillaToDoListModel.deref this = Bare [] /\
  load (snd (VanillaToDoListController.handleAll es this sample_world)) =
    load sample_world.
Proof.
  cbv zeta.
  assert (H : Forall (fun l => Js.Int (ToDoList.id l) <> Js.Int 99)
                (load sample_world)).
  { repeat constructor; discriminate. }
  split; [exact H|].
  pose proof (unknown_list_id_is_invalid_state sample_querySelector
                (Js.Int 99) sample_world ""
                [VanillaToDoListController.CreateToDoListItem "Milk";
                 VanillaToDoListController.ToggleAllToDoListItems] H) as T.
  destruct (VanillaToDoListModel.constructor (Js.Int 99) sample_world)
    as [this w0].
  destruct T as (Hderef & _ & -> & _ & T).
  split; [exact Hderef|]. cbn [fst].
  destruct (VanillaToDoListController.handleAll _ this sample_world)
    as [this' w'].
  exact (proj1 (proj2 (proj2 T))).
Defined.

(** The model of list 1 of the sample collection clears twice. *)
Lemma clearing_again_restamps_at_most_witness :
  let this := fst (VanillaToDoListsModel.constructor sample_world) in
  let that := fst (VanillaToDoListModel.constructor (Js.Int 1) sample_world) in
  coherent that /\
  (let '(this1, w1) := VanillaToDoListsModel.clearToDoLists this sample_world in
   let '(this2, w2) := VanillaToDoListsModel.clearToDoLists this1 w1 in
   this2 = this1 /\ localStorage w2 = localStorage w1) /\
  (let '(that1, v1) := VanillaToDoListModel.clearToDoList that sample_world in
   let '(that2, v2) := VanillaToDoListModel.clearToDoList that1 v1 in
   VanillaToDoListModel.getItems that2 = VanillaToDoListModel.getItems that1).
Proof.
  cbv zeta.
  assert (Hc : coherent
                 (fst (VanillaToDoListModel.constructor (Js.Int 1) sample_world))).
  { unfold coherent. simpl. eexists. split; reflexivity. }
  split; [exact Hc|].
  pose proof (clearing_again_restamps_at_most
                (fst (VanillaToDoListsModel.constructor sample_world))
                sample_world _ sample_world Hc) as [Tlists Titems].
  split; [exact Tlists|].
  destruct (VanillaToDoListModel.clearToDoList _ sample_world) as [that1 v1].
  destruct (VanillaToDoListModel.clearToDoList that1 v1) as [that2 v2].
  exact (proj1 Titems).
Defined.

(** Two lists share id 5 and two items share id 7: the second of each is
    renamed, toggled and deleted as the first is. *)
Lemma every_record_with_the_id_is_acted_on_witness :
  let this := fst (VanillaToDoListsModel.constructor sample_twins_world) in
  let that :=
    fst (VanillaToDoListModel.constructor (Js.Int 5) sample_twins_world) in
  VanillaToDoListsModel.toDoLists this !! 2 = Some (sample_twin "second" true) /\
  ToDoList.id (sample_twin "second" true) = 5%Z /\
  VanillaToDoListModel.getItems that !! 1 = Some (sample_twin_item "y") /\
  ToDoListItem.id (sample_twin_item "y") = 7%Z /\
  (exists l',
     VanillaToDoListsModel.toDoLists
       (fst (VanillaToDoListsModel.updateToDoList (Js.Int 5) "renamed" this
               sample_twins_world)) !! 2 = Some l' /\
     ToDoList.name l' = "renamed") /\
  (exists l',
     VanillaToDoListsModel.toDoLists
       (fst (VanillaToDoListsModel.toggleToDoList (Js.Int 5) this
               sample_twins_world)) !! 2 = Some l' /\
     ToDoList.done l' = Js.boolean false) /\
  Forall (fun l' => ToDoList.id l' <> 5%Z)
    (VanillaToDoListsModel.toDoLists
       (fst (VanillaToDoListsModel.deleteToDoList (Js.Int 5) this
               sample_twins_world))) /\
  (exists item',
     VanillaToDoListModel.getItems
       (fst (VanillaToDoListModel.updateToDoListItem (Js.Int 7) "z" that
               sample_twins_world)) !! 1 = Some item' /\
     ToDoListItem.text item' = "z") /\
  (exists item',
     VanillaToDoListModel.getItems
       (fst (VanillaToDoListModel.toggleToDoListItem (Js.Int 7) that
               sample_twins_world)) !! 1 = Some item' /\
     ToDoListItem.done item' = Js.boolean true).
Proof.
  cbv zeta.
  pose proof (every_record_with_the_id_is_acted_on
                (fst (VanillaToDoListsModel.constructor sample_twins_world))
                sample_twins_world 5 "renamed" 2 (sample_twin "second" true)
                (fst (VanillaToDoListModel.constructor (Js.Int 5)
                        sample_twins_world))
                sample_twins_world 7 "z" 1 (sample_twin_item "y")
                eq_refl eq_refl eq_refl eq_refl)
    as (Tupdate & Ttoggle & Tdelete & Titem & Titemtoggle & _).
  do 4 (split; [reflexivity|]).
  split.
  { destruct (VanillaToDoListsModel.updateToDoList _ _ _ sample_twins_world)
      as [this' w'].
    destruct Tupdate as (_ & l' & Hl' & Hname & _).
    exists l'. split; [exact Hl'|exact Hname]. }
  split.
  { destruct (VanillaToDoListsModel.toggleToDoList _ _ sample_twins_world)
      as [this' w'].
    destruct Ttoggle as (_ & l' & Hl' & Hdone & _).
    exists l'. split; [exact Hl'|exact Hdone]. }
  split.
  { destruct (VanillaToDoListsModel.deleteToDoList _ _ sample_twins_world)
      as [this' w'].
    exact (proj1 (proj2 (proj2 Tdelete))). }
  split.
  { destruct (VanillaToDoListModel.updateToDoListItem _ _ _ sample_twins_world)
      as [that' v'].
    destruct Titem as (_ & item' & Hitem' & Htext & _).
    exists item'. split; [exact Hitem'|exact Htext]. }
  destruct (VanillaToDoListModel.toggleToDoListItem _ _ sample_twins_world)
    as [that' v'].
  destruct Titemtoggle as (_ & item' & Hitem' & Hdone & _).
  exists item'. split; [exact Hitem'|exact Hdone].
Defined.

(** List 1 of the sample collection under [#pending]. *)
Lemma summary_counts_the_whole_sequence_witness :
  payload_items (Found sample_list1) <> [] /\
  [sample_list1; sample_list2] <> [] /\
  payload_items (Found sample_list1) = [sample_itemA; sample_itemB] /\
  ToDoListItem.done sample_itemA = Js.boolean false /\
  ToDoListItem.done sample_itemB = Js.boolean true /\
  VanillaToDoListView.section
    (VanillaToDoListView.render sample_querySelector
       (Found sample_list1) "#pending") =
    Rows [VanillaToDoListView.renderItem sample_itemA] /\
  VanillaToDoListView.footer
    (VanillaToDoListView.render sample_querySelector
       (Found sample_list1) "#pending") =
    FooterShown "2 (1/1)" true /\
  VanillaToDoListsView.footer
    (VanillaToDoListsView.render sample_querySelector
       [sample_list1; sample_list2] "#done") =
    FooterShown "2 (1/1)" true.
Proof.
  assert (H1 : payload_items (Found sample_list1) <> []) by discriminate.
  assert (H2 : [sample_list1; sample_list2] <> []) by discriminate.
  pose proof (summary_counts_the_whole_sequence sample_querySelector
                (Found sample_list1) [sample_list1; sample_list2] "#done"
                (Found sample_list1) sample_itemA sample_itemB
                H1 H2 eq_refl eq_refl eq_refl) as T.
  split; [exact H1|]. split; [exact H2|].
  do 3 (split; [reflexivity|]).
  split; [exact (proj1 (proj2 (proj2 T)))|].
  split; [exact (proj2 (proj2 (proj2 T)))|].
  exact (proj1 (proj1 (proj2 T))).
Defined.

(** ** The code at the sample data *)

(** Creating an item in list 1 takes two dates: one for the item, one for
    the list's [lastUpdated]; list 2 is stored as it was. *)
Example createToDoListItem_sample :
  let this := fst (VanillaToDoListModel.constructor (Js.Int 1) sample_world) in
  let w' := snd (VanillaToDoListModel.createToDoListItem "Milk" this sample_world) in
  ticks w' = 2 /\
  (List.map (fun l => (ToDoList.lastUpdated l,
                       List.map ToDoListItem.text (ToDoList.items l)))
     (load w')) =
  [(Some "T1", ["A"; "B"; "Milk"]); (None, [])].
Proof. split; reflexivity. Qed.

(** With two lists of id 5, renaming an item of id 7 stamps both items and
    then both lists, each with a date of its own, and gives the second
    list the items of the first. *)
Example updateToDoListItem_twins_sample :
  let this :=
    fst (VanillaToDoListModel.constructor (Js.Int 5) sample_twins_world) in
  let w' :=
    snd (VanillaToDoListModel.updateToDoListItem (Js.Int 7) "z" this
           sample_twins_world) in
  (List.map (fun l => (ToDoList.name l, ToDoList.lastUpdated l,
                       List.map (fun i => (ToDoListItem.text i,
                                           ToDoListItem.lastUpdated i))
                         (ToDoList.items l)))
     (load w')) =
  [("first", Some "T2", [("z", Some "T0"); ("z", Some "T1")]);
   ("Chores", None, []);
   ("second", Some "T3", [("z", Some "T0"); ("z", Some "T1")])].
Proof. reflexivity. Qed.

(** The overview of the sample collection: both rows, the count of the
    lists, and the count of the first list's items. *)
Example render_overview_sample :
  let view :=
    VanillaToDoListsView.render sample_querySelector
      [sample_list1; sample_list2] "" in
  VanillaToDoListsView.footer view = FooterShown "2 (1/1)" true /\
  VanillaToDoListsView.selected view = Some "a#all" /\
  match VanillaToDoListsView.section view with
  | Rows rows =>
      List.map VanillaToDoListsView.count_textContent rows =
      ["(2 items: 1 pending, 1 done)"; "(0 items)"]
  | Paragraph _ => False
  end.
Proof. repeat split; reflexivity. Qed.

(** A hash that finds no element: the rows and the count are written, no
    element is given the class, and [render] ends in a [TypeError]; a hash
    that finds another element than a filter link selects that one. *)
Example render_unknown_hash_sample :
  let view hash :=
    VanillaToDoListsView.render sample_querySelector
      [sample_list1; sample_list2] hash in
  VanillaToDoListsView.footer (view "#nowhere") = FooterShown "2 (1/1)" true /\
  length (rowsOf (VanillaToDoListsView.section (view "#nowhere"))) = 2 /\
  VanillaToDoListsView.selected (view "#nowhere") = None /\
  VanillaToDoListsView.selected (view "#count") = Some "span#count" /\
  VanillaToDoListView.selected
    (VanillaToDoListView.render sample_querySelector (Found sample_list1)
       "#pending") = Some "a#pending" /\
  VanillaToDoListView.selected
    (VanillaToDoListView.render sample_querySelector (Found sample_list1)
       "#1") = None.
Proof. repeat split; reflexivity. Qed.

(** Ids in a template literal: every digit up to [2^53], the shortest
    digits that denote the same double beyond, and an exponent from
    [10^21] on. *)
Example number_to_string_samples :
  List.map Js.number_to_string
    [0; 1700000000000; -7; 2 ^ 53; 2 ^ 53 + 1; 2 ^ 60; 10 ^ 21 - 1; 10 ^ 21;
     2 ^ 70; 10 ^ 23; - 10 ^ 21; 2 ^ 1024]%Z =
  ["0"; "1700000000000"; "-7"; "9007199254740992"; "9007199254740992";
   "1152921504606847000"; "1e+21"; "1e+21"; "1.1805916207174113e+21";
   "1e+23"; "-1e+21"; "Infinity"] /\
  VanillaToDoListsView.link_href
    (VanillaToDoListsView.renderList
       {| ToDoList.id := 10 ^ 21; ToDoList.created := "c";
          ToDoList.lastRenamed := None; ToDoList.lastUpdated := None;
          ToDoList.name := "far"; ToDoList.done := Js.boolean false;
          ToDoList.items := [] |}) = "/to-do-list/1e+21".
Proof. split; vm_compute; reflexivity. Qed.

(** An item without a [done] counts twice: "1 (1/1)". *)
Example render_undefined_done_sample :
  VanillaToDoListView.footer
    (VanillaToDoListView.render sample_querySelector
       (Bare [ToDoListItem.with_done Js.undefined sample_itemA]) "#all") =
  FooterShown "1 (1/1)" true.
Proof. reflexivity. Qed.

(** * Further properties *)

(** ** Reloading the overview *)

Lemma handle_lists_run (e : VanillaToDoListsController.Intent)
    (this : VanillaToDoListsModel.t) (w : World) :
  exists toDoLists' n,
    VanillaToDoListsController.handle e this w =
    ({| VanillaToDoListsModel.toDoLists := toDoLists' |},
     stored_and_shown toDoLists' (advance n w)).
Proof.
  destruct e as [name|id name|id|id| |]; simpl.
  - eexists _, 1. unfold VanillaToDoListsModel.createToDoList.
    unfold bind at 1. rewrite newDate_run. reflexivity.
  - eexists _, _. apply updateToDoList_run.
  - eexists _, 0. rewrite advance_0. reflexivity.
  - eexists _, 0. rewrite advance_0. reflexivity.
  - eexists _, 0. rewrite advance_0. reflexivity.
  - eexists _, 0. rewrite advance_0. reflexivity.
Qed.

(** X1. After any mutation of the overview model, local storage holds the
    model's collection, the change callback was called once more, with that
    collection, and a model constructed from local storage is the model
    that made the change. *)
Theorem overview_reloads_as_left
    (e : VanillaToDoListsController.Intent)
    (this : VanillaToDoListsModel.t) (w : World) :
  let '(this', w') := VanillaToDoListsController.handle e this w in
  localStorage w' = Some (VanillaToDoListsModel.toDoLists this') /\
  toDoListsChanged w' =
    toDoListsChanged w ++ [VanillaToDoListsModel.toDoLists this'] /\
  toDoListChanged w' = toDoListChanged w /\
  VanillaToDoListsModel.constructor w' = (this', w').
Proof.
  destruct (handle_lists_run e this w) as (ls & n & ->).
  repeat split.
Qed.

(** ** Reloading a single list *)

Lemma handle_written (e : VanillaToDoListController.Intent)
    (this : VanillaToDoListModel.t) (w : World) :
  VanillaToDoListController.handle e this w =
  written_back
    (VanillaToDoListModel.setItems (fst (itemsWritten e this w)) this)
    (advance (snd (itemsWritten e this w)) w).
Proof.
  destruct e as [text|id text|id|id| |]; simpl.
  - unfold VanillaToDoListModel.createToDoListItem.
    unfold bind at 1. rewrite newDate_run. reflexivity.
  - unfold VanillaToDoListModel.updateToDoListItem.
    unfold bind at 1.
    rewrite (mapM_stamp
               (fun i => Js.number_strict_eq (Js.Int (ToDoListItem.id i)) id)
               (fun d i => ToDoListItem.with_text d text i)).
    reflexivity.
  - rewrite advance_0. reflexivity.
  - rewrite advance_0. reflexivity.
  - rewrite advance_0. reflexivity.
  - rewrite advance_0. reflexivity.
Qed.

Lemma handle_keeps_reference (e : VanillaToDoListController.Intent)
    (this : VanillaToDoListModel.t) (w : World) (i : nat) :
  coherent this ->
  VanillaToDoListModel.toDoList this = VanillaToDoListModel.Element i ->
  VanillaToDoListModel.toDoList
    (fst (VanillaToDoListController.handle e this w)) =
  VanillaToDoListModel.Element i.
Proof.
  intros Hc Href. rewrite handle_written.
  pose proof (written_back_frame (fst (itemsWritten e this w))
                (snd (itemsWritten e this w)) this w Hc) as H.
  destruct (written_back _ _) as [this' w'].
  destruct H as (_ & _ & _ & Href' & _). cbn [fst]. rewrite Href'.
  unfold VanillaToDoListModel.setItems. by rewrite Href.
Qed.

Lemma list_find_same_index {A} (P : A -> Prop) `{!forall x, Decision (P x)}
    (l k : list A) (i : nat) (x : A) :
  Forall2 (fun x y => P x <-> P y) l k ->
  list_find P l = Some (i, x) ->
  exists y, list_find P k = Some (i, y).
Proof.
  intros H2 Hfind. apply list_find_Some in Hfind as (Hx & HP & Hbefore).
  destruct (Forall2_lookup_l _ _ _ _ _ H2 Hx) as (y & Hy & Hxy).
  exists y. apply list_find_Some. split; [done|]. split; [by apply Hxy|].
  intros j z Hz Hj HPz.
  destruct (Forall2_lookup_r _ _ _ _ _ H2 Hz) as (x' & Hx' & Hx'z).
  apply (Hbefore j x' Hx' Hj). by apply Hx'z.
Qed.

Lemma handle_anchored (e : VanillaToDoListController.Intent)
    (this : VanillaToDoListModel.t) (w : World) :
  anchored this -> coherent this ->
  let '(this', w') := VanillaToDoListController.handle e this w in
  anchored this' /\ coherent this' /\
  VanillaToDoListModel.toDoListId this' = VanillaToDoListModel.toDoListId this /\
  localStorage w' = Some (VanillaToDoListModel.toDoLists this').
Proof.
  intros (i & l & Href & Hfind) Hc.
  pose proof (handle_keeps_reference e this w i Hc Href) as Hi.
  pose proof (handle_frame e this w Hc) as H.
  destruct (VanillaToDoListController.handle e this w) as [this' w'].
  destruct H as (Hc' & Hid & _ & Hst & Hall). simpl in Hi.
  split; [|done].
  assert (Hsame : Forall2
            (fun x y =>
               Is_true (VanillaToDoListModel.addressed
                          (VanillaToDoListModel.toDoListId this) x) <->
               Is_true (VanillaToDoListModel.addressed
                          (VanillaToDoListModel.toDoListId this) y))
            (VanillaToDoListModel.toDoLists this)
            (VanillaToDoListModel.toDoLists this')).
  { eapply Forall2_impl; [exact Hall|]. intros x y Hxy. cbv beta in Hxy.
    destruct (VanillaToDoListModel.addressed _ x) eqn:Hx.
    - destruct Hxy as (_ & _ & Hidxy & _).
      unfold VanillaToDoListModel.addressed in *. by rewrite Hidxy, Hx.
    - subst y. by rewrite Hx. }
  destruct (list_find_same_index _ _ _ _ _ Hsame Hfind) as (y & Hy).
  exists i, y. rewrite Hid. done.
Qed.

Lemma anchored_reloads (this : VanillaToDoListModel.t) (w : World) :
  anchored this ->
  localStorage w = Some (VanillaToDoListModel.toDoLists this) ->
  VanillaToDoListModel.constructor (VanillaToDoListModel.toDoListId this) w =
  (this, w).
Proof.
  intros (i & l & Href & Hfind) Hst.
  unfold VanillaToDoListModel.constructor, bind, getItem, ret.
  rewrite Hst. simpl. rewrite Hfind. destruct this as [id ref ls].
  simpl in *. by rewrite Href.
Qed.

Lemma constructor_anchored (id : Js.number) (w : World) (l : ToDoList.t) :
  l ∈ load w -> Js.Int (ToDoList.id l) = id ->
  let this := fst (VanillaToDoListModel.constructor id w) in
  anchored this /\ coherent this /\
  VanillaToDoListModel.toDoListId this = id /\
  localStorage w = Some (VanillaToDoListModel.toDoLists this).
Proof.
  intros Hl Hid. cbv zeta.
  pose proof (constructor_run id w) as H.
  unfold VanillaToDoListModel.constructor, bind, getItem, ret in *.
  fold (load w) in *. cbn [fst] in *.
  destruct (list_find _ (load w)) as [[i x]|] eqn:Hfind.
  - destruct H as (_ & Hc & _ & _ & _).
    split; [by exists i, x|]. split; [done|]. split; [done|].
    cbn [VanillaToDoListModel.toDoLists].
    unfold load in *. destruct (localStorage w); [done|].
    by apply elem_of_nil in Hl.
  - apply list_find_None in Hfind. rewrite Forall_forall in Hfind.
    destruct (Hfind l Hl). apply Is_true_true.
    by apply number_strict_eq_true.
Qed.

Lemma handleAll_reloads (es : list VanillaToDoListController.Intent)
    (this : VanillaToDoListModel.t) (w : World) :
  anchored this -> coherent this ->
  localStorage w = Some (VanillaToDoListModel.toDoLists this) ->
  let '(this', w') := VanillaToDoListController.handleAll es this w in
  VanillaToDoListModel.constructor (VanillaToDoListModel.toDoListId this) w' =
    (this', w') /\
  exists x, VanillaToDoListModel.deref this' = Found x /\
            Js.Int (ToDoList.id x) = VanillaToDoListModel.toDoListId this.
Proof.
  revert this w. induction es as [|e es IH]; intros this w Ha Hc Hst.
  - simpl. split; [by apply anchored_reloads|].
    destruct Ha as (i & x & Href & Hfind).
    apply list_find_Some in Hfind as (Hx & HP & _).
    exists x. unfold VanillaToDoListModel.deref. rewrite Href, Hx.
    split; [done|]. by apply number_strict_eq_true, Is_true_true.
  - simpl. unfold bind.
    pose proof (handle_anchored e this w Ha Hc) as H.
    destruct (VanillaToDoListController.handle e this w) as [this1 w1].
    destruct H as (Ha1 & Hc1 & Hid1 & Hst1).
    rewrite <- Hid1. by apply IH.
Qed.

(** X2. A model constructed for an id that some stored list has, and then
    asked for any sequence of item mutations, leaves in local storage
    exactly what a new model for the same id loads: constructing again
    gives the model as it is, and its list still has the id. *)
Theorem single_list_reloads_as_left
    (id : Js.number) (w : World) (l : ToDoList.t)
    (es : list VanillaToDoListController.Intent) :
  l ∈ load w ->
  Js.Int (ToDoList.id l) = id ->
  let '(this, w0) := VanillaToDoListModel.constructor id w in
  let '(this', w') := VanillaToDoListController.handleAll es this w0 in
  VanillaToDoListModel.constructor id w' = (this', w') /\
  payload_id (VanillaToDoListModel.deref this') = Some (ToDoList.id l).
Proof.
  intros Hl Hid.
  pose proof (constructor_anchored id w l Hl Hid) as H.
  pose proof (constructor_run id w) as Hw.
  destruct (VanillaToDoListModel.constructor id w) as [this w0].
  destruct Hw as (-> & _). cbn [fst] in H.
  destruct H as (Ha & Hc & Hthis & Hst).
  pose proof (handleAll_reloads es this w Ha Hc Hst) as H.
  destruct (VanillaToDoListController.handleAll es this w) as [this' w'].
  destruct H as (Hre & x & Hx & Hidx). rewrite Hthis in Hre, Hidx.
  split; [done|]. rewrite Hx. simpl. congruence.
Qed.

(** ** Ids *)

Lemma map_fmap {A B} (f : A -> B) (l : list A) : List.map f l = f <$> l.
Proof. induction l as [|x l IH]; [done|]. simpl. by rewrite IH. Qed.

Lemma map_stamp {A B} (f : A -> B) (p : A -> bool) g c t (l : list A) :
  (forall d x, f (g d x) = f x) ->
  List.map f (stamp p g c t l) = List.map f l.
Proof.
  intros Hf. revert t. induction l as [|x l IH]; intros t; [done|].
  simpl. destruct (p x); simpl; by rewrite ?Hf, IH.
Qed.

Lemma map_filter_sublist {A B} (f : A -> B) (p : A -> bool) (l : list A) :
  List.map f (List.filter p l) `sublist_of` List.map f l.
Proof.
  induction l as [|x l IH]; [done|]. simpl.
  destruct (p x); simpl; by constructor.
Qed.

Lemma clock_ahead_later (w w' : World) (ids ids' : list Z) :
  clock w' = clock w -> ticks w <= ticks w' ->
  (forall z, z ∈ ids' ->
     z ∈ ids \/ exists j, ticks w <= j < ticks w' /\ z = getTime (clock w j)) ->
  clock_ahead w ids -> clock_ahead w' ids'.
Proof.
  intros Hclock Hticks Hids [Hmono Hold]. split; rewrite Hclock.
  - intros j k Hjk. apply Hmono. lia.
  - intros z k Hz Hk. destruct (Hids z Hz) as [Hin|(j & Hj & ->)].
    + apply Hold; [done|lia].
    + apply Hmono. lia.
Qed.

(** X3. With a clock whose dates keep getting later, and are later than
    every id already there, the ids of the overview's lists stay pairwise
    different under every mutation, and the clock stays ahead of them: so
    it is only dates of the same millisecond (or a clock set back) that can
    give two lists one id. *)
Theorem list_ids_stay_unique
    (e : VanillaToDoListsController.Intent)
    (this : VanillaToDoListsModel.t) (w : World) :
  NoDup (List.map ToDoList.id (VanillaToDoListsModel.toDoLists this)) ->
  clock_ahead w (List.map ToDoList.id (VanillaToDoListsModel.toDoLists this)) ->
  let '(this', w') := VanillaToDoListsController.handle e this w in
  NoDup (List.map ToDoList.id (VanillaToDoListsModel.toDoLists this')) /\
  clock_ahead w' (List.map ToDoList.id (VanillaToDoListsModel.toDoLists this')).
Proof.
  intros Hnd Hahead. destruct this as [ls]. cbn [VanillaToDoListsModel.toDoLists] in *.
  destruct e as [name|id name|id|id| |]; cbn [VanillaToDoListsController.handle].
  - unfold VanillaToDoListsModel.createToDoList. unfold bind at 1.
    rewrite newDate_run.
    cbn [bind VanillaToDoListsModel.store VanillaToDoListsModel.updateView
         setItem ret VanillaToDoListsModel.toDoLists].
    rewrite List.map_app. cbn [List.map ToDoList.id]. split.
    + apply NoDup_app. split; [done|]. split; [|apply NoDup_singleton].
      intros z Hz Hnew. apply list_elem_of_singleton in Hnew.
      destruct Hahead as [_ Hold].
      pose proof (Hold z (ticks w) Hz (Nat.le_refl _)). lia.
    + eapply clock_ahead_later; [| | |exact Hahead]; cbn; [done|lia|].
      intros z Hz. apply elem_of_app in Hz as [Hz|Hz]; [by left|].
      apply list_elem_of_singleton in Hz. right. exists (ticks w).
      split; [lia|done].
  - rewrite updateToDoList_run. cbv beta iota zeta.
    cbn [VanillaToDoListsModel.toDoLists].
    rewrite map_stamp by done. split; [done|].
    eapply clock_ahead_later; [| | |exact Hahead]; cbn; [done|lia|].
    intros z Hz. by left.
  - unfold VanillaToDoListsModel.deleteToDoList.
    cbn [bind VanillaToDoListsModel.store VanillaToDoListsModel.updateView
         setItem ret VanillaToDoListsModel.toDoLists].
    split; [eapply sublist_NoDup; [exact Hnd|apply map_filter_sublist]|].
    eapply clock_ahead_later; [| | |exact Hahead]; cbn; [done|lia|].
    intros z Hz. left. eapply elem_of_sublist; [exact Hz|apply map_filter_sublist].
  - unfold VanillaToDoListsModel.toggleToDoList.
    cbn [bind VanillaToDoListsModel.store VanillaToDoListsModel.updateView
         setItem ret VanillaToDoListsModel.toDoLists].
    rewrite List.map_map.
    rewrite (List.map_ext _ ToDoList.id)
      by (intros l; by destruct (Js.number_strict_eq _ _)).
    split; [done|].
    eapply clock_ahead_later; [| | |exact Hahead]; cbn; [done|lia|].
    intros z Hz. by left.
  - unfold VanillaToDoListsModel.toggleAllToDoLists.
    cbn [bind VanillaToDoListsModel.store VanillaToDoListsModel.updateView
         setItem ret VanillaToDoListsModel.toDoLists].
    rewrite List.map_map. cbn [ToDoList.with_done ToDoList.id].
    split; [done|].
    eapply clock_ahead_later; [| | |exact Hahead]; cbn; [done|lia|].
    intros z Hz. by left.
  - unfold VanillaToDoListsModel.clearToDoLists.
    cbn [bind VanillaToDoListsModel.store VanillaToDoListsModel.updateView
         setItem ret VanillaToDoListsModel.toDoLists].
    split; [eapply sublist_NoDup; [exact Hnd|apply map_filter_sublist]|].
    eapply clock_ahead_later; [| | |exact Hahead]; cbn; [done|lia|].
    intros z Hz. left. eapply elem_of_sublist; [exact Hz|apply map_filter_sublist].
Qed.

Lemma written_back_clock (this : VanillaToDoListModel.t) (w : World) :
  let '(this', w') := written_back this w in
  clock w' = clock w /\ ticks w <= ticks w'.
Proof.
  unfold written_back. rewrite store_run. cbv beta iota zeta.
  cbn. split; [done|lia].
Qed.

Lemma handle_items_and_clock (e : VanillaToDoListController.Intent)
    (this : VanillaToDoListModel.t) (w : World) :
  coherent this ->
  let '(this', w') := VanillaToDoListController.handle e this w in
  coherent this' /\
  VanillaToDoListModel.getItems this' = fst (itemsWritten e this w) /\
  clock w' = clock w /\
  ticks w + snd (itemsWritten e this w) <= ticks w'.
Proof.
  intros Hc. rewrite handle_written.
  pose proof (written_back_frame (fst (itemsWritten e this w))
                (snd (itemsWritten e this w)) this w Hc) as H.
  pose proof (written_back_clock
                (VanillaToDoListModel.setItems (fst (itemsWritten e this w)) this)
                (advance (snd (itemsWritten e this w)) w)) as Hclock.
  destruct (written_back _ _) as [this' w'].
  destruct H as (Hc' & _ & Hitems & _). destruct Hclock as [Hcl Hticks].
  cbn in Hcl, Hticks. done.
Qed.

(** X4. The same for the items of a list: with a clock that keeps getting
    later and is later than every item id there, the ids of the list's
    items stay pairwise different under every item mutation. *)
Theorem item_ids_stay_unique
    (e : VanillaToDoListController.Intent)
    (this : VanillaToDoListModel.t) (w : World) :
  coherent this ->
  NoDup (List.map ToDoListItem.id (VanillaToDoListModel.getItems this)) ->
  clock_ahead w (List.map ToDoListItem.id (VanillaToDoListModel.getItems this)) ->
  let '(this', w') := VanillaToDoListController.handle e this w in
  coherent this' /\
  NoDup (List.map ToDoListItem.id (VanillaToDoListModel.getItems this')) /\
  clock_ahead w' (List.map ToDoListItem.id (VanillaToDoListModel.getItems this')).
Proof.
  intros Hc Hnd Hahead.
  pose proof (handle_items_and_clock e this w Hc) as H.
  destruct (VanillaToDoListController.handle e this w) as [this' w'].
  destruct H as (Hc' & -> & Hclock & Hticks). split; [done|].
  set (its := VanillaToDoListModel.getItems this) in *.
  destruct e as [text|id text|id|id| |]; cbn [itemsWritten fst snd] in *;
    fold its in Hticks |- *.
  - rewrite List.map_app. cbn [List.map ToDoListItem.id]. split.
    + apply NoDup_app. split; [done|]. split; [|apply NoDup_singleton].
      intros z Hz Hnew. apply list_elem_of_singleton in Hnew.
      destruct Hahead as [_ Hold].
      pose proof (Hold z (ticks w) Hz (Nat.le_refl _)). lia.
    + eapply clock_ahead_later; [| | |exact Hahead]; [done|lia|].
      intros z Hz. apply elem_of_app in Hz as [Hz|Hz]; [by left|].
      apply list_elem_of_singleton in Hz. right. exists (ticks w).
      split; [lia|done].
  - rewrite map_stamp by done. split; [done|].
    eapply clock_ahead_later; [| | |exact Hahead]; [done|lia|].
    intros z Hz. by left.
  - split; [eapply sublist_NoDup; [exact Hnd|apply map_filter_sublist]|].
    eapply clock_ahead_later; [| | |exact Hahead]; [done|lia|].
    intros z Hz. left. eapply elem_of_sublist; [exact Hz|apply map_filter_sublist].
  - rewrite List.map_map.
    rewrite (List.map_ext _ ToDoListItem.id)
      by (intros l; by destruct (Js.number_strict_eq _ _)).
    split; [done|].
    eapply clock_ahead_later; [| | |exact Hahead]; [done|lia|].
    intros z Hz. by left.
  - rewrite List.map_map. cbn [ToDoListItem.with_done ToDoListItem.id].
    split; [done|].
    eapply clock_ahead_later; [| | |exact Hahead]; [done|lia|].
    intros z Hz. by left.
  - split; [eapply sublist_NoDup; [exact Hnd|apply map_filter_sublist]|].
    eapply clock_ahead_later; [| | |exact Hahead]; [done|lia|].
    intros z Hz. left. eapply elem_of_sublist; [exact Hz|apply map_filter_sublist].
Qed.

Lemma deleteToDoList_lists (z : Z) (this : VanillaToDoListsModel.t) (w : World) :
  VanillaToDoListsModel.toDoLists
    (fst (VanillaToDoListsModel.deleteToDoList (Js.Int z) this w)) =
  filter (fun l => ToDoList.id l <> z) (VanillaToDoListsModel.toDoLists this).
Proof.
  unfold VanillaToDoListsModel.deleteToDoList.
  cbn [fst bind VanillaToDoListsModel.store VanillaToDoListsModel.updateView
       setItem ret VanillaToDoListsModel.toDoLists].
  apply filter_decide. intros l. unfold Js.number_strict_neq.
  rewrite Bool.negb_true_iff, number_strict_eq_false.
  split; intros H; congruence.
Qed.

Lemma filter_all_stdpp {A} (P : A -> Prop) `{!forall x, Decision (P x)}
    (l : list A) :
  Forall P l -> filter P l = l.
Proof.
  induction 1 as [|x l Hx _ IH]; [done|].
  rewrite filter_cons. destruct (decide (P x)); [by rewrite IH|done].
Qed.

(** X5. Creating a list and then deleting the id it was given brings the
    collection back to what it was, in the model and in local storage,
    provided no list already had that id. *)
Theorem create_then_delete_restores
    (this : VanillaToDoListsModel.t) (w : World) (toDoListName : string) :
  Forall (fun l => ToDoList.id l <> getTime (clock w (ticks w)))
    (VanillaToDoListsModel.toDoLists this) ->
  let '(this1, w1) := VanillaToDoListsModel.createToDoList toDoListName this w in
  let '(this2, w2) :=
    VanillaToDoListsModel.deleteToDoList
      (Js.Int (getTime (clock w (ticks w)))) this1 w1 in
  this2 = this /\
  localStorage w2 = Some (VanillaToDoListsModel.toDoLists this).
Proof.
  intros Hfresh.
  destruct (VanillaToDoListsModel.createToDoList toDoListName this w)
    as [this1 w1] eqn:H1.
  pose proof (deleteToDoList_lists (getTime (clock w (ticks w))) this1 w1) as Hd.
  destruct (VanillaToDoListsModel.deleteToDoList _ this1 w1) as [this2 w2] eqn:H2.
  cbn [fst] in Hd.
  assert (Hst : localStorage w2 = Some (VanillaToDoListsModel.toDoLists this2)).
  { revert H2. unfold VanillaToDoListsModel.deleteToDoList.
    cbn [bind VanillaToDoListsModel.store VanillaToDoListsModel.updateView
         setItem ret]. by intros [= <- <-]. }
  assert (H1' : VanillaToDoListsModel.toDoLists this1 =
                VanillaToDoListsModel.toDoLists this ++
                [{| ToDoList.id := getTime (clock w (ticks w));
                    ToDoList.created := toJSON (clock w (ticks w));
                    ToDoList.lastRenamed := None; ToDoList.lastUpdated := None;
                    ToDoList.name := toDoListName;
                    ToDoList.done := Js.boolean false;
                    ToDoList.items := [] |}]).
  { revert H1. unfold VanillaToDoListsModel.createToDoList, bind. simpl.
    by intros [= <- _]. }
  rewrite H1', filter_app, filter_all_stdpp in Hd by done.
  rewrite filter_cons in Hd. cbn [ToDoList.id] in Hd.
  destruct (decide _) as [Hne|_] in Hd; [done|].
  rewrite filter_nil, app_nil_r in Hd.
  rewrite Hst, Hd. split; [|done].
  destruct this2, this. simpl in *. by rewrite Hd.
Qed.

(** X6. Two lists created from dates of the same millisecond get the same
    id, and from then on are one to every id-addressed mutation: deleting
    that id removes both, and whatever else carried it. *)
Theorem same_millisecond_lists_share_their_fate
    (this : VanillaToDoListsModel.t) (w : World) (a b : string) :
  getTime (clock w (S (ticks w))) = getTime (clock w (ticks w)) ->
  let '(this1, w1) := VanillaToDoListsModel.createToDoList a this w in
  let '(this2, w2) := VanillaToDoListsModel.createToDoList b this1 w1 in
  let id := getTime (clock w (ticks w)) in
  (exists la lb,
     VanillaToDoListsModel.toDoLists this2 =
       VanillaToDoListsModel.toDoLists this ++ [la; lb] /\
     ToDoList.name la = a /\ ToDoList.name lb = b /\
     ToDoList.id la = id /\ ToDoList.id lb = id) /\
  VanillaToDoListsModel.toDoLists
    (fst (VanillaToDoListsModel.deleteToDoList (Js.Int id) this2 w2)) =
  filter (fun l => ToDoList.id l <> id) (VanillaToDoListsModel.toDoLists this).
Proof.
  intros Hsame.
  destruct (VanillaToDoListsModel.createToDoList a this w) as [this1 w1] eqn:H1.
  destruct (VanillaToDoListsModel.createToDoList b this1 w1) as [this2 w2] eqn:H2.
  cbv zeta. rewrite deleteToDoList_lists.
  revert H1. unfold VanillaToDoListsModel.createToDoList, bind. simpl.
  intros [= <- <-].
  revert H2. unfold VanillaToDoListsModel.createToDoList, bind. simpl.
  intros [= <-]. simpl. rewrite Hsame.
  split.
  - eexists _, _. rewrite <- app_assoc. simpl. by repeat split.
  - rewrite !filter_app, !filter_cons. simpl.
    destruct (decide _) as [Hne|_]; [done|].
    by rewrite filter_nil, !app_nil_r.
Qed.

(** ** What the overview's mutations leave alone *)

Section Untouched.

Context {A : Type}.

Lemma Forall2_stamp (R : A -> A -> Prop) (p : A -> bool) g c t (l : list A) :
  (forall x, R x x) -> (forall d x, R x (g d x)) ->
  Forall2 R l (stamp p g c t l).
Proof.
  intros Hrefl Hg. revert t. induction l as [|x l IH]; intros t; [constructor|].
  simpl. destruct (p x); constructor; auto.
Qed.

Lemma Forall2_map_r (R : A -> A -> Prop) (f : A -> A) (l : list A) :
  (forall x, R x (f x)) -> Forall2 R l (List.map f l).
Proof. intros Hf. induction l; constructor; auto. Qed.

Lemma filter_stamp (P : A -> Prop) `{!forall x, Decision (P x)}
    (p : A -> bool) g c t (l : list A) :
  (forall d x, p x = true -> ~ P x /\ ~ P (g d x)) ->
  filter P (stamp p g c t l) = filter P l.
Proof.
  intros Hp. revert t. induction l as [|x l IH]; intros t; [done|].
  simpl. destruct (p x) eqn:Hx.
  - destruct (Hp (c t) x Hx) as [H1 H2].
    rewrite !filter_cons. destruct (decide _); [done|].
    destruct (decide _); [done|]. apply IH.
  - rewrite !filter_cons. by rewrite IH.
Qed.

Lemma filter_map_if (P : A -> Prop) `{!forall x, Decision (P x)}
    (p : A -> bool) (f : A -> A) (l : list A) :
  (forall x, p x = true -> ~ P x /\ ~ P (f x)) ->
  filter P (List.map (fun x => if p x then f x else x) l) = filter P l.
Proof.
  intros Hp. induction l as [|x l IH]; [done|].
  simpl. destruct (p x) eqn:Hx.
  - destruct (Hp x Hx) as [H1 H2].
    rewrite !filter_cons. destruct (decide _); [done|].
    destruct (decide _); [done|]. apply IH.
  - rewrite !filter_cons. by rewrite IH.
Qed.

End Untouched.

(** X7. Renaming, deleting or toggling by id leaves the lists that have
    another id as they were and in their order. *)
Theorem lists_with_another_id_are_untouched
    (z : Z) (toDoListNameNew : string)
    (this : VanillaToDoListsModel.t) (w : World) :
  let others (toDoLists : list ToDoList.t) :=
    filter (fun l => ToDoList.id l <> z) toDoLists in
  others (VanillaToDoListsModel.toDoLists
            (fst (VanillaToDoListsModel.updateToDoList (Js.Int z)
                    toDoListNameNew this w))) =
    others (VanillaToDoListsModel.toDoLists this) /\
  others (VanillaToDoListsModel.toDoLists
            (fst (VanillaToDoListsModel.deleteToDoList (Js.Int z) this w))) =
    others (VanillaToDoListsModel.toDoLists this) /\
  others (VanillaToDoListsModel.toDoLists
            (fst (VanillaToDoListsModel.toggleToDoList (Js.Int z) this w))) =
    others (VanillaToDoListsModel.toDoLists this).
Proof.
  cbv zeta.
  assert (Hp : forall l, Js.number_strict_eq (Js.Int (ToDoList.id l)) (Js.Int z)
                         = true -> ToDoList.id l = z).
  { intros l Hl. apply number_strict_eq_true in Hl. congruence. }
  split; [|split].
  - rewrite updateToDoList_run. cbv beta iota zeta.
    cbn [fst VanillaToDoListsModel.toDoLists].
    apply filter_stamp. intros d l Hl. apply Hp in Hl. simpl. tauto.
  - rewrite deleteToDoList_lists.
    apply filter_all_stdpp, Forall_forall. intros l Hl.
    by apply list_elem_of_filter in Hl as [? _].
  - unfold VanillaToDoListsModel.toggleToDoList.
    cbn [fst bind VanillaToDoListsModel.store VanillaToDoListsModel.updateView
         setItem ret VanillaToDoListsModel.toDoLists].
    apply (filter_map_if (fun l => ToDoList.id l <> z)
             (fun l => Js.number_strict_eq (Js.Int (ToDoList.id l)) (Js.Int z))).
    intros l Hl. apply Hp in Hl. simpl. tauto.
Qed.

(** X8. Renaming changes a list's [name] and [lastRenamed] and nothing
    else; toggling one list or all lists changes [done] and nothing else:
    in particular neither touches a list's items, its [lastUpdated] or its
    place. *)
Theorem overview_mutations_change_only_their_fields
    (id : Js.number) (toDoListNameNew : string)
    (this : VanillaToDoListsModel.t) (w : World) :
  Forall2
    (fun l l' =>
       ToDoList.id l' = ToDoList.id l /\
       ToDoList.created l' = ToDoList.created l /\
       ToDoList.lastUpdated l' = ToDoList.lastUpdated l /\
       ToDoList.done l' = ToDoList.done l /\
       ToDoList.items l' = ToDoList.items l)
    (VanillaToDoListsModel.toDoLists this)
    (VanillaToDoListsModel.toDoLists
       (fst (VanillaToDoListsModel.updateToDoList id toDoListNameNew this w))) /\
  let only_done l l' :=
    ToDoList.id l' = ToDoList.id l /\
    ToDoList.created l' = ToDoList.created l /\
    ToDoList.lastRenamed l' = ToDoList.lastRenamed l /\
    ToDoList.lastUpdated l' = ToDoList.lastUpdated l /\
    ToDoList.name l' = ToDoList.name l /\
    ToDoList.items l' = ToDoList.items l in
  Forall2 only_done
    (VanillaToDoListsModel.toDoLists this)
    (VanillaToDoListsModel.toDoLists
       (fst (VanillaToDoListsModel.toggleToDoList id this w))) /\
  Forall2 only_done
    (VanillaToDoListsModel.toDoLists this)
    (VanillaToDoListsModel.toDoLists
       (fst (VanillaToDoListsModel.toggleAllToDoLists this w))).
Proof.
  split; [|split].
  - rewrite updateToDoList_run. cbv beta iota zeta.
    cbn [fst VanillaToDoListsModel.toDoLists].
    apply Forall2_stamp; intros; by repeat split.
  - unfold VanillaToDoListsModel.toggleToDoList.
    cbn [fst bind VanillaToDoListsModel.store VanillaToDoListsModel.updateView
         setItem ret VanillaToDoListsModel.toDoLists].
    apply Forall2_map_r. intros l.
    destruct (Js.number_strict_eq _ _); by repeat split.
  - unfold VanillaToDoListsModel.toggleAllToDoLists.
    cbn [fst bind VanillaToDoListsModel.store VanillaToDoListsModel.updateView
         setItem ret VanillaToDoListsModel.toDoLists].
    apply Forall2_map_r. intros l. by repeat split.
Qed.

(** ** Boolean flags *)

Section Closure.

Context {A : Type} (P : A -> Prop).

Lemma Forall_stamp (p : A -> bool) g c t (l : list A) :
  (forall d x, P x -> P (g d x)) -> Forall P l -> Forall P (stamp p g c t l).
Proof.
  intros Hg H. revert t. induction H as [|x l Hx _ IH]; intros t; [constructor|].
  simpl. destruct (p x); constructor; auto.
Qed.

Lemma Forall_List_filter (p : A -> bool) (l : list A) :
  Forall P l -> Forall P (List.filter p l).
Proof.
  induction 1 as [|x l Hx _ IH]; [constructor|].
  simpl. destruct (p x); [constructor|]; auto.
Qed.

Lemma Forall_List_map (f : A -> A) (l : list A) :
  (forall x, P (f x)) -> Forall P (List.map f l).
Proof. intros Hf. induction l; constructor; auto. Qed.

Lemma Forall_List_map_if (p : A -> bool) (f : A -> A) (l : list A) :
  (forall x, P (f x)) -> Forall P l ->
  Forall P (List.map (fun x => if p x then f x else x) l).
Proof.
  intros Hf. induction 1 as [|x l Hx _ IH]; [constructor|].
  simpl. constructor; [|done]. by destruct (p x).
Qed.

End Closure.

(** X9. The overview model never writes a [done] that is not a boolean: if
    every list's [done] is true or false, it is so after every mutation,
    and then the pending and the done count add up to the number of lists. *)
Theorem list_flags_stay_boolean
    (e : VanillaToDoListsController.Intent)
    (this : VanillaToDoListsModel.t) (w : World) :
  Forall (fun l => Js.is_boolean (ToDoList.done l) = true)
    (VanillaToDoListsModel.toDoLists this) ->
  let toDoLists' :=
    VanillaToDoListsModel.toDoLists
      (fst (VanillaToDoListsController.handle e this w)) in
  Forall (fun l => Js.is_boolean (ToDoList.done l) = true) toDoLists' /\
  length toDoLists' =
    length (filterPending ToDoList.done toDoLists') +
    length (filterDone ToDoList.done toDoLists').
Proof.
  intros Hb. cbv zeta.
  match goal with |- ?G /\ _ => assert (H : G) end; [|split; [exact H|]].
  2: { by apply partition_exact. }
  destruct e as [name|id name|id|id| |]; cbn [VanillaToDoListsController.handle].
  - unfold VanillaToDoListsModel.createToDoList, bind. simpl.
    apply Forall_app. split; [done|]. by repeat constructor.
  - rewrite updateToDoList_run. cbv beta iota zeta.
    cbn [fst VanillaToDoListsModel.toDoLists].
    by apply Forall_stamp.
  - unfold VanillaToDoListsModel.deleteToDoList, bind. simpl.
    by apply Forall_List_filter.
  - unfold VanillaToDoListsModel.toggleToDoList, bind.
    cbn [fst VanillaToDoListsModel.store VanillaToDoListsModel.updateView
         setItem ret VanillaToDoListsModel.toDoLists].
    by apply Forall_List_map_if.
  - unfold VanillaToDoListsModel.toggleAllToDoLists, bind.
    cbn [fst VanillaToDoListsModel.store VanillaToDoListsModel.updateView
         setItem ret VanillaToDoListsModel.toDoLists].
    by apply Forall_List_map.
  - unfold VanillaToDoListsModel.clearToDoLists, bind. simpl.
    by apply Forall_List_filter.
Qed.

(** X10. Nor does the single-list model: if every item's [done] is true or
    false, it is so after every item mutation, and the two counts add up
    to the number of items. *)
Theorem item_flags_stay_boolean
    (e : VanillaToDoListController.Intent)
    (this : VanillaToDoListModel.t) (w : World) :
  coherent this ->
  Forall (fun i => Js.is_boolean (ToDoListItem.done i) = true)
    (VanillaToDoListModel.getItems this) ->
  let toDoListItems' :=
    VanillaToDoListModel.getItems
      (fst (VanillaToDoListController.handle e this w)) in
  Forall (fun i => Js.is_boolean (ToDoListItem.done i) = true) toDoListItems' /\
  length toDoListItems' =
    length (filterPending ToDoListItem.done toDoListItems') +
    length (filterDone ToDoListItem.done toDoListItems').
Proof.
  intros Hc Hb. cbv zeta.
  match goal with |- ?G /\ _ => assert (H : G) end; [|split; [exact H|]].
  2: { by apply partition_exact. }
  pose proof (handle_items_and_clock e this w Hc) as H.
  destruct (VanillaToDoListController.handle e this w) as [this' w'].
  destruct H as (_ & Hitems & _). cbn [fst]. rewrite Hitems.
  destruct e as [text|id text|id|id| |]; cbn [itemsWritten fst].
  - apply Forall_app. split; [done|]. by repeat constructor.
  - by apply Forall_stamp.
  - by apply Forall_List_filter.
  - by apply Forall_List_map_if.
  - by apply Forall_List_map.
  - by apply Forall_List_filter.
Qed.

(** X11. One [toggleAllToDoLists] makes every list's [done] a boolean,
    whatever it was, so that afterwards no list is counted twice; one
    [toggleAllToDoListItems] does so for the items. *)
Theorem toggleAll_makes_flags_boolean
    (this : VanillaToDoListsModel.t) (w : World)
    (that : VanillaToDoListModel.t) (v : World) :
  (let toDoLists' :=
     VanillaToDoListsModel.toDoLists
       (fst (VanillaToDoListsModel.toggleAllToDoLists this w)) in
   Forall (fun l => Js.is_boolean (ToDoList.done l) = true) toDoLists' /\
   length toDoLists' = length (VanillaToDoListsModel.toDoLists this) /\
   length toDoLists' =
     length (filterPending ToDoList.done toDoLists') +
     length (filterDone ToDoList.done toDoLists')) /\
  (let toDoListItems' :=
     VanillaToDoListModel.getItems
       (fst (VanillaToDoListModel.toggleAllToDoListItems that v)) in
   Forall (fun i => Js.is_boolean (ToDoListItem.done i) = true) toDoListItems' /\
   length toDoListItems' = length (VanillaToDoListModel.getItems that) /\
   length toDoListItems' =
     length (filterPending ToDoListItem.done toDoListItems') +
     length (filterDone ToDoListItem.done toDoListItems')).
Proof.
  split; cbv zeta.
  - assert (H : Forall (fun l => Js.is_boolean (ToDoList.done l) = true)
                  (VanillaToDoListsModel.toDoLists
                     (fst (VanillaToDoListsModel.toggleAllToDoLists this w)))).
    { unfold VanillaToDoListsModel.toggleAllToDoLists, bind.
      cbn [fst VanillaToDoListsModel.store VanillaToDoListsModel.updateView
           setItem ret VanillaToDoListsModel.toDoLists].
      by apply Forall_List_map. }
    split; [exact H|]. split; [|by apply partition_exact].
    unfold VanillaToDoListsModel.toggleAllToDoLists, bind.
    cbn [fst VanillaToDoListsModel.store VanillaToDoListsModel.updateView
         setItem ret VanillaToDoListsModel.toDoLists].
    apply List.length_map.
  - rewrite toggleAllToDoListItems_items.
    assert (H : Forall (fun i => Js.is_boolean (ToDoListItem.done i) = true)
                  (List.map
                     (fun i => ToDoListItem.with_done
                                 (Js.not (ToDoListItem.done i)) i)
                     (VanillaToDoListModel.getItems that))).
    { by apply Forall_List_map. }
    split; [exact H|]. split; [apply List.length_map|by apply partition_exact].
Qed.

(** ** Rendering after clearing *)

Lemma cleared_partition {A} (done : A -> Js.value) (S : list A) :
  let kept := List.filter (fun r => Js.strict_eq (done r) (Js.boolean false)) S in
  filterPending done kept = kept /\ filterDone done kept = [].
Proof.
  cbv zeta. unfold filterPending, filterDone.
  induction S as [|r S [IH1 IH2]]; [done|]. cbn [List.filter].
  destruct (Js.strict_eq (done r) (Js.boolean false)) eqn:Hr; [|done].
  apply strict_eq_true in Hr. cbn [List.filter]. rewrite Hr.
  change (Js.strict_neq (Js.boolean false) (Js.boolean true)) with true.
  change (Js.strict_neq (Js.boolean false) (Js.boolean false)) with false.
  cbv iota. by rewrite IH1, IH2.
Qed.

(** X12. After [clearToDoLists] there is nothing left to clear: the
    overview rendered from the model shows either no footer (no list is
    left) or the count "n (n/0)" with the clear button hidden, and under
    [#done] no row at all; and so does a list's page after
    [clearToDoList]. *)
Theorem nothing_to_clear_after_clearing
    {Node : Type} (querySelector : string -> option Node)
    (this : VanillaToDoListsModel.t) (w : World)
    (that : VanillaToDoListModel.t) (v : World) (hash : string) :
  (let toDoLists' :=
     VanillaToDoListsModel.toDoLists
       (fst (VanillaToDoListsModel.clearToDoLists this w)) in
   VanillaToDoListsView.footer
     (VanillaToDoListsView.render querySelector toDoLists' hash) =
     match toDoLists' with
     | [] => FooterHidden
     | _ :: _ =>
         FooterShown
           (pretty (length toDoLists') +:+ " (" +:+
            pretty (length toDoLists') +:+ "/0)") false
     end /\
   VanillaToDoListsView.section
     (VanillaToDoListsView.render querySelector toDoLists' "#done") =
     match toDoLists' with
     | [] => Paragraph "There are no to-do lists to show!"
     | _ :: _ => Rows []
     end) /\
  (let toDoList' :=
     VanillaToDoListModel.deref
       (fst (VanillaToDoListModel.clearToDoList that v)) in
   VanillaToDoListView.footer
     (VanillaToDoListView.render querySelector toDoList' hash) =
     match payload_items toDoList' with
     | [] => FooterHidden
     | _ :: _ =>
         FooterShown
           (pretty (length (payload_items toDoList')) +:+ " (" +:+
            pretty (length (payload_items toDoList')) +:+ "/0)") false
     end).
Proof.
  split; cbv zeta.
  - unfold VanillaToDoListsModel.clearToDoLists, bind.
    cbn [fst VanillaToDoListsModel.store VanillaToDoListsModel.updateView
         setItem ret VanillaToDoListsModel.toDoLists].
    destruct (cleared_partition ToDoList.done
                (VanillaToDoListsModel.toDoLists this)) as [Hp Hd].
    cbv zeta in Hp, Hd. unfold VanillaToDoListsView.render.
    rewrite Hp, Hd.
    destruct (List.filter _ (VanillaToDoListsModel.toDoLists this)); done.
  - pose proof (clearToDoList_items that v) as Hitems.
    unfold VanillaToDoListModel.getItems in Hitems at 1.
    destruct (cleared_partition ToDoListItem.done
                (VanillaToDoListModel.getItems that)) as [Hp Hd].
    cbv zeta in Hp, Hd. unfold VanillaToDoListView.render.
    rewrite Hitems, Hp, Hd.
    destruct (List.filter _ (VanillaToDoListModel.getItems that)); done.
Qed.

(** ** The rows under each filter *)

Section Filters.

Context {A : Type} (done : A -> Js.value).

Lemma filterPending_boolean (S : list A) :
  Forall (fun r => Js.is_boolean (done r) = true) S ->
  Forall (fun r => done r = Js.boolean false) (filterPending done S).
Proof.
  unfold filterPending. induction 1 as [|r S Hr _ IH]; [constructor|].
  simpl. destruct (done r) as [| |[|]| |] eqn:Hd; try done.
  simpl. constructor; [done|exact IH].
Qed.

Lemma filterDone_boolean (S : list A) :
  Forall (fun r => Js.is_boolean (done r) = true) S ->
  Forall (fun r => done r = Js.boolean true) (filterDone done S).
Proof.
  unfold filterDone. induction 1 as [|r S Hr _ IH]; [constructor|].
  simpl. destruct (done r) as [| |[|]| |] eqn:Hd; try done.
  simpl. constructor; [done|exact IH].
Qed.

Lemma partition_permutation (S : list A) :
  Forall (fun r => Js.is_boolean (done r) = true) S ->
  filterPending done S ++ filterDone done S ≡ₚ S.
Proof.
  unfold filterPending, filterDone. induction 1 as [|r S Hr _ IH]; [done|].
  simpl. destruct (done r) as [| |[|]| |]; try done; simpl.
  - rewrite <- Permutation_middle. by constructor.
  - by constructor.
Qed.

End Filters.

Lemma Forall_map_rows {A B} (P : A -> Prop) (Q : B -> Prop) (f : A -> B)
    (l : list A) :
  (forall x, P x -> Q (f x)) -> Forall P l -> Forall Q (List.map f l).
Proof. intros Hf. induction 1; constructor; auto. Qed.

(** X13. On a list's page every row shown under [#done] is styled done.
    Where every item's [done] is true or false, every row under
    [#pending] is styled pending with its checkbox unchecked, every row
    under [#done] has its checkbox checked, and the rows under [#pending]
    and under [#done] together are the rows shown without a filter, each
    once. *)
Theorem item_rows_under_each_filter
    {Node : Type} (querySelector : string -> option Node)
    (toDoList : Payload) :
  Forall (fun i => Js.is_boolean (ToDoListItem.done i) = true)
    (payload_items toDoList) ->
  let rows hash :=
    rowsOf (VanillaToDoListView.section
              (VanillaToDoListView.render querySelector toDoList hash)) in
  Forall (fun r => VanillaToDoListView.row_class r = "done" /\
                   VanillaToDoListView.select_checked r = true)
    (rows "#done") /\
  Forall (fun r => VanillaToDoListView.row_class r = "pending" /\
                   VanillaToDoListView.select_checked r = false)
    (rows "#pending") /\
  rows "#pending" ++ rows "#done" ≡ₚ rows "" /\
  rows "#all" = rows "".
Proof.
  intros Hb. cbv zeta. unfold VanillaToDoListView.render.
  destruct (payload_items toDoList) as [|x xs] eqn:Hitems.
  { simpl. repeat split; constructor. }
  rewrite <- Hitems in *.
  replace (Nat.ltb 0 (length (payload_items toDoList))) with true
    by (by rewrite Hitems).
  cbn [VanillaToDoListView.section rowsOf windowLocationHash String.eqb
       Ascii.eqb Bool.eqb].
  split; [|split; [|split]].
  - eapply Forall_map_rows; [|apply (filterDone_boolean _ _ Hb)].
    intros i Hi. unfold VanillaToDoListView.renderItem. simpl.
    by rewrite Hi.
  - eapply Forall_map_rows; [|apply (filterPending_boolean _ _ Hb)].
    intros i Hi. unfold VanillaToDoListView.renderItem. simpl.
    by rewrite Hi.
  - rewrite <- List.map_app, !map_fmap.
    apply fmap_Permutation, partition_permutation, Hb.
  - done.
Qed.

(** X14. The same on the overview, for the lists. *)
Theorem list_rows_under_each_filter
    {Node : Type} (querySelector : string -> option Node)
    (toDoLists : list ToDoList.t) :
  Forall (fun l => Js.is_boolean (ToDoList.done l) = true) toDoLists ->
  let rows hash :=
    rowsOf (VanillaToDoListsView.section
              (VanillaToDoListsView.render querySelector toDoLists hash)) in
  Forall (fun r => VanillaToDoListsView.row_class r = "done" /\
                   VanillaToDoListsView.select_checked r = true)
    (rows "#done") /\
  Forall (fun r => VanillaToDoListsView.row_class r = "pending" /\
                   VanillaToDoListsView.select_checked r = false)
    (rows "#pending") /\
  rows "#pending" ++ rows "#done" ≡ₚ rows "" /\
  rows "#all" = rows "".
Proof.
  intros Hb. cbv zeta. unfold VanillaToDoListsView.render.
  destruct toDoLists as [|x xs] eqn:Hlists.
  { simpl. repeat split; constructor. }
  rewrite <- Hlists in *.
  replace (Nat.ltb 0 (length toDoLists)) with true by (by rewrite Hlists).
  cbn [VanillaToDoListsView.section rowsOf windowLocationHash String.eqb
       Ascii.eqb Bool.eqb].
  split; [|split; [|split]].
  - eapply Forall_map_rows; [|apply (filterDone_boolean _ _ Hb)].
    intros l Hl. unfold VanillaToDoListsView.renderList. simpl.
    by rewrite Hl.
  - eapply Forall_map_rows; [|apply (filterPending_boolean _ _ Hb)].
    intros l Hl. unfold VanillaToDoListsView.renderList. simpl.
    by rewrite Hl.
  - rewrite <- List.map_app, !map_fmap.
    apply fmap_Permutation, partition_permutation, Hb.
  - done.
Qed.

(** ** The preview *)

(** X15. The preview of a list shows what the list's own page shows
    without a filter: the same heading, the same rows less their titles,
    and, whatever filter the page has selected, the same count. *)
Theorem preview_agrees_with_the_page
    {Node : Type} (querySelector : string -> option Node)
    (toDoList : Payload) (hash : string) :
  let preview := VanillaToDoListPreviewView.render toDoList in
  VanillaToDoListPreviewView.heading preview =
    VanillaToDoListView.heading
      (VanillaToDoListView.render querySelector toDoList hash) /\
  rowsOf (VanillaToDoListPreviewView.section preview) =
    List.map previewRow
      (rowsOf (VanillaToDoListView.section
                 (VanillaToDoListView.render querySelector toDoList ""))) /\
  VanillaToDoListPreviewView.footer preview =
    match VanillaToDoListView.footer
            (VanillaToDoListView.render querySelector toDoList hash) with
    | FooterShown count _ => Some count
    | FooterHidden => None
    end.
Proof.
  cbv zeta. unfold VanillaToDoListPreviewView.render, VanillaToDoListView.render.
  destruct (Nat.ltb 0 (length (payload_items toDoList))).
  - cbn [VanillaToDoListPreviewView.heading VanillaToDoListView.heading
         VanillaToDoListPreviewView.section VanillaToDoListView.section
         VanillaToDoListPreviewView.footer VanillaToDoListView.footer
         rowsOf windowLocationHash String.eqb].
    repeat split. rewrite List.map_map. reflexivity.
  - repeat split.
Qed.

(** X16. The preview a row of the overview holds is found by the row's
    id: it shows the first list of the stored collection that has the id.
    So it shows the row's own list where the ids differ, and the earlier
    list's items on the row of a later list with the same id. *)
Theorem preview_shows_the_first_list_with_the_id
    (w : World) (toDoLists : list ToDoList.t) (i : nat) (first l : ToDoList.t) :
  localStorage w = Some toDoLists ->
  toDoLists !! i = Some first ->
  (forall j l', toDoLists !! j = Some l' -> j < i ->
                ToDoList.id l' <> ToDoList.id first) ->
  l ∈ toDoLists ->
  ToDoList.id l = ToDoList.id first ->
  VanillaToDoListPreview.constructor
    (VanillaToDoListsView.row_id (VanillaToDoListsView.renderList l)) w =
  (VanillaToDoListPreviewView.render (Found first), w).
Proof.
  intros Hst Hi Hfirst Hl Hid.
  change (VanillaToDoListsView.row_id (VanillaToDoListsView.renderList l))
    with (ToDoList.id l).
  unfold VanillaToDoListPreview.constructor,
    VanillaToDoListPreviewModel.constructor, bind, getItem, ret.
  rewrite Hst. change (default [] (Some toDoLists)) with toDoLists.
  assert (Hfind : list_find
            (fun l0 => Is_true (Js.number_strict_eq (Js.Int (ToDoList.id l0))
                                  (Js.Int (ToDoList.id l))))
            toDoLists = Some (i, first)).
  { apply list_find_Some. split; [done|]. split.
    - apply Is_true_true, number_strict_eq_true. by rewrite Hid.
    - intros j l' Hl' Hj Ha.
      apply Is_true_true, number_strict_eq_true in Ha.
      apply (Hfirst j l' Hl' Hj). congruence. }
  rewrite Hfind. unfold VanillaToDoListModel.deref.
  cbn [VanillaToDoListModel.toDoList VanillaToDoListModel.toDoLists].
  by rewrite Hi.
Qed.

(** ** Items *)

(** X17. [createToDoListItem] appends exactly one item to the end of the
    list's items, leaving the items before it as they were: its id is the
    time of the first date taken, its [created] that date's text,
    [lastUpdated] is null and [done] is false; the list's own
    [lastUpdated] is a later date of the same call. *)
Theorem createToDoListItem_appends_fresh_item
    (toDoListItemText : string) (this : VanillaToDoListModel.t) (w : World) :
  coherent this ->
  let now := clock w (ticks w) in
  let '(this', w') :=
    VanillaToDoListModel.createToDoListItem toDoListItemText this w in
  VanillaToDoListModel.getItems this' =
    VanillaToDoListModel.getItems this ++
    [{| ToDoListItem.id := getTime now; ToDoListItem.created := toJSON now;
        ToDoListItem.lastUpdated := None;
        ToDoListItem.text := toDoListItemText;
        ToDoListItem.done := Js.boolean false |}] /\
  Forall
    (fun l =>
       VanillaToDoListModel.addressed (VanillaToDoListModel.toDoListId this) l
         = true ->
       ToDoList.items l = VanillaToDoListModel.getItems this' /\
       exists k, ticks w < k < ticks w' /\
                 ToDoList.lastUpdated l = Some (toJSON (clock w k)))
    (load w').
Proof.
  intros Hc. cbv zeta.
  change (VanillaToDoListModel.createToDoListItem toDoListItemText this w)
    with (VanillaToDoListController.handle
            (VanillaToDoListController.CreateToDoListItem toDoListItemText)
            this w).
  rewrite handle_written. cbn [itemsWritten fst snd].
  set (its := VanillaToDoListModel.getItems this ++ _).
  rewrite <- (advance_0 (advance 1 w)).
  pose proof (written_back_frame its 0 this (advance 1 w) Hc) as H.
  destruct (written_back _ _) as [this' w'].
  destruct H as (_ & _ & Hitems & _ & Hst & Hall).
  split; [exact Hitems|].
  unfold load. rewrite Hst. cbn [default from_option].
  apply Forall_forall. intros l' Hl'.
  apply list_elem_of_lookup in Hl' as [j Hj].
  destruct (Forall2_lookup_r _ _ _ _ _ Hall Hj) as (l & Hl & Hrel).
  intros Ha'.
  destruct (VanillaToDoListModel.addressed _ l) eqn:Ha.
  - destruct Hrel as (Hi & (s' & Hs' & k & Hk & ->) & _).
    split; [done|]. exists k. cbn in Hk. split; [lia|done].
  - subst l'. by rewrite Ha in Ha'.
Qed.

(** X18. Renaming, deleting or toggling an item by id leaves the items
    that have another id as they were and in their order, and deleting
    leaves no item with the id. *)
Theorem items_with_another_id_are_untouched
    (z : Z) (toDoListItemTextNew : string)
    (this : VanillaToDoListModel.t) (w : World) :
  let others (toDoListItems : list ToDoListItem.t) :=
    filter (fun i => ToDoListItem.id i <> z) toDoListItems in
  others (VanillaToDoListModel.getItems
            (fst (VanillaToDoListModel.updateToDoListItem (Js.Int z)
                    toDoListItemTextNew this w))) =
    others (VanillaToDoListModel.getItems this) /\
  others (VanillaToDoListModel.getItems
            (fst (VanillaToDoListModel.toggleToDoListItem (Js.Int z) this w))) =
    others (VanillaToDoListModel.getItems this) /\
  VanillaToDoListModel.getItems
    (fst (VanillaToDoListModel.deleteToDoListItem (Js.Int z) this w)) =
    others (VanillaToDoListModel.getItems this).
Proof.
  cbv zeta.
  assert (Hp : forall i, Js.number_strict_eq (Js.Int (ToDoListItem.id i)) (Js.Int z)
                         = true -> ToDoListItem.id i = z).
  { intros i Hi. apply number_strict_eq_true in Hi. congruence. }
  split; [|split].
  - rewrite updateToDoListItem_items.
    apply filter_stamp. intros d i Hi. apply Hp in Hi. simpl. tauto.
  - rewrite toggleToDoListItem_items.
    apply (filter_map_if (fun i => ToDoListItem.id i <> z)
             (fun i => Js.number_strict_eq (Js.Int (ToDoListItem.id i)) (Js.Int z))).
    intros i Hi. apply Hp in Hi. simpl. tauto.
  - rewrite deleteToDoListItem_items.
    apply filter_decide. intros i. unfold Js.number_strict_neq.
    rewrite Bool.negb_true_iff, number_strict_eq_false.
    split; intros H; congruence.
Qed.

(** X19. On the page of an id that no stored list has, an item that is
    created is shown, as the only row and counted "1 (1/0)", and is not
    stored: local storage keeps the collection it had, and a model
    constructed again for the id starts from no items. *)
Theorem invalid_page_shows_what_it_does_not_store
    {Node : Type} (querySelector : string -> option Node)
    (id : Js.number) (w : World) (toDoListItemText hash : string) :
  Forall (fun l => Js.Int (ToDoList.id l) <> id) (load w) ->
  let '(this, w0) := VanillaToDoListModel.constructor id w in
  let '(this', w') :=
    VanillaToDoListModel.createToDoListItem toDoListItemText this w0 in
  let item :=
    {| ToDoListItem.id := getTime (clock w (ticks w));
       ToDoListItem.created := toJSON (clock w (ticks w));
       ToDoListItem.lastUpdated := None;
       ToDoListItem.text := toDoListItemText;
       ToDoListItem.done := Js.boolean false |} in
  toDoListChanged w' = toDoListChanged w ++ [Bare [item]] /\
  VanillaToDoListView.section
    (VanillaToDoListView.render querySelector (Bare [item]) hash) =
    (if String.eqb hash "#done" then Rows []
     else Rows [VanillaToDoListView.renderItem item]) /\
  VanillaToDoListView.footer
    (VanillaToDoListView.render querySelector (Bare [item]) hash) =
    FooterShown "1 (1/0)" false /\
  load w' = load w /\
  VanillaToDoListModel.deref (fst (VanillaToDoListModel.constructor id w')) =
    Bare [].
Proof.
  intros Hid. pose proof (constructor_run id w) as H.
  destruct (VanillaToDoListModel.constructor id w) as [this w0].
  destruct H as (-> & Hc & Hthis & Hlists & Hown). specialize (Hown Hid).
  destruct this as [id' ref ls]. simpl in Hthis, Hlists, Hown. subst id' ref ls.
  assert (Hno : Forall (fun l => VanillaToDoListModel.addressed id l = false)
                  (load w)).
  { eapply Forall_impl; [exact Hid|]. intros l Hl.
    by apply number_strict_eq_false. }
  unfold VanillaToDoListModel.createToDoListItem. unfold bind at 1.
  rewrite newDate_run. unfold bind. rewrite store_run. cbv beta iota zeta.
  cbn [VanillaToDoListModel.toDoListId VanillaToDoListModel.toDoLists
       VanillaToDoListModel.toDoList VanillaToDoListModel.setItems
       VanillaToDoListModel.getItems VanillaToDoListModel.deref
       payload_items app snd setItem VanillaToDoListModel.updateView ret
       advance clock ticks localStorage toDoListChanged toDoListsChanged].
  rewrite (stamp_untouched _ _ _ _ _ Hno).
  split; [reflexivity|].
  split.
  { unfold VanillaToDoListView.render. simpl.
    unfold windowLocationHash.
    destruct (String.eqb hash "") eqn:He.
    - apply String.eqb_eq in He. by subst hash.
    - destruct (String.eqb hash "#pending") eqn:Hp.
      + apply String.eqb_eq in Hp. by subst hash.
      + by destruct (String.eqb hash "#done"). }
  split; [reflexivity|].
  split; [reflexivity|].
  set (w' := {| localStorage := Some (load w) |}).
  pose proof (constructor_run id w') as H.
  destruct (VanillaToDoListModel.constructor id w') as [that v].
  destruct H as (_ & _ & _ & _ & Hown').
  cbn [fst]. unfold VanillaToDoListModel.deref. by rewrite Hown'.
Qed.

(** ** What reaches the models through the views *)

Lemma Forall_List_map_keep {A} (P : A -> Prop) (f : A -> A) (l : list A) :
  (forall x, P x -> P (f x)) -> Forall P l -> Forall P (List.map f l).
Proof. intros Hf. induction 1; constructor; auto. Qed.

Lemma react_lists_names (n : nat) (ev : VanillaToDoListsViewEvents.Event) :
  Forall (fun c => names_a_list (snd c))
    (snd (VanillaToDoListsViewEvents.react n ev)).
Proof.
  destruct ev as [key value|row value|row key value|row|row| | | |];
    cbn [VanillaToDoListsViewEvents.react snd];
    unfold VanillaToDoListsViewEvents.commit;
    repeat match goal with
           | |- context [String.eqb ?a ?b] => destruct (String.eqb a b)
           | |- context [blank ?v] => destruct (blank v) eqn:?
           end;
    cbn [negb]; repeat constructor; try done.
  induction n; simpl; by constructor.
Qed.

Lemma react_items_names (n : nat) (ev : VanillaToDoListViewEvents.Event) :
  Forall (fun c => names_an_item (snd c))
    (snd (VanillaToDoListViewEvents.react n ev)).
Proof.
  destruct ev as [key value|row value|row key value|row|row| | | |];
    cbn [VanillaToDoListViewEvents.react snd];
    unfold VanillaToDoListViewEvents.commit;
    repeat match goal with
           | |- context [String.eqb ?a ?b] => destruct (String.eqb a b)
           | |- context [blank ?v] => destruct (blank v) eqn:?
           end;
    cbn [negb]; repeat constructor; try done.
  induction n; simpl; by constructor.
Qed.

Lemma handle_keeps_names_filled (e : VanillaToDoListsController.Intent)
    (this : VanillaToDoListsModel.t) (w : World) :
  names_a_list e ->
  Forall (fun l => blank (ToDoList.name l) = false)
    (VanillaToDoListsModel.toDoLists this) ->
  Forall (fun l => blank (ToDoList.name l) = false)
    (VanillaToDoListsModel.toDoLists
       (fst (VanillaToDoListsController.handle e this w))).
Proof.
  intros He Hb.
  destruct e as [name|id name|id|id| |]; cbn [VanillaToDoListsController.handle].
  - unfold VanillaToDoListsModel.createToDoList, bind. simpl.
    apply Forall_app. split; [done|]. by repeat constructor.
  - rewrite updateToDoList_run. cbv beta iota zeta.
    cbn [fst VanillaToDoListsModel.toDoLists].
    by apply Forall_stamp.
  - unfold VanillaToDoListsModel.deleteToDoList, bind. simpl.
    by apply Forall_List_filter.
  - unfold VanillaToDoListsModel.toggleToDoList, bind.
    cbn [fst VanillaToDoListsModel.store VanillaToDoListsModel.updateView
         setItem ret VanillaToDoListsModel.toDoLists].
    apply Forall_List_map_keep; [|done].
    intros l Hl. by destruct (Js.number_strict_eq _ _).
  - unfold VanillaToDoListsModel.toggleAllToDoLists, bind.
    cbn [fst VanillaToDoListsModel.store VanillaToDoListsModel.updateView
         setItem ret VanillaToDoListsModel.toDoLists].
    by apply Forall_List_map_keep.
  - unfold VanillaToDoListsModel.clearToDoLists, bind. simpl.
    by apply Forall_List_filter.
Qed.

(** X20. No event on the overview gives a list a name that is empty or
    all white space: if no list has such a name, none has after the calls
    that the handler of any event makes, whatever was typed. *)
Theorem overview_names_stay_filled
    (n : nat) (ev : VanillaToDoListsViewEvents.Event)
    (this : VanillaToDoListsModel.t) (w : World) :
  Forall (fun l => blank (ToDoList.name l) = false)
    (VanillaToDoListsModel.toDoLists this) ->
  Forall (fun l => blank (ToDoList.name l) = false)
    (VanillaToDoListsModel.toDoLists
       (fst (VanillaToDoListsViewEvents.run
               (snd (VanillaToDoListsViewEvents.react n ev)) this w))).
Proof.
  pose proof (react_lists_names n ev) as Hcalls.
  revert this w. induction Hcalls as [|[ms e] calls He _ IH]; intros this w Hb.
  - done.
  - simpl. unfold bind.
    pose proof (handle_keeps_names_filled e this w He Hb) as H.
    destruct (VanillaToDoListsController.handle e this w) as [this1 w1].
    by apply IH.
Qed.

Lemma handle_keeps_texts_filled (e : VanillaToDoListController.Intent)
    (this : VanillaToDoListModel.t) (w : World) :
  names_an_item e -> coherent this ->
  Forall (fun i => blank (ToDoListItem.text i) = false)
    (VanillaToDoListModel.getItems this) ->
  let this' := fst (VanillaToDoListController.handle e this w) in
  coherent this' /\
  Forall (fun i => blank (ToDoListItem.text i) = false)
    (VanillaToDoListModel.getItems this').
Proof.
  intros He Hc Hb. cbv zeta.
  pose proof (handle_items_and_clock e this w Hc) as H.
  destruct (VanillaToDoListController.handle e this w) as [this' w'].
  destruct H as (Hc' & Hitems & _). cbn [fst]. split; [done|]. rewrite Hitems.
  destruct e as [text|id text|id|id| |]; cbn [itemsWritten fst].
  - apply Forall_app. split; [done|]. by repeat constructor.
  - by apply Forall_stamp.
  - by apply Forall_List_filter.
  - apply Forall_List_map_keep; [|done].
    intros i Hi. by destruct (Js.number_strict_eq _ _).
  - by apply Forall_List_map_keep.
  - by apply Forall_List_filter.
Qed.

(** X21. Nor does any event on a list's page give an item a text that is
    empty or all white space. *)
Theorem item_texts_stay_filled
    (n : nat) (ev : VanillaToDoListViewEvents.Event)
    (this : VanillaToDoListModel.t) (w : World) :
  coherent this ->
  Forall (fun i => blank (ToDoListItem.text i) = false)
    (VanillaToDoListModel.getItems this) ->
  Forall (fun i => blank (ToDoListItem.text i) = false)
    (VanillaToDoListModel.getItems
       (fst (VanillaToDoListViewEvents.run
               (snd (VanillaToDoListViewEvents.react n ev)) this w))).
Proof.
  pose proof (react_items_names n ev) as Hcalls.
  revert this w. induction Hcalls as [|[ms e] calls He _ IH]; intros this w Hc Hb.
  - done.
  - simpl. unfold bind.
    pose proof (handle_keeps_texts_filled e this w He Hc Hb) as H.
    destruct (VanillaToDoListController.handle e this w) as [this1 w1].
    destruct H as [Hc1 Hb1]. by apply IH.
Qed.

(** X22. An edit of a list's name that is confirmed (by leaving the input
    or by Enter) with the name the row shows, or with nothing but white
    space, and any other key in the input, changes nothing at all: no call
    is made, so nothing is stored and [lastRenamed] stays. Confirmed with
    another name, it renames the list the row was rendered from to exactly
    what was typed. *)
Theorem edit_renames_only_on_change
    (n : nat) (this : VanillaToDoListsModel.t) (w : World)
    (i : nat) (l : ToDoList.t) (key value : string) :
  VanillaToDoListsModel.toDoLists this !! i = Some l ->
  let row := VanillaToDoListsView.renderList l in
  let blur := VanillaToDoListsViewEvents.react n
                (VanillaToDoListsViewEvents.UpdateBlur row value) in
  let keydown := VanillaToDoListsViewEvents.react n
                   (VanillaToDoListsViewEvents.UpdateKeydown row key value) in
  fst blur = n /\ fst keydown = n /\
  snd keydown = (if String.eqb key "Enter" then snd blur else []) /\
  if blank value || String.eqb value (ToDoList.name l) then
    VanillaToDoListsViewEvents.run (snd blur) this w = (this, w)
  else
    let '(this', w') := VanillaToDoListsViewEvents.run (snd blur) this w in
    exists k, ticks w <= k < ticks w' /\
      VanillaToDoListsModel.toDoLists this' !! i =
        Some (ToDoList.with_name (clock w k) value l).
Proof.
  intros Hl. cbv zeta. cbn [VanillaToDoListsViewEvents.react fst snd].
  do 3 (split; [reflexivity|]).
  unfold VanillaToDoListsViewEvents.commit.
  change (VanillaToDoListsView.link_textContent (VanillaToDoListsView.renderList l))
    with (ToDoList.name l).
  change (VanillaToDoListsView.row_id (VanillaToDoListsView.renderList l))
    with (ToDoList.id l).
  destruct (blank value); [reflexivity|].
  destruct (String.eqb value (ToDoList.name l)); [reflexivity|].
  cbn [negb orb VanillaToDoListsViewEvents.run
       VanillaToDoListsController.handle].
  unfold bind at 1. rewrite updateToDoList_run. cbv beta iota zeta.
  cbn [ret VanillaToDoListsModel.toDoLists].
  assert (Hp : Js.number_strict_eq (Js.Int (ToDoList.id l))
                 (Js.Int (ToDoList.id l)) = true)
    by (by apply number_strict_eq_true).
  eexists. split; [|rewrite stamp_lookup, Hl;
                    cbn [fmap option_fmap option_map]; by rewrite Hp].
  cbn [ticks stored_and_shown advance].
  pose proof (filter_take_lt
                (fun x => Js.number_strict_eq (Js.Int (ToDoList.id x))
                            (Js.Int (ToDoList.id l)))
                _ i l Hl Hp).
  lia.
Qed.

Lemma clearToDoLists_again (this : VanillaToDoListsModel.t) (w v : World) :
  let this1 := fst (VanillaToDoListsModel.clearToDoLists this w) in
  VanillaToDoListsModel.clearToDoLists this1 v =
  (this1, stored_and_shown (VanillaToDoListsModel.toDoLists this1) v).
Proof.
  cbv zeta. unfold VanillaToDoListsModel.clearToDoLists, bind.
  cbn [fst VanillaToDoListsModel.store VanillaToDoListsModel.updateView
       setItem ret VanillaToDoListsModel.toDoLists stored_and_shown
       localStorage clock ticks toDoListsChanged toDoListChanged].
  set (p := fun l => Js.strict_eq (ToDoList.done l) (Js.boolean false)).
  assert (Hidem : List.filter p (List.filter p (VanillaToDoListsModel.toDoLists this))
                  = List.filter p (VanillaToDoListsModel.toDoLists this)).
  { apply filter_all, Forall_forall. intros l Hl.
    apply list_elem_of_In, List.filter_In in Hl. tauto. }
  by rewrite Hidem.
Qed.

(** X23. Every click on the overview's clear button adds a listener to
    the yes button, and none is removed: a click on yes after the clear
    button was clicked [m + 1] times in the session calls
    [clearToDoLists] [m + 1] times. The model and local storage end as
    after one call; the change callback runs [m + 1] times, each time with
    the cleared collection. *)
Theorem confirmation_clears_once_per_listener
    (events : list VanillaToDoListsViewEvents.Event) (m : nat)
    (this : VanillaToDoListsModel.t) (w : World) :
  yesListenersAfter events =
    length (List.filter
              (fun e => match e with
                        | VanillaToDoListsViewEvents.ClearClick => true
                        | _ => false
                        end) events) /\
  let calls :=
    snd (VanillaToDoListsViewEvents.react (S m)
           VanillaToDoListsViewEvents.ClearYesClick) in
  let '(this1, w1) := VanillaToDoListsModel.clearToDoLists this w in
  let '(this', w') := VanillaToDoListsViewEvents.run calls this w in
  calls = replicate (S m) (0, VanillaToDoListsController.ClearToDoLists) /\
  this' = this1 /\
  localStorage w' = localStorage w1 /\
  ticks w' = ticks w /\
  toDoListsChanged w' =
    toDoListsChanged w ++
    replicate (S m) (VanillaToDoListsModel.toDoLists this1).
Proof.
  split.
  - unfold yesListenersAfter.
    assert (H : forall n,
               fold_left (fun n e => fst (VanillaToDoListsViewEvents.react n e))
                 events n =
               n + length (List.filter
                             (fun e => match e with
                                       | VanillaToDoListsViewEvents.ClearClick => true
                                       | _ => false
                                       end) events)).
    { induction events as [|e events IH]; intros n; [simpl; lia|].
      simpl. rewrite IH. destruct e; simpl; lia. }
    by rewrite H.
  - cbv zeta. cbn [VanillaToDoListsViewEvents.react snd].
    destruct (VanillaToDoListsModel.clearToDoLists this w) as [this1 w1] eqn:H1.
    assert (Hthis1 : this1 = fst (VanillaToDoListsModel.clearToDoLists this w))
      by (by rewrite H1).
    assert (Hw1 : w1 = stored_and_shown (VanillaToDoListsModel.toDoLists this1) w).
    { revert H1. unfold VanillaToDoListsModel.clearToDoLists, bind.
      cbn [VanillaToDoListsModel.store VanillaToDoListsModel.updateView
           setItem ret]. by intros [= <- <-]. }
    assert (Hagain : forall v,
              VanillaToDoListsModel.clearToDoLists this1 v =
              (this1, stored_and_shown (VanillaToDoListsModel.toDoLists this1) v)).
    { intros v. rewrite Hthis1. apply clearToDoLists_again. }
    cbn [replicate VanillaToDoListsViewEvents.run
         VanillaToDoListsController.handle].
    unfold bind at 1. rewrite H1.
    assert (Hrest : forall k v,
              localStorage v = Some (VanillaToDoListsModel.toDoLists this1) ->
              let '(this', w') :=
                VanillaToDoListsViewEvents.run
                  (replicate k (0, VanillaToDoListsController.ClearToDoLists))
                  this1 v in
              this' = this1 /\ localStorage w' = localStorage v /\
              ticks w' = ticks v /\
              toDoListsChanged w' =
                toDoListsChanged v ++
                replicate k (VanillaToDoListsModel.toDoLists this1)).
    { induction k as [|k IH]; intros v Hv.
      - simpl. by rewrite app_nil_r.
      - cbn [replicate VanillaToDoListsViewEvents.run
             VanillaToDoListsController.handle].
        unfold bind at 1. rewrite Hagain.
        pose proof (IH (stored_and_shown
                          (VanillaToDoListsModel.toDoLists this1) v) eq_refl) as H.
        destruct (VanillaToDoListsViewEvents.run _ this1 _) as [this' w'].
        destruct H as (-> & -> & -> & ->).
        cbn. split; [done|]. split; [done|]. split; [done|].
        by rewrite <- app_assoc. }
    pose proof (Hrest m w1) as H. rewrite Hw1 in H at 1.
    specialize (H eq_refl).
    destruct (VanillaToDoListsViewEvents.run _ this1 w1) as [this' w'].
    destruct H as (-> & -> & -> & ->). rewrite Hw1. cbn.
    split; [done|]. split; [done|]. split; [done|]. split; [done|].
    by rewrite <- app_assoc.
Qed.

(** X24. Each click on a row's checkbox sets a timeout of [long] (500 ms)
    of its own, and none is cancelled: two clicks on the row of a list
    call [toggleToDoList] twice with the row's id. Where the lists' flags
    are booleans, the collection ends as it was, in the model and in local
    storage. *)
Theorem double_click_toggles_twice
    (n : nat) (this : VanillaToDoListsModel.t) (w : World) (l : ToDoList.t) :
  Forall (fun l => Js.is_boolean (ToDoList.done l) = true)
    (VanillaToDoListsModel.toDoLists this) ->
  let click := VanillaToDoListsViewEvents.ToggleClick
                 (VanillaToDoListsView.renderList l) in
  let '(n1, calls1) := VanillaToDoListsViewEvents.react n click in
  let '(n2, calls2) := VanillaToDoListsViewEvents.react n1 click in
  let toggle :=
    (500, VanillaToDoListsController.ToggleToDoList (Js.Int (ToDoList.id l))) in
  calls1 ++ calls2 = [toggle; toggle] /\
  let '(this', w') :=
    VanillaToDoListsViewEvents.run (calls1 ++ calls2) this w in
  this' = this /\
  localStorage w' = Some (VanillaToDoListsModel.toDoLists this) /\
  ticks w' = ticks w.
Proof.
  intros Hb. cbv zeta. cbn [VanillaToDoListsViewEvents.react].
  split; [reflexivity|].
  cbn [app VanillaToDoListsViewEvents.run VanillaToDoListsController.handle].
  change (VanillaToDoListsView.row_id (VanillaToDoListsView.renderList l))
    with (ToDoList.id l).
  unfold VanillaToDoListsModel.toggleToDoList, bind.
  cbn [VanillaToDoListsModel.store VanillaToDoListsModel.updateView
       setItem ret VanillaToDoListsModel.toDoLists localStorage ticks].
  set (f := fun toDoList =>
              if Js.number_strict_eq (Js.Int (ToDoList.id toDoList))
                   (Js.Int (ToDoList.id l))
              then ToDoList.with_done (Js.not (ToDoList.done toDoList)) toDoList
              else toDoList).
  assert (Hback : List.map f (List.map f (VanillaToDoListsModel.toDoLists this))
                  = VanillaToDoListsModel.toDoLists this).
  { clear -Hb. induction Hb as [|x ls Hx _ IH]; [done|].
    simpl. rewrite IH. f_equal. unfold f at 1 2.
    destruct (Js.number_strict_eq (Js.Int (ToDoList.id x)) _) eqn:Hid; [|by rewrite Hid].
    cbn [ToDoList.with_done ToDoList.id]. rewrite Hid.
    cbn [ToDoList.with_done ToDoList.id ToDoList.created ToDoList.lastRenamed
         ToDoList.lastUpdated ToDoList.name ToDoList.done ToDoList.items].
    rewrite not_not, to_boolean_boolean by done. by destruct x. }
  rewrite Hback. destruct this. done.
Qed.

(** ** The tooltip *)

(** X25. While the pointer is inside the window, the tooltip does not
    reach below the window's bottom edge; it starts at the pointer or ends
    there; and it does not start above the top edge if it is at most half
    as high as the window. *)
Theorem tooltip_stays_in_the_window
    (innerHeight clientX clientY offsetHeight : Z) :
  (0 <= clientY <= innerHeight)%Z ->
  let '(styleTop, styleLeft) :=
    handleWindowMouseMove innerHeight clientX clientY offsetHeight in
  (styleTop + offsetHeight <= innerHeight)%Z /\
  (styleTop = clientY \/ (styleTop + offsetHeight)%Z = clientY) /\
  ((2 * offsetHeight <= innerHeight)%Z -> (0 <= styleTop)%Z) /\
  styleLeft = clientX.
Proof.
  intros Hy. unfold handleWindowMouseMove.
  destruct (Z.ltb_spec (innerHeight - clientY) offsetHeight); repeat split; lia.
Qed.

(** ** The router *)

Lemma digit_is_no_slash (c : Ascii.ascii) :
  (48 <=? Ascii.nat_of_ascii c) && (Ascii.nat_of_ascii c <=? 57) = true ->
  (Ascii.nat_of_ascii c =? 47) = false /\ c <> Ascii.ascii_of_nat 47 /\
  c <> Ascii.ascii_of_nat 118.
Proof.
  intros H. apply andb_true_iff in H as [H1 H2].
  apply Nat.leb_le in H1. apply Nat.leb_le in H2.
  split; [apply Nat.eqb_neq; lia|].
  split; intros ->; rewrite Ascii.nat_ascii_embedding in H1, H2; lia.
Qed.

Lemma prefix_head (a c : Ascii.ascii) (pattern s : string) :
  String.prefix (String a pattern) (String c s) = true -> a = c.
Proof.
  intros H. apply String.prefix_correct in H. simpl in H. congruence.
Qed.

Lemma prefix_slash_digit (pattern : string) (c : Ascii.ascii) (s : string) :
  (48 <=? Ascii.nat_of_ascii c) && (Ascii.nat_of_ascii c <=? 57) = true ->
  String.prefix (String (Ascii.ascii_of_nat 47) pattern) (String c s) = false.
Proof.
  intros Hc. destruct (digit_is_no_slash c Hc) as (_ & Hne & _).
  destruct (String.prefix _ _) eqn:H; [|done].
  apply prefix_head in H. by destruct Hne.
Qed.

(** The pattern is not at the head of [s]: whatever [s] starts with
    decides it. *)
Ltac pattern_not_here :=
  match goal with
  | |- context [String.prefix ?p ?s] =>
      let H := fresh "H" in
      destruct (String.prefix p s) eqn:H;
      [apply String.prefix_correct in H; simpl in H; congruence|]
  end.

Lemma replace_digits (pattern s : string) :
  digits s = true ->
  Router.replace (String (Ascii.ascii_of_nat 47) pattern) s = s.
Proof.
  induction s as [|c s IH]; intros Hd; [done|].
  cbn [digits] in Hd. apply andb_true_iff in Hd as [Hc Hd].
  cbn [Router.replace]. rewrite prefix_slash_digit by done.
  by rewrite IH.
Qed.

Lemma split_digits (s : string) : digits s = true -> Router.split s = [s].
Proof.
  induction s as [|c s IH]; intros Hd; [done|].
  cbn [digits] in Hd. apply andb_true_iff in Hd as [Hc Hd].
  cbn [Router.split]. destruct (digit_is_no_slash c Hc) as (-> & _).
  by rewrite IH.
Qed.

Lemma substring_all (s : string) : String.substring 0 (String.length s) s = s.
Proof. induction s as [|c s IH]; [done|]. simpl. by rewrite IH. Qed.

Lemma replace_unfold (pattern s : string) :
  Router.replace pattern s =
  if String.prefix pattern s then
    String.substring (String.length pattern)
      (String.length s - String.length pattern) s
  else
    match s with
    | EmptyString => EmptyString
    | String c s' => String c (Router.replace pattern s')
    end.
Proof. by destruct s. Qed.

Lemma replace_at_the_head (pattern s : string) :
  Router.replace pattern (pattern +:+ s) = s.
Proof.
  rewrite replace_unfold.
  assert (Hpre : String.prefix pattern (pattern +:+ s) = true).
  { induction pattern as [|a p IH]; [by destruct s|].
    cbv beta iota fix delta [String.append]. fold (String.append p s).
    cbn [String.prefix]. by destruct (Ascii.ascii_dec a a). }
  rewrite Hpre. clear Hpre.
  assert (Hlen : String.length (pattern +:+ s) - String.length pattern =
                 String.length s).
  { induction pattern as [|a p IH];
      cbv beta iota fix delta [String.append]; [simpl; lia|].
    fold (String.append p s). simpl. exact IH. }
  rewrite Hlen. clear Hlen.
  induction pattern as [|a p IH];
    cbv beta iota fix delta [String.append]; [apply substring_all|].
  fold (String.append p s). simpl. exact IH.
Qed.

Lemma append_assoc (a b c : string) : (a +:+ b) +:+ c = a +:+ (b +:+ c).
Proof.
  induction a as [|x a IH]; cbv beta iota fix delta [String.append]; [done|].
  fold (String.append a b). fold (String.append (a +:+ b) c).
  fold (String.append b c). fold (String.append a (b +:+ c)). by rewrite IH.
Qed.

Lemma route_to_a_list (id : string) :
  digits id = true -> id <> "" ->
  let page :=
    {| Router.innerHTML :=
         "<vanilla-to-do-list id=" +:+ Router.quote +:+ id +:+ Router.quote
         +:+ "></vanilla-to-do-list>";
       Router.navigationHidden := false |} in
  Router.eventHandler ("/to-do-list/" +:+ id) = page /\
  Router.eventHandler ("/vanilla-to-do-list/to-do-list/" +:+ id) = page.
Proof.
  intros Hd Hne. cbv zeta.
  assert (Hplain : Router.replace "/vanilla-to-do-list" ("/to-do-list/" +:+ id)
                   = "/to-do-list/" +:+ id).
  { destruct id as [|c id]; [done|].
    cbn [digits] in Hd. apply andb_true_iff in Hd as [Hc Hd].
    destruct (digit_is_no_slash c Hc) as (_ & _ & Hv).
    let v := eval cbv in (Ascii.ascii_of_nat 118) in
    change (Ascii.ascii_of_nat 118) with v in Hv.
    cbv beta iota fix delta [String.append].
    do 12 (cbn [Router.replace]; pattern_not_here; f_equal).
    apply (replace_digits "vanilla-to-do-list" (String c id)).
    cbn [digits]. by rewrite Hc, Hd. }
  assert (Hprefixed :
            Router.replace "/vanilla-to-do-list"
              ("/vanilla-to-do-list/to-do-list/" +:+ id)
            = "/to-do-list/" +:+ id).
  { change ("/vanilla-to-do-list/to-do-list/" +:+ id)
      with ("/vanilla-to-do-list" +:+ ("/to-do-list/" +:+ id)).
    apply replace_at_the_head. }
  assert (Hpage : forall path,
            Router.replace "/vanilla-to-do-list" path = "/to-do-list/" +:+ id ->
            Router.eventHandler path =
            {| Router.innerHTML :=
                 "<vanilla-to-do-list id=" +:+ Router.quote +:+ id +:+
                 Router.quote +:+ "></vanilla-to-do-list>";
               Router.navigationHidden := false |}).
  { intros path Hpath. unfold Router.eventHandler. rewrite Hpath.
    assert (Hsplit : Router.split ("/to-do-list/" +:+ id) =
                     [""; "to-do-list"; id]).
    { cbv beta iota fix delta [String.append]. cbn [Router.split].
      rewrite split_digits by done. reflexivity. }
    rewrite Hsplit. cbn [lookup list_lookup].
    destruct (String.eqb id "") eqn:He; [by apply String.eqb_eq in He|].
    rewrite !append_assoc. reflexivity. }
  split; by apply Hpage.
Qed.

Lemma digits_pretty_N_go (x : N) (s : string) :
  digits s = true -> s <> "" ->
  digits (pretty_N_go x s) = true /\ pretty_N_go x s <> "".
Proof.
  revert s. induction (N.lt_wf_0 x) as [x _ IH]; intros s Hd Hne.
  destruct (decide (x = 0)%N) as [->|Hx]; [by rewrite pretty_N_go_0|].
  rewrite pretty_N_go_step by lia. apply IH.
  - apply N.div_lt; lia.
  - cbn [digits]. rewrite Hd.
    unfold pretty_N_char. by repeat case_match.
  - done.
Qed.

Lemma digits_pretty (z : Z) :
  (0 <= z)%Z -> digits (pretty z) = true /\ pretty z <> "".
Proof.
  intros Hz. destruct z as [|p|p]; [done| |lia].
  unfold pretty, pretty_Z, pretty, pretty_positive, pretty, pretty_N.
  destruct (decide (N.pos p = 0)%N); [done|].
  rewrite pretty_N_go_step by lia. apply digits_pretty_N_go; [|done].
  cbn [digits]. unfold pretty_N_char. by repeat case_match.
Qed.

(** Below [2^53] every integer is a double, and no other integer denotes
    it: the template literal writes all its digits. *)
Lemma nearest_double_small (z : Z) :
  (z < 2 ^ 53)%Z -> Js.nearest_double z = z.
Proof.
  intros Hz. unfold Js.nearest_double.
  destruct (Z.ltb_spec z (2 ^ 53)); [done|lia].
Qed.

Lemma nearest_double_large (z : Z) :
  (2 ^ 53 <= z)%Z -> (2 ^ 53 <= Js.nearest_double z)%Z.
Proof.
  intros Hz. unfold Js.nearest_double.
  destruct (Z.ltb_spec z (2 ^ 53)); [lia|].
  assert (Hlog : (53 <= Z.log2 z)%Z).
  { change 53%Z with (Z.log2 (2 ^ 53)). by apply Z.log2_le_mono. }
  set (e := (Z.log2 z - 52)%Z).
  assert (He : (1 <= e)%Z) by (unfold e; lia).
  assert (Hm : (2 ^ 52 <= z / 2 ^ e)%Z).
  { apply Z.div_le_lower_bound; [apply Z.pow_pos_nonneg; lia|].
    rewrite Z.mul_comm, <- Z.pow_add_r by lia.
    replace (52 + e)%Z with (Z.log2 z) by (unfold e; lia).
    apply Z.log2_spec. lia. }
  assert (Hp : (2 <= 2 ^ e)%Z).
  { change 2%Z with (2 ^ 1)%Z at 1. apply Z.pow_le_mono_r; lia. }
  cbv zeta.
  set (m := (z / 2 ^ e)%Z) in *. set (r := (z mod 2 ^ e)%Z).
  assert ((2 ^ 53 <= m * 2 ^ e)%Z).
  { change (2 ^ 53)%Z with (2 ^ 52 * 2)%Z. apply Z.mul_le_mono_nonneg; lia. }
  repeat case_match; nia.
Qed.

Lemma shortest_small (j : nat) (x : Z) :
  (0 <= x < 2 ^ 53)%Z -> Js.shortest j x = x.
Proof.
  intros Hx. induction j as [|j IH].
  - cbn [Js.shortest]. change (10 ^ Z.of_nat 0)%Z with 1%Z.
    rewrite Z.div_1_r, Z.mul_1_r, nearest_double_small by lia.
    rewrite Z.eqb_refl.
    destruct (Z.eqb_spec (Js.nearest_double (x + 1)) x) as [Heq|_]; [|done].
    destruct (Z.lt_ge_cases (x + 1) (2 ^ 53)).
    + rewrite nearest_double_small in Heq by done. lia.
    + pose proof (nearest_double_large (x + 1)). lia.
  - cbn [Js.shortest]. set (p := (10 ^ Z.of_nat (S j))%Z).
    assert (Hp : (0 < p)%Z) by (apply Z.pow_pos_nonneg; lia).
    pose proof (Z.mul_div_le x p Hp) as Hlo.
    pose proof (Z.mod_pos_bound x p Hp) as Hmod.
    pose proof (Z.div_mod x p ltac:(lia)) as Hdm.
    pose proof (Z.div_pos x p ltac:(lia) Hp) as Hq.
    set (lo := (x / p * p)%Z) in *.
    assert (Hlo' : (0 <= lo <= x)%Z) by (unfold lo; nia).
    assert (Hhi : (x < lo + p)%Z) by (unfold lo; nia).
    rewrite (nearest_double_small lo) by lia.
    assert (Hno : (Js.nearest_double (lo + p) =? x)%Z = false).
    { apply Z.eqb_neq. intros Heq.
      destruct (Z.lt_ge_cases (lo + p) (2 ^ 53)).
      - rewrite nearest_double_small in Heq by done. lia.
      - pose proof (nearest_double_large (lo + p)). lia. }
    rewrite Hno, andb_false_r.
    destruct (Z.eqb_spec lo x); [done|]. exact IH.
Qed.

Lemma number_to_string_safe (z : Z) :
  (0 <= z < 2 ^ 53)%Z -> Js.number_to_string z = pretty z.
Proof.
  intros Hz. unfold Js.number_to_string.
  destruct (Z.ltb_spec z 0); [lia|].
  unfold Js.positive_to_string. rewrite nearest_double_small by lia.
  destruct (Z.leb_spec (2 ^ 1024) z); [lia|].
  cbv zeta. rewrite shortest_small by done.
  destruct (Z.ltb_spec z (10 ^ 21)); [done|lia].
Qed.

(** X26. The link of a list's row in the overview leads the router to the
    page of that list, for an id that is a natural number below [2^53] (as
    the ids taken from the clock are): for the link's path, as it is and
    under the repository's path, the router puts in the single-list
    element with the list's id as its [id] attribute, and shows the
    navigation bar. *)
Theorem link_routes_to_the_list (l : ToDoList.t) :
  (0 <= ToDoList.id l < 2 ^ 53)%Z ->
  let href := VanillaToDoListsView.link_href (VanillaToDoListsView.renderList l) in
  let page :=
    {| Router.innerHTML :=
         "<vanilla-to-do-list id=" +:+ Router.quote +:+ pretty (ToDoList.id l)
         +:+ Router.quote +:+ "></vanilla-to-do-list>";
       Router.navigationHidden := false |} in
  Router.eventHandler href = page /\
  Router.eventHandler ("/vanilla-to-do-list" +:+ href) = page.
Proof.
  intros Hid. cbv zeta.
  change (VanillaToDoListsView.link_href (VanillaToDoListsView.renderList l))
    with ("/to-do-list/" +:+ Js.number_to_string (ToDoList.id l)).
  rewrite number_to_string_safe by done.
  destruct (digits_pretty (ToDoList.id l) (proj1 Hid)) as [Hd Hne].
  change ("/vanilla-to-do-list" +:+ "/to-do-list/" +:+ pretty (ToDoList.id l))
    with ("/vanilla-to-do-list/to-do-list/" +:+ pretty (ToDoList.id l)).
  by apply route_to_a_list.
Qed.

(** ** The further properties at the sample data *)

Lemma sample_clock_ahead (ids : list Z) :
  Forall (fun z => (z < 1700000000000)%Z) ids ->
  clock_ahead sample_world ids.
Proof.
  intros Hids. split.
  - intros j k Hjk. simpl. lia.
  - intros z k Hz _. rewrite Forall_forall in Hids.
    specialize (Hids z Hz). simpl. lia.
Qed.

(** List 1 of the sample gets an item and has all items toggled. *)
Lemma single_list_reloads_as_left_witness :
  let es := [VanillaToDoListController.CreateToDoListItem "Milk";
             VanillaToDoListController.ToggleAllToDoListItems] in
  sample_list1 ∈ load sample_world /\
  Js.Int (ToDoList.id sample_list1) = Js.Int 1 /\
  let '(this, w0) := VanillaToDoListModel.constructor (Js.Int 1) sample_world in
  let '(this', w') := VanillaToDoListController.handleAll es this w0 in
  VanillaToDoListModel.constructor (Js.Int 1) w' = (this', w') /\
  payload_id (VanillaToDoListModel.deref this') =
    Some (ToDoList.id sample_list1).
Proof.
  cbv zeta.
  assert (H : sample_list1 ∈ load sample_world) by (simpl; apply list_elem_of_here).
  split; [exact H|]. split; [reflexivity|].
  exact (single_list_reloads_as_left (Js.Int 1) sample_world sample_list1
           [VanillaToDoListController.CreateToDoListItem "Milk";
            VanillaToDoListController.ToggleAllToDoListItems] H eq_refl).
Defined.

(** A third list is created in the sample collection. *)
Lemma list_ids_stay_unique_witness :
  let this := fst (VanillaToDoListsModel.constructor sample_world) in
  let e := VanillaToDoListsController.CreateToDoList "Errands" in
  NoDup (List.map ToDoList.id (VanillaToDoListsModel.toDoLists this)) /\
  clock_ahead sample_world
    (List.map ToDoList.id (VanillaToDoListsModel.toDoLists this)) /\
  let '(this', w') := VanillaToDoListsController.handle e this sample_world in
  NoDup (List.map ToDoList.id (VanillaToDoListsModel.toDoLists this')) /\
  clock_ahead w' (List.map ToDoList.id (VanillaToDoListsModel.toDoLists this')).
Proof.
  cbv zeta.
  assert (H1 : NoDup (List.map ToDoList.id
                        (VanillaToDoListsModel.toDoLists
                           (fst (VanillaToDoListsModel.constructor sample_world))))).
  { simpl. apply NoDup_cons. split; [|apply NoDup_singleton].
    intros Hin. apply list_elem_of_singleton in Hin. discriminate. }
  assert (H2 : clock_ahead sample_world
                 (List.map ToDoList.id
                    (VanillaToDoListsModel.toDoLists
                       (fst (VanillaToDoListsModel.constructor sample_world))))).
  { apply sample_clock_ahead. simpl. repeat constructor; lia. }
  split; [exact H1|]. split; [exact H2|].
  exact (list_ids_stay_unique
           (VanillaToDoListsController.CreateToDoList "Errands") _ sample_world
           H1 H2).
Defined.

(** An item is created in list 1 of the sample collection. *)
Lemma item_ids_stay_unique_witness :
  let this := fst (VanillaToDoListModel.constructor (Js.Int 1) sample_world) in
  let e := VanillaToDoListController.CreateToDoListItem "Milk" in
  coherent this /\
  NoDup (List.map ToDoListItem.id (VanillaToDoListModel.getItems this)) /\
  clock_ahead sample_world
    (List.map ToDoListItem.id (VanillaToDoListModel.getItems this)) /\
  let '(this', w') := VanillaToDoListController.handle e this sample_world in
  coherent this' /\
  NoDup (List.map ToDoListItem.id (VanillaToDoListModel.getItems this')) /\
  clock_ahead w' (List.map ToDoListItem.id (VanillaToDoListModel.getItems this')).
Proof.
  cbv zeta.
  set (this := fst (VanillaToDoListModel.constructor (Js.Int 1) sample_world)).
  assert (H0 : coherent this).
  { unfold coherent. simpl. eexists. split; reflexivity. }
  assert (H1 : NoDup (List.map ToDoListItem.id
                        (VanillaToDoListModel.getItems this))).
  { simpl. apply NoDup_cons. split; [|apply NoDup_singleton].
    intros Hin. apply list_elem_of_singleton in Hin. discriminate. }
  assert (H2 : clock_ahead sample_world
                 (List.map ToDoListItem.id (VanillaToDoListModel.getItems this))).
  { apply sample_clock_ahead. simpl. repeat constructor; lia. }
  split; [exact H0|]. split; [exact H1|]. split; [exact H2|].
  exact (item_ids_stay_unique
           (VanillaToDoListController.CreateToDoListItem "Milk") this
           sample_world H0 H1 H2).
Defined.

(** A list is created in the sample collection and deleted again. *)
Lemma create_then_delete_restores_witness :
  let this := fst (VanillaToDoListsModel.constructor sample_world) in
  Forall (fun l => ToDoList.id l <> getTime (clock sample_world 0))
    (VanillaToDoListsModel.toDoLists this) /\
  let '(this1, w1) :=
    VanillaToDoListsModel.createToDoList "Errands" this sample_world in
  let '(this2, w2) :=
    VanillaToDoListsModel.deleteToDoList
      (Js.Int (getTime (clock sample_world 0))) this1 w1 in
  this2 = this /\
  localStorage w2 = Some (VanillaToDoListsModel.toDoLists this).
Proof.
  cbv zeta.
  assert (H : Forall (fun l => ToDoList.id l <> getTime (clock sample_world 0))
                (VanillaToDoListsModel.toDoLists
                   (fst (VanillaToDoListsModel.constructor sample_world)))).
  { simpl. repeat constructor; discriminate. }
  split; [exact H|].
  exact (create_then_delete_restores _ sample_world "Errands" H).
Defined.

(** Two lists are created while the clock stands still. *)
Lemma same_millisecond_lists_share_their_fate_witness :
  let this := fst (VanillaToDoListsModel.constructor sample_stalled_world) in
  getTime (clock sample_stalled_world 1) = getTime (clock sample_stalled_world 0) /\
  let '(this1, w1) :=
    VanillaToDoListsModel.createToDoList "a" this sample_stalled_world in
  let '(this2, w2) := VanillaToDoListsModel.createToDoList "b" this1 w1 in
  VanillaToDoListsModel.toDoLists
    (fst (VanillaToDoListsModel.deleteToDoList (Js.Int 1700000000000) this2 w2)) =
  [sample_list1; sample_list2].
Proof.
  cbv zeta. split; [reflexivity|].
  pose proof (same_millisecond_lists_share_their_fate
                (fst (VanillaToDoListsModel.constructor sample_stalled_world))
                sample_stalled_world "a" "b" eq_refl) as T.
  destruct (VanillaToDoListsModel.createToDoList "a" _ sample_stalled_world)
    as [this1 w1].
  destruct (VanillaToDoListsModel.createToDoList "b" this1 w1) as [this2 w2].
  exact (proj2 T).
Defined.

Lemma sample_lists_boolean :
  Forall (fun l => Js.is_boolean (ToDoList.done l) = true)
    [sample_list1; sample_list2].
Proof. by repeat constructor. Qed.

Lemma sample_items_boolean :
  Forall (fun i => Js.is_boolean (ToDoListItem.done i) = true)
    [sample_itemA; sample_itemB].
Proof. by repeat constructor. Qed.

Lemma sample_list1_coherent :
  coherent (fst (VanillaToDoListModel.constructor (Js.Int 1) sample_world)).
Proof. unfold coherent. simpl. eexists. split; reflexivity. Qed.

(** List 2 of the sample collection is toggled. *)
Lemma list_flags_stay_boolean_witness :
  let this := {| VanillaToDoListsModel.toDoLists := [sample_list1; sample_list2] |} in
  let e := VanillaToDoListsController.ToggleToDoList (Js.Int 2) in
  Forall (fun l => Js.is_boolean (ToDoList.done l) = true)
    (VanillaToDoListsModel.toDoLists this) /\
  Forall (fun l => Js.is_boolean (ToDoList.done l) = true)
    (VanillaToDoListsModel.toDoLists
       (fst (VanillaToDoListsController.handle e this sample_world))).
Proof.
  cbv zeta. split; [exact sample_lists_boolean|].
  exact (proj1 (list_flags_stay_boolean
                  (VanillaToDoListsController.ToggleToDoList (Js.Int 2))
                  {| VanillaToDoListsModel.toDoLists :=
                       [sample_list1; sample_list2] |}
                  sample_world sample_lists_boolean)).
Defined.

(** Item B of list 1 is deleted. *)
Lemma item_flags_stay_boolean_witness :
  let this := fst (VanillaToDoListModel.constructor (Js.Int 1) sample_world) in
  let e := VanillaToDoListController.DeleteToDoListItem (Js.Int 12) in
  coherent this /\
  Forall (fun i => Js.is_boolean (ToDoListItem.done i) = true)
    (VanillaToDoListModel.getItems this) /\
  Forall (fun i => Js.is_boolean (ToDoListItem.done i) = true)
    (VanillaToDoListModel.getItems
       (fst (VanillaToDoListController.handle e this sample_world))).
Proof.
  cbv zeta. split; [exact sample_list1_coherent|].
  split; [exact sample_items_boolean|].
  exact (proj1 (item_flags_stay_boolean
                  (VanillaToDoListController.DeleteToDoListItem (Js.Int 12))
                  _ sample_world sample_list1_coherent sample_items_boolean)).
Defined.

(** The page of list 1: item A under pending, item B under done. *)
Lemma item_rows_under_each_filter_witness :
  Forall (fun i => Js.is_boolean (ToDoListItem.done i) = true)
    (payload_items (Found sample_list1)) /\
  Forall (fun r => VanillaToDoListView.row_class r = "pending" /\
                   VanillaToDoListView.select_checked r = false)
    (rowsOf (VanillaToDoListView.section
               (VanillaToDoListView.render sample_querySelector
                  (Found sample_list1) "#pending"))).
Proof.
  split; [exact sample_items_boolean|].
  exact (proj1 (proj2 (item_rows_under_each_filter sample_querySelector
                         (Found sample_list1)
                         sample_items_boolean))).
Defined.

(** The overview of the sample collection. *)
Lemma list_rows_under_each_filter_witness :
  Forall (fun l => Js.is_boolean (ToDoList.done l) = true)
    [sample_list1; sample_list2] /\
  Forall (fun r => VanillaToDoListsView.row_class r = "done" /\
                   VanillaToDoListsView.select_checked r = true)
    (rowsOf (VanillaToDoListsView.section
               (VanillaToDoListsView.render sample_querySelector
                  [sample_list1; sample_list2] "#done"))).
Proof.
  split; [exact sample_lists_boolean|].
  exact (proj1 (list_rows_under_each_filter sample_querySelector
                  [sample_list1; sample_list2] sample_lists_boolean)).
Defined.

(** Of the two lists of id 5, the row of the second holds a preview of the
    first. *)
Lemma preview_shows_the_first_list_with_the_id_witness :
  let toDoLists :=
    [sample_twin "first" false; sample_list2; sample_twin "second" true] in
  localStorage sample_twins_world = Some toDoLists /\
  toDoLists !! 0 = Some (sample_twin "first" false) /\
  (forall j l', toDoLists !! j = Some l' -> j < 0 ->
                ToDoList.id l' <> ToDoList.id (sample_twin "first" false)) /\
  sample_twin "second" true ∈ toDoLists /\
  ToDoList.id (sample_twin "second" true) =
    ToDoList.id (sample_twin "first" false) /\
  VanillaToDoListPreview.constructor
    (VanillaToDoListsView.row_id
       (VanillaToDoListsView.renderList (sample_twin "second" true)))
    sample_twins_world =
  (VanillaToDoListPreviewView.render (Found (sample_twin "first" false)),
   sample_twins_world).
Proof.
  cbv zeta.
  assert (H3 : forall j l',
             [sample_twin "first" false; sample_list2; sample_twin "second" true]
               !! j = Some l' -> j < 0 ->
             ToDoList.id l' <> ToDoList.id (sample_twin "first" false))
    by (intros j l' _ Hj; lia).
  assert (H4 : sample_twin "second" true ∈
               [sample_twin "first" false; sample_list2; sample_twin "second" true])
    by (do 2 apply list_elem_of_further; apply list_elem_of_here).
  split; [reflexivity|]. split; [reflexivity|]. split; [exact H3|].
  split; [exact H4|]. split; [reflexivity|].
  exact (preview_shows_the_first_list_with_the_id sample_twins_world _ 0
           (sample_twin "first" false) (sample_twin "second" true)
           eq_refl eq_refl H3 H4 eq_refl).
Defined.

(** An item is created in list 1 of the sample collection. *)
Lemma createToDoListItem_appends_fresh_item_witness :
  let this := fst (VanillaToDoListModel.constructor (Js.Int 1) sample_world) in
  coherent this /\
  List.map ToDoListItem.text
    (VanillaToDoListModel.getItems
       (fst (VanillaToDoListModel.createToDoListItem "Milk" this sample_world))) =
  ["A"; "B"; "Milk"].
Proof.
  cbv zeta. split; [exact sample_list1_coherent|].
  pose proof (createToDoListItem_appends_fresh_item "Milk" _ sample_world
                sample_list1_coherent) as T.
  cbv zeta in T.
  destruct (VanillaToDoListModel.createToDoListItem "Milk" _ sample_world)
    as [this' w'].
  destruct T as [T _]. cbn [fst]. rewrite T. reflexivity.
Defined.

(** The page of id 99, which no list of the sample collection has. *)
Lemma invalid_page_shows_what_it_does_not_store_witness :
  Forall (fun l => Js.Int (ToDoList.id l) <> Js.Int 99) (load sample_world) /\
  let '(this, w0) := VanillaToDoListModel.constructor (Js.Int 99) sample_world in
  let '(this', w') := VanillaToDoListModel.createToDoListItem "Milk" this w0 in
  load w' = load sample_world.
Proof.
  assert (H : Forall (fun l => Js.Int (ToDoList.id l) <> Js.Int 99)
                (load sample_world)).
  { repeat constructor; discriminate. }
  split; [exact H|].
  pose proof (invalid_page_shows_what_it_does_not_store sample_querySelector
                (Js.Int 99) sample_world
                "Milk" "" H) as T.
  destruct (VanillaToDoListModel.constructor (Js.Int 99) sample_world)
    as [this w0].
  destruct (VanillaToDoListModel.createToDoListItem "Milk" this w0)
    as [this' w'].
  exact (proj1 (proj2 (proj2 (proj2 T)))).
Defined.

Lemma sample_names_filled :
  Forall (fun l => blank (ToDoList.name l) = false) [sample_list1; sample_list2].
Proof. by repeat constructor. Qed.

Lemma sample_texts_filled :
  Forall (fun i => blank (ToDoListItem.text i) = false)
    [sample_itemA; sample_itemB].
Proof. by repeat constructor. Qed.

(** Enter is pressed in the overview's input with two spaces typed. *)
Lemma overview_names_stay_filled_witness :
  let this := {| VanillaToDoListsModel.toDoLists := [sample_list1; sample_list2] |} in
  let ev := VanillaToDoListsViewEvents.CreateKeydown "Enter" "  " in
  Forall (fun l => blank (ToDoList.name l) = false)
    (VanillaToDoListsModel.toDoLists this) /\
  Forall (fun l => blank (ToDoList.name l) = false)
    (VanillaToDoListsModel.toDoLists
       (fst (VanillaToDoListsViewEvents.run
               (snd (VanillaToDoListsViewEvents.react 0 ev)) this sample_world))).
Proof.
  cbv zeta. split; [exact sample_names_filled|].
  exact (overview_names_stay_filled 0
           (VanillaToDoListsViewEvents.CreateKeydown "Enter" "  ")
           {| VanillaToDoListsModel.toDoLists := [sample_list1; sample_list2] |}
           sample_world sample_names_filled).
Defined.

(** Enter is pressed in the input of list 1 with "Milk" typed. *)
Lemma item_texts_stay_filled_witness :
  let this := fst (VanillaToDoListModel.constructor (Js.Int 1) sample_world) in
  let ev := VanillaToDoListViewEvents.CreateKeydown "Enter" "Milk" in
  coherent this /\
  Forall (fun i => blank (ToDoListItem.text i) = false)
    (VanillaToDoListModel.getItems this) /\
  Forall (fun i => blank (ToDoListItem.text i) = false)
    (VanillaToDoListModel.getItems
       (fst (VanillaToDoListViewEvents.run
               (snd (VanillaToDoListViewEvents.react 0 ev)) this sample_world))).
Proof.
  cbv zeta. split; [exact sample_list1_coherent|].
  split; [exact sample_texts_filled|].
  exact (item_texts_stay_filled 0
           (VanillaToDoListViewEvents.CreateKeydown "Enter" "Milk")
           _ sample_world sample_list1_coherent sample_texts_filled).
Defined.

(** The name of list 2 of the sample collection is edited and left as it
    is. *)
Lemma edit_renames_only_on_change_witness :
  let this := {| VanillaToDoListsModel.toDoLists := [sample_list1; sample_list2] |} in
  VanillaToDoListsModel.toDoLists this !! 1 = Some sample_list2 /\
  VanillaToDoListsViewEvents.run
    (snd (VanillaToDoListsViewEvents.react 0
            (VanillaToDoListsViewEvents.UpdateBlur
               (VanillaToDoListsView.renderList sample_list2) "Chores")))
    this sample_world = (this, sample_world).
Proof.
  cbv zeta. split; [reflexivity|].
  exact (proj2 (proj2 (proj2
           (edit_renames_only_on_change 0
              {| VanillaToDoListsModel.toDoLists := [sample_list1; sample_list2] |}
              sample_world 1 sample_list2 "Enter" "Chores" eq_refl)))).
Defined.

(** The checkbox of list 1 of the sample collection is clicked twice. *)
Lemma double_click_toggles_twice_witness :
  let this := {| VanillaToDoListsModel.toDoLists := [sample_list1; sample_list2] |} in
  let click := VanillaToDoListsViewEvents.ToggleClick
                 (VanillaToDoListsView.renderList sample_list1) in
  Forall (fun l => Js.is_boolean (ToDoList.done l) = true)
    (VanillaToDoListsModel.toDoLists this) /\
  let '(n1, calls1) := VanillaToDoListsViewEvents.react 0 click in
  let '(n2, calls2) := VanillaToDoListsViewEvents.react n1 click in
  fst (VanillaToDoListsViewEvents.run (calls1 ++ calls2) this sample_world) = this.
Proof.
  cbv zeta. split; [exact sample_lists_boolean|].
  pose proof (double_click_toggles_twice 0
                {| VanillaToDoListsModel.toDoLists := [sample_list1; sample_list2] |}
                sample_world sample_list1 sample_lists_boolean) as T.
  cbv zeta in T.
  destruct (VanillaToDoListsViewEvents.react 0 _) as [n1 calls1].
  destruct (VanillaToDoListsViewEvents.react n1 _) as [n2 calls2].
  destruct T as [_ T].
  destruct (VanillaToDoListsViewEvents.run (calls1 ++ calls2) _ sample_world)
    as [this' w'].
  exact (proj1 T).
Defined.

(** A tooltip 200 pixels high, the pointer 100 pixels above the bottom of
    a window 800 pixels high. *)
Lemma tooltip_stays_in_the_window_witness :
  (0 <= 700 <= 800)%Z /\
  let '(styleTop, styleLeft) := handleWindowMouseMove 800 40 700 200 in
  (styleTop + 200 <= 800)%Z /\ styleLeft = 40%Z.
Proof.
  assert (H : (0 <= 700 <= 800)%Z) by lia.
  split; [exact H|].
  pose proof (tooltip_stays_in_the_window 800 40 700 200 H) as T.
  destruct (handleWindowMouseMove 800 40 700 200) as [t l].
  exact (conj (proj1 T) (proj2 (proj2 (proj2 T)))).
Defined.

(** The link of list 1 of the sample collection. *)
Lemma link_routes_to_the_list_witness :
  (0 <= ToDoList.id sample_list1 < 2 ^ 53)%Z /\
  Router.innerHTML
    (Router.eventHandler
       (VanillaToDoListsView.link_href
          (VanillaToDoListsView.renderList sample_list1))) =
  "<vanilla-to-do-list id=" +:+ Router.quote +:+ "1" +:+ Router.quote +:+
  "></vanilla-to-do-list>".
Proof.
  assert (H : (0 <= ToDoList.id sample_list1 < 2 ^ 53)%Z) by (simpl; lia).
  split; [exact H|].
  pose proof (link_routes_to_the_list sample_list1 H) as T.
  cbv zeta in T. destruct T as [T _]. rewrite T. reflexivity.
Defined.

(** ** The code at more sample data *)

(** What counts as white space for the inputs: spaces and tabs, the
    no-break space (bytes 194 160), the em space U+2003 (226 128 131) and
    the byte order mark (239 187 191) do; a letter, and the zero width
    space U+200B (226 128 139), do not. *)
Example blank_samples :
  let bytes := fold_right (fun b s => String (Ascii.ascii_of_nat b) s) "" in
  List.map blank
    [""; "  "; bytes [9; 32; 10]; bytes [194; 160]; bytes [226; 128; 131];
     bytes [239; 187; 191]; bytes [32; 227; 128; 128; 32];
     "a"; " a "; bytes [226; 128; 139]; bytes [194]; bytes [226; 128]] =
  [true; true; true; true; true; true; true;
   false; false; false; false; false].
Proof. reflexivity. Qed.

(** The router at the paths of the application. *)
Example eventHandler_samples :
  List.map Router.eventHandler
    ["/"; "/vanilla-to-do-list/"; "/to-do-list"; "/nowhere/3"] =
  [{| Router.innerHTML := "<vanilla-to-do-lists></vanilla-to-do-lists>";
      Router.navigationHidden := true |};
   {| Router.innerHTML := "<vanilla-to-do-lists></vanilla-to-do-lists>";
      Router.navigationHidden := true |};
   {| Router.innerHTML := "<vanilla-to-do-list></vanilla-to-do-list>";
      Router.navigationHidden := false |};
   {| Router.innerHTML :=
        "<undefined id=" +:+ Router.quote +:+ "3" +:+ Router.quote +:+
        "></undefined>";
      Router.navigationHidden := true |}].
Proof. reflexivity. Qed.

(** The yes button after the clear button was clicked twice, with a no in
    between: two calls. *)
Example clear_twice_sample :
  let n :=
    yesListenersAfter
      [VanillaToDoListsViewEvents.ClearClick;
       VanillaToDoListsViewEvents.ClearNoClick;
       VanillaToDoListsViewEvents.ClearClick] in
  n = 2 /\
  snd (VanillaToDoListsViewEvents.react n VanillaToDoListsViewEvents.ClearYesClick) =
  [(0, VanillaToDoListsController.ClearToDoLists);
   (0, VanillaToDoListsController.ClearToDoLists)].
Proof. split; reflexivity. Qed.
